(** * comgo: decoding COMTRADE configuration (.cfg) and binary data (.dat)

    A shallow embedding of [comgo.go]: the configuration decoder [ReadCFG]
    and the sample extractor [GetAnalogChannelData], together with the parts
    of Go's standard library they call ([bytes], [strings], [strconv],
    [time], [encoding/binary]).

    Conventions.
    - A Go [[]byte] and a Go [string] are both a [list ascii] (type [bytes]);
      the conversion [string(b)] is the identity.  String constants of the
      source (error messages, map keys) are Rocq [string]s.
    - Go's fixed-width integers are [Z] with the wrap-around written out
      ([wrap16], [wrap64]); [int] is 64 bits wide.
    - A Go function that can return an error or panic returns a [result]:
      [Ok], [Err] (an [error] value was returned) or [Panic] (a run-time
      panic unwound the call).
    - [float64] and the operations on it are an interface ([Float64]); the
      theorems hold for every implementation of it. *)

From Stdlib Require Import ZArith Ascii String List Lia QArith Qround Floats Uint63.
From stdpp Require Import base gmap strings list.

Open Scope Z_scope.

(** ** Bytes *)

Abbreviation bytes := (list ascii).

(** The bytes of a string constant. *)
Definition B (s : string) : bytes := list_ascii_of_string s.

Definition byteZ (c : ascii) : Z := Z.of_nat (nat_of_ascii c).

Definition wrap (w : Z) (x : Z) : Z := x mod 2 ^ w.
Definition wrap8 : Z -> Z := wrap 8.
Definition wrap16 : Z -> Z := wrap 16.
Definition wrap64 : Z -> Z := wrap 64.

(** A signed [w]-bit integer from its unsigned bit pattern. *)
Definition signed (w : Z) (x : Z) : Z :=
  let u := wrap w x in if u <? 2 ^ (w - 1) then u else u - 2 ^ w.

(** ** Results of Go calls *)

Inductive NumErrKind := ErrSyntax | ErrRange.

Inductive error :=
| errorString (msg : string)                 (* errors.New(msg), fmt.Errorf(msg) *)
| errorf (format : string) (arg : Z)         (* fmt.Errorf(format, arg) with one %d *)
| NumError (func : string) (num : bytes) (kind : NumErrKind)  (* *strconv.NumError *)
| ParseError (layout : string) (value : bytes)               (* *time.ParseError *)
| EOF
| ErrUnexpectedEOF.

Inductive panic :=
| IndexOutOfRange (index len : Z)            (* index out of range [index] with length len *)
| SliceBoundsOutOfRange (bound cap : Z).     (* slice bounds out of range *)

Inductive result (A : Type) :=
| Ok (a : A)
| Err (e : error)
| Panic (p : panic).
Arguments Ok {A} a.
Arguments Err {A} e.
Arguments Panic {A} p.

Definition rbind {A C : Type} (r : result A) (k : A -> result C) : result C :=
  match r with
  | Ok a => k a
  | Err e => Err e
  | Panic p => Panic p
  end.

(** [xs[i]] on a Go slice or array. *)
Definition index {A : Type} (xs : list A) (i : Z) : result A :=
  if (i <? 0) || (Z.of_nat (length xs) <=? i) then Panic (IndexOutOfRange i (Z.of_nat (length xs)))
  else match xs !! Z.to_nat i with
       | Some x => Ok x
       | None => Panic (IndexOutOfRange i (Z.of_nat (length xs)))
       end.

(** ** Package bytes / strings *)

Module GoBytes.

(** [bytes.Split(s, sep)] for a one-byte separator (all call sites of the
    source pass one: newline, comma, space): every separator ends a field;
    the result always has at least one element. *)
Fixpoint Split (s : bytes) (sep : ascii) : list bytes :=
  match s with
  | [] => [[]]
  | c :: s' =>
      if decide (c = sep) then [] :: Split s' sep
      else match Split s' sep with
           | f :: fs => (c :: f) :: fs
           | [] => [[c]]
           end
  end.

(** [bytes.Join(s, sep)]. *)
Fixpoint Join (s : list bytes) (sep : bytes) : bytes :=
  match s with
  | [] => []
  | [f] => f
  | f :: fs => f ++ sep ++ Join fs sep
  end.

(** [bytes.Contains(b, sub)] for a one-byte [sub]. *)
Definition Contains (b : bytes) (c : ascii) : bool := bool_decide (c ∈ b).

(** [bytes.TrimSuffix(b, suffix)] for a one-byte [suffix]. *)
Definition TrimSuffix (b : bytes) (c : ascii) : bytes :=
  match reverse b with
  | c' :: r => if decide (c' = c) then reverse r else b
  | [] => b
  end.

(** The white space of [unicode.IsSpace], as UTF-8 encodings: the six ASCII
    characters tab, newline, vertical tab, form feed, carriage return and
    space, then U+0085, U+00A0, U+1680, U+2000..U+200A, U+2028, U+2029,
    U+202F, U+205F and U+3000. *)
Definition spaceRunes : list bytes :=
  [ ["009"%char]; ["010"%char]; ["011"%char]; ["012"%char]; ["013"%char]; ["032"%char];
    ["194"%char; "133"%char]; ["194"%char; "160"%char];
    ["225"%char; "154"%char; "128"%char];
    ["226"%char; "128"%char; "128"%char]; ["226"%char; "128"%char; "129"%char];
    ["226"%char; "128"%char; "130"%char]; ["226"%char; "128"%char; "131"%char];
    ["226"%char; "128"%char; "132"%char]; ["226"%char; "128"%char; "133"%char];
    ["226"%char; "128"%char; "134"%char]; ["226"%char; "128"%char; "135"%char];
    ["226"%char; "128"%char; "136"%char]; ["226"%char; "128"%char; "137"%char];
    ["226"%char; "128"%char; "138"%char];
    ["226"%char; "128"%char; "168"%char]; ["226"%char; "128"%char; "169"%char];
    ["226"%char; "128"%char; "175"%char];
    ["226"%char; "129"%char; "159"%char];
    ["227"%char; "128"%char; "128"%char] ].

Fixpoint stripPrefix (p s : bytes) : option bytes :=
  match p, s with
  | [], _ => Some s
  | a :: p', c :: s' => if decide (a = c) then stripPrefix p' s' else None
  | _ :: _, [] => None
  end.

(** Removes one leading rune of [runes], when there is one. *)
Fixpoint dropRune (runes : list bytes) (s : bytes) : option bytes :=
  match runes with
  | [] => None
  | r :: rs => match stripPrefix r s with
               | Some s' => Some s'
               | None => dropRune rs s
               end
  end.

(** Removes leading runes of [runes]; [fuel] bounds the number of runes
    removed, and the length of [s] is always enough of it. *)
Fixpoint trimLeft (fuel : nat) (runes : list bytes) (s : bytes) : bytes :=
  match fuel with
  | O => s
  | S fuel' => match dropRune runes s with
               | Some s' => trimLeft fuel' runes s'
               | None => s
               end
  end.

(** [bytes.TrimSpace] and [strings.TrimSpace]: white-space runes are removed
    from the left, then from the right (where a rune is recognised by the
    reversed bytes of its encoding). *)
Definition TrimSpace (s : bytes) : bytes :=
  let l := trimLeft (length s) spaceRunes s in
  reverse (trimLeft (length l) (map reverse spaceRunes) (reverse l)).

End GoBytes.

(** ** Package strconv *)

Module Strconv.

Definition isDigit (c : ascii) : bool := (48 <=? byteZ c) && (byteZ c <=? 57).

(** The loop of [ParseUint] in base 10: [n] is the value so far.  The first
    byte that is no digit is a syntax error; the first digit that takes the
    value above [maxVal] (or above 64 bits) is a range error. *)
Fixpoint parseUintLoop (maxVal : Z) (s : bytes) (n : Z) : Z + NumErrKind :=
  match s with
  | [] => inl n
  | c :: s' =>
      if negb (isDigit c) then inr ErrSyntax
      else
        let d := byteZ c - 48 in
        let cutoff := (2 ^ 64 - 1) / 10 + 1 in
        if cutoff <=? n then inr ErrRange
        else
          let n := n * 10 in
          let n1 := wrap64 (n + d) in
          if (n1 <? n) || (maxVal <? n1) then inr ErrRange
          else parseUintLoop maxVal s' n1
  end.

(** [strconv.ParseUint(s, 10, bitSize)], the error without its [Func] and
    [Num] fields. *)
Definition parseUint10 (s : bytes) (bitSize : Z) : Z + NumErrKind :=
  match s with
  | [] => inr ErrSyntax
  | _ => parseUintLoop (2 ^ bitSize - 1) s 0
  end.

Definition ParseUint (s : bytes) (bitSize : Z) : result Z :=
  match parseUint10 s bitSize with
  | inl n => Ok n
  | inr k => Err (NumError "ParseUint" s k)
  end.

(** [strconv.ParseInt(s, 10, 0)], the error without its [Func] and [Num]
    fields: a sign, then [ParseUint] on 64 bits, then the range of [int64]. *)
Definition parseInt10 (s : bytes) : Z + NumErrKind :=
  match s with
  | [] => inr ErrSyntax
  | c :: s' =>
      let neg := bool_decide (c = "-"%char) in
      let s1 := if bool_decide (c = "+"%char) || neg then s' else s in
      match parseUint10 s1 64 with
      | inr ErrSyntax => inr ErrSyntax
      | r =>
          let un := match r with inl n => n | inr _ => 2 ^ 64 - 1 end in
          let cutoff := 2 ^ 63 in
          if negb neg && (cutoff <=? un) then inr ErrRange
          else if neg && (cutoff <? un) then inr ErrRange
          else inl (if neg then - un else un)
      end
  end.

(** The fast path of [Atoi]: fewer than 19 bytes, so that no overflow is
    possible. *)
Fixpoint atoiFast (s : bytes) (n : Z) : option Z :=
  match s with
  | [] => Some n
  | c :: s' => if isDigit c then atoiFast s' (n * 10 + (byteZ c - 48)) else None
  end.

(** [strconv.Atoi(s)] on a 64-bit platform. *)
Definition Atoi (s : bytes) : result Z :=
  let sLen := Z.of_nat (length s) in
  if (0 <? sLen) && (sLen <? 19) then
    match s with
    | [] => Err (NumError "Atoi" s ErrSyntax)
    | c :: s' =>
        let signed := bool_decide (c = "-"%char) || bool_decide (c = "+"%char) in
        let digits := if signed then s' else s in
        if signed && bool_decide (digits = []) then Err (NumError "Atoi" s ErrSyntax)
        else match atoiFast digits 0 with
             | Some n => Ok (if bool_decide (c = "-"%char) then - n else n)
             | None => Err (NumError "Atoi" s ErrSyntax)
             end
    end
  else
    match parseInt10 s with
    | inl n => Ok n
    | inr k => Err (NumError "Atoi" s k)
    end.

End Strconv.

(** ** Package time *)

Module GoTime.

(** A [time.Time] in UTC, by the fields [time.Date] builds it from. *)
Record Time := mkTime {
  year : Z; month : Z; day : Z;
  hour : Z; minute : Z; second : Z; nanosecond : Z
}.

(** The zero [Time]: January 1, year 1, 00:00:00 UTC. *)
Definition zeroTime : Time := mkTime 1 1 1 0 0 0 0.

Definition isDigitAt (s : bytes) (i : nat) : bool :=
  match s !! i with
  | Some c => Strconv.isDigit c
  | None => false
  end.

(** [getnum(s, fixed)]: a number of one or two digits, of exactly two when
    [fixed]. *)
Definition getnum (s : bytes) (fixed : bool) : option (Z * bytes) :=
  match s with
  | c0 :: s1 =>
      if Strconv.isDigit c0 then
        match s1 with
        | c1 :: s2 =>
            if Strconv.isDigit c1
            then Some ((byteZ c0 - 48) * 10 + (byteZ c1 - 48), s2)
            else if fixed then None else Some (byteZ c0 - 48, s1)
        | [] => if fixed then None else Some (byteZ c0 - 48, s1)
        end
      else None
  | [] => None
  end.

(** [skip(value, prefix)] for a one-byte literal [prefix] of the layout that
    is not a space. *)
Definition skip (value : bytes) (prefix : ascii) : option bytes :=
  match value with
  | c :: v => if decide (c = prefix) then Some v else None
  | [] => None
  end.

(** [atoi] of package time on a string too short to overflow: an optional
    sign, then digits only (none at all give 0). *)
Definition atoi (s : bytes) : option Z :=
  match s with
  | c :: s' =>
      if bool_decide (c = "-"%char) then Z.opp <$> Strconv.atoiFast s' 0
      else if bool_decide (c = "+"%char) then Strconv.atoiFast s' 0
      else Strconv.atoiFast s 0
  | [] => Some 0
  end.

Definition isLeap (y : Z) : bool :=
  (y mod 4 =? 0) && (negb (y mod 100 =? 0) || (y mod 400 =? 0)).

Definition daysIn (m y : Z) : Z :=
  if m =? 2 then (if isLeap y then 29 else 28)
  else 30 + Z.land (m + Z.shiftr m 3) 1.

Definition commaOrPeriod (c : ascii) : bool :=
  bool_decide (c = "."%char) || bool_decide (c = ","%char).

(** [parseNanoseconds(value, 7)]: the separator, then six bytes read by
    [atoi] and scaled to nanoseconds; [None] is any failure, a negative
    number included. *)
Definition parseNanoseconds (value : bytes) : option Z :=
  match value with
  | c :: v =>
      if commaOrPeriod c then
        match atoi (take 6 v) with
        | Some ns => if ns <? 0 then None else Some (ns * 1000)
        | None => None
        end
      else None
  | [] => None
  end.

Definition bindO {A C : Type} (o : option A) (k : A -> option C) : option C :=
  match o with Some a => k a | None => None end.

(** [time.Parse(TimeFormat, value)] for the layout of the source,
    [02/01/2006T15:04:05.000000], element by element: two-digit day, [/],
    two-digit month in 1..12, [/], four-digit year, [T], hour of one or two
    digits below 24, [:], two-digit minute, [:], two-digit second, then a
    period or comma and six digits; nothing may follow; at the end the day
    is checked against the month.  [None] is a [*time.ParseError]. *)
Definition parseLayout (value : bytes) : option Time :=
  bindO (getnum value true) (fun '(day, value) =>
  bindO (skip value "/"%char) (fun value =>
  bindO (getnum value true) (fun '(month, value) =>
  if (month <=? 0) || (12 <? month) then None else
  bindO (skip value "/"%char) (fun value =>
  if (Z.of_nat (length value) <? 4) || negb (isDigitAt value 0) then None else
  bindO (atoi (take 4 value)) (fun year =>
  let value := drop 4 value in
  bindO (skip value "T"%char) (fun value =>
  bindO (getnum value false) (fun '(hour, value) =>
  if (hour <? 0) || (24 <=? hour) then None else
  bindO (skip value ":"%char) (fun value =>
  bindO (getnum value true) (fun '(min, value) =>
  if (min <? 0) || (60 <=? min) then None else
  bindO (skip value ":"%char) (fun value =>
  bindO (getnum value true) (fun '(sec, value) =>
  if (sec <? 0) || (60 <=? sec) then None else
  if Z.of_nat (length value) <? 7 then None else
  bindO (parseNanoseconds value) (fun nsec =>
  let value := drop 7 value in
  if negb (bool_decide (value = [])) then None else
  if (day <? 1) || (daysIn month year <? day) then None else
  Some (mkTime year month day hour min sec nsec))))))))))))).

End GoTime.

(** The layout constant of the source. *)
Definition TimeFormat : string := "02/01/2006T15:04:05.000000".

(** [time.Parse(TimeFormat, value)]. *)
Definition timeParse (value : bytes) : result GoTime.Time :=
  match GoTime.parseLayout value with
  | Some t => Ok t
  | None => Err (ParseError TimeFormat value)
  end.

(** ** float64 *)

(** The type [float64] with the operations the source applies to it.
    [ParseFloat64 s] is [strconv.ParseFloat(s, 64)], the error without its
    [Func] and [Num] fields; [int_of_float64] and [uint16_of_float64] are the
    conversions [int(f)] and [uint16(f)]. *)
Class Float64 := {
  float64 : Type;
  ParseFloat64 : bytes -> float64 + NumErrKind;
  float64_zero : float64;
  float64_one : float64;
  float64_of_int16 : Z -> float64;
  float64_mul : float64 -> float64 -> float64;
  float64_add : float64 -> float64 -> float64;
  int_of_float64 : float64 -> Z;
  uint16_of_float64 : float64 -> Z
}.

Definition ParseFloat `{Float64} (s : bytes) : result float64 :=
  match ParseFloat64 s with
  | inl f => Ok f
  | inr k => Err (NumError "ParseFloat" s k)
  end.

Definition len {A : Type} (xs : list A) : Z := Z.of_nat (length xs).

(** ** Data model *)

(** ChannelA - analog channel parameters.  A [uint16] is a [Z] in
    [0, 65536), an [int] a [Z]; [ConversionFactors] is the Go map from
    ["a"] and ["b"] to the factors of every channel (a nil map reads as the
    empty one). *)
Module ChannelA.
Section WithFloat.
Context `{Float64}.

Record t := mk {
  ChannelTotal : Z;
  ChannelNumber : list Z;
  ChannelNames : list bytes;
  ChannelPhases : list bytes;
  ChannelElements : list bytes;
  ChannelUnits : list bytes;
  ConversionFactors : gmap string (list float64);
  TimeFactors : list float64;
  ValueMin : list Z;
  ValueMax : list Z;
  Primary : list float64;
  Secondary : list float64;
  IsSecondaryMeasurement : list bool
}.

(** The zero value [ChannelA{}]. *)
Definition zero : t := mk 0 [] [] [] [] [] ∅ [] [] [] [] [] [].

Definition set_ChannelTotal (v : Z) (r : t) : t :=
  mk v (ChannelNumber r) (ChannelNames r) (ChannelPhases r) (ChannelElements r) (ChannelUnits r) (ConversionFactors r) (TimeFactors r) (ValueMin r) (ValueMax r) (Primary r) (Secondary r) (IsSecondaryMeasurement r).
Definition set_ChannelNumber (v : list Z) (r : t) : t :=
  mk (ChannelTotal r) v (ChannelNames r) (ChannelPhases r) (ChannelElements r) (ChannelUnits r) (ConversionFactors r) (TimeFactors r) (ValueMin r) (ValueMax r) (Primary r) (Secondary r) (IsSecondaryMeasurement r).
Definition set_ChannelNames (v : list bytes) (r : t) : t :=
  mk (ChannelTotal r) (ChannelNumber r) v (ChannelPhases r) (ChannelElements r) (ChannelUnits r) (ConversionFactors r) (TimeFactors r) (ValueMin r) (ValueMax r) (Primary r) (Secondary r) (IsSecondaryMeasurement r).
Definition set_ChannelPhases (v : list bytes) (r : t) : t :=
  mk (ChannelTotal r) (ChannelNumber r) (ChannelNames r) v (ChannelElements r) (ChannelUnits r) (ConversionFactors r) (TimeFactors r) (ValueMin r) (ValueMax r) (Primary r) (Secondary r) (IsSecondaryMeasurement r).
Definition set_ChannelElements (v : list bytes) (r : t) : t :=
  mk (ChannelTotal r) (ChannelNumber r) (ChannelNames r) (ChannelPhases r) v (ChannelUnits r) (ConversionFactors r) (TimeFactors r) (ValueMin r) (ValueMax r) (Primary r) (Secondary r) (IsSecondaryMeasurement r).
Definition set_ChannelUnits (v : list bytes) (r : t) : t :=
  mk (ChannelTotal r) (ChannelNumber r) (ChannelNames r) (ChannelPhases r) (ChannelElements r) v (ConversionFactors r) (TimeFactors r) (ValueMin r) (ValueMax r) (Primary r) (Secondary r) (IsSecondaryMeasurement r).
Definition set_ConversionFactors (v : gmap string (list float64)) (r : t) : t :=
  mk (ChannelTotal r) (ChannelNumber r) (ChannelNames r) (ChannelPhases r) (ChannelElements r) (ChannelUnits r) v (TimeFactors r) (ValueMin r) (ValueMax r) (Primary r) (Secondary r) (IsSecondaryMeasurement r).
Definition set_TimeFactors (v : list float64) (r : t) : t :=
  mk (ChannelTotal r) (ChannelNumber r) (ChannelNames r) (ChannelPhases r) (ChannelElements r) (ChannelUnits r) (ConversionFactors r) v (ValueMin r) (ValueMax r) (Primary r) (Secondary r) (IsSecondaryMeasurement r).
Definition set_ValueMin (v : list Z) (r : t) : t :=
  mk (ChannelTotal r) (ChannelNumber r) (ChannelNames r) (ChannelPhases r) (ChannelElements r) (ChannelUnits r) (ConversionFactors r) (TimeFactors r) v (ValueMax r) (Primary r) (Secondary r) (IsSecondaryMeasurement r).
Definition set_ValueMax (v : list Z) (r : t) : t :=
  mk (ChannelTotal r) (ChannelNumber r) (ChannelNames r) (ChannelPhases r) (ChannelElements r) (ChannelUnits r) (ConversionFactors r) (TimeFactors r) (ValueMin r) v (Primary r) (Secondary r) (IsSecondaryMeasurement r).
Definition set_Primary (v : list float64) (r : t) : t :=
  mk (ChannelTotal r) (ChannelNumber r) (ChannelNames r) (ChannelPhases r) (ChannelElements r) (ChannelUnits r) (ConversionFactors r) (TimeFactors r) (ValueMin r) (ValueMax r) v (Secondary r) (IsSecondaryMeasurement r).
Definition set_Secondary (v : list float64) (r : t) : t :=
  mk (ChannelTotal r) (ChannelNumber r) (ChannelNames r) (ChannelPhases r) (ChannelElements r) (ChannelUnits r) (ConversionFactors r) (TimeFactors r) (ValueMin r) (ValueMax r) (Primary r) v (IsSecondaryMeasurement r).
Definition set_IsSecondaryMeasurement (v : list bool) (r : t) : t :=
  mk (ChannelTotal r) (ChannelNumber r) (ChannelNames r) (ChannelPhases r) (ChannelElements r) (ChannelUnits r) (ConversionFactors r) (TimeFactors r) (ValueMin r) (ValueMax r) (Primary r) (Secondary r) v.

(** [m.ConversionFactors[k] = append(m.GetConversionFactors()[k], v)]. *)
Definition append_factor (k : string) (v : float64) (r : t) : t :=
  set_ConversionFactors
    (<[k := default [] (ConversionFactors r !! k) ++ [v]]> (ConversionFactors r)) r.

(** The getters, on a pointer that may be nil. *)
Definition GetChannelTotal (m : option t) : Z :=
  match m with Some r => ChannelTotal r | None => 0 end.
Definition GetConversionFactors (m : option t) : gmap string (list float64) :=
  match m with Some r => ConversionFactors r | None => ∅ end.

End WithFloat.
End ChannelA.

(** ChannelD - digit channel parameters. *)
Module ChannelD.

Record t := mk {
  ChannelTotal : Z;
  ChannelNumber : list Z;
  ChannelNames : list bytes;
  ChannelPhases : list bytes;
  ChannelElements : list bytes;
  InitialState : list Z
}.

Definition zero : t := mk 0 [] [] [] [] [].

Definition set_ChannelTotal (v : Z) (r : t) : t :=
  mk v (ChannelNumber r) (ChannelNames r) (ChannelPhases r) (ChannelElements r) (InitialState r).
Definition set_ChannelNumber (v : list Z) (r : t) : t :=
  mk (ChannelTotal r) v (ChannelNames r) (ChannelPhases r) (ChannelElements r) (InitialState r).
Definition set_ChannelNames (v : list bytes) (r : t) : t :=
  mk (ChannelTotal r) (ChannelNumber r) v (ChannelPhases r) (ChannelElements r) (InitialState r).
Definition set_ChannelPhases (v : list bytes) (r : t) : t :=
  mk (ChannelTotal r) (ChannelNumber r) (ChannelNames r) v (ChannelElements r) (InitialState r).
Definition set_ChannelElements (v : list bytes) (r : t) : t :=
  mk (ChannelTotal r) (ChannelNumber r) (ChannelNames r) (ChannelPhases r) v (InitialState r).
Definition set_InitialState (v : list Z) (r : t) : t :=
  mk (ChannelTotal r) (ChannelNumber r) (ChannelNames r) (ChannelPhases r) (ChannelElements r) v.

Definition GetChannelTotal (m : option t) : Z :=
  match m with Some r => ChannelTotal r | None => 0 end.

End ChannelD.

(** SampleRate - sampling rate and number of samples at that rate. *)
Module SampleRate.
Section WithFloat.
Context `{Float64}.

Record t := mk { Rate : float64; Number : Z }.

Definition GetNumber (m : t) : Z := Number m.

End WithFloat.
End SampleRate.

(** A Go byte slice: its bytes, and the bytes of its backing array between
    its length and its capacity.  Slicing is checked against the capacity,
    not the length. *)
Record byteSlice := mkSlice { contents : bytes; spare : bytes }.

Definition nilSlice : byteSlice := mkSlice [] [].

(** The slice that holds exactly [b], with no spare capacity. *)
Definition sliceOf (b : bytes) : byteSlice := mkSlice b [].

Definition slen (s : byteSlice) : Z := len (contents s).
Definition scap (s : byteSlice) : Z := len (contents s) + len (spare s).

(** [s[lo:hi]]. *)
Definition reslice (s : byteSlice) (lo hi : Z) : result byteSlice :=
  if (hi <? 0) || (scap s <? hi) then Panic (SliceBoundsOutOfRange hi (scap s))
  else if (lo <? 0) || (hi <? lo) then Panic (SliceBoundsOutOfRange lo hi)
  else
    let array := contents s ++ spare s in
    Ok (mkSlice (take (Z.to_nat (hi - lo)) (drop (Z.to_nat lo) array))
                (drop (Z.to_nat hi) array)).

(** [s[lo:]], that is [s[lo:len(s)]]. *)
Definition resliceFrom (s : byteSlice) (lo : Z) : result byteSlice :=
  reslice s lo (slen s).

Section WithFloat.
Context `{Float64}.

(** CFG - configuration parameters. *)
Record CFG := mkCFG {
  StationName : bytes;
  RecordDeviceId : bytes;
  RevisionYear : Z;
  ChannelNumber : Z;
  AnalogDetail : option ChannelA.t;
  DigitDetail : option ChannelD.t;
  LineFrequency : Z;
  SampleRateNum : Z;
  SampleDetail : list SampleRate.t;
  StartTime : GoTime.Time;
  TriggerTime : GoTime.Time;
  DataFileType : bytes;
  TimeFactor : float64;
  TimeCode : bytes;
  LocalCode : bytes;
  DataFileContent : byteSlice
}.

(** NewCFG returns the zero configuration [CFG{}]. *)
Definition NewCFG : CFG :=
  mkCFG [] [] 0 0 None None 0 0 [] GoTime.zeroTime GoTime.zeroTime [] float64_zero [] []
        nilSlice.

Definition set_StationName (v : bytes) (r : CFG) : CFG :=
  mkCFG v (RecordDeviceId r) (RevisionYear r) (ChannelNumber r) (AnalogDetail r) (DigitDetail r) (LineFrequency r) (SampleRateNum r) (SampleDetail r) (StartTime r) (TriggerTime r) (DataFileType r) (TimeFactor r) (TimeCode r) (LocalCode r) (DataFileContent r).
Definition set_RecordDeviceId (v : bytes) (r : CFG) : CFG :=
  mkCFG (StationName r) v (RevisionYear r) (ChannelNumber r) (AnalogDetail r) (DigitDetail r) (LineFrequency r) (SampleRateNum r) (SampleDetail r) (StartTime r) (TriggerTime r) (DataFileType r) (TimeFactor r) (TimeCode r) (LocalCode r) (DataFileContent r).
Definition set_RevisionYear (v : Z) (r : CFG) : CFG :=
  mkCFG (StationName r) (RecordDeviceId r) v (ChannelNumber r) (AnalogDetail r) (DigitDetail r) (LineFrequency r) (SampleRateNum r) (SampleDetail r) (StartTime r) (TriggerTime r) (DataFileType r) (TimeFactor r) (TimeCode r) (LocalCode r) (DataFileContent r).
Definition set_ChannelNumber (v : Z) (r : CFG) : CFG :=
  mkCFG (StationName r) (RecordDeviceId r) (RevisionYear r) v (AnalogDetail r) (DigitDetail r) (LineFrequency r) (SampleRateNum r) (SampleDetail r) (StartTime r) (TriggerTime r) (DataFileType r) (TimeFactor r) (TimeCode r) (LocalCode r) (DataFileContent r).
Definition set_AnalogDetail (v : option ChannelA.t) (r : CFG) : CFG :=
  mkCFG (StationName r) (RecordDeviceId r) (RevisionYear r) (ChannelNumber r) v (DigitDetail r) (LineFrequency r) (SampleRateNum r) (SampleDetail r) (StartTime r) (TriggerTime r) (DataFileType r) (TimeFactor r) (TimeCode r) (LocalCode r) (DataFileContent r).
Definition set_DigitDetail (v : option ChannelD.t) (r : CFG) : CFG :=
  mkCFG (StationName r) (RecordDeviceId r) (RevisionYear r) (ChannelNumber r) (AnalogDetail r) v (LineFrequency r) (SampleRateNum r) (SampleDetail r) (StartTime r) (TriggerTime r) (DataFileType r) (TimeFactor r) (TimeCode r) (LocalCode r) (DataFileContent r).
Definition set_LineFrequency (v : Z) (r : CFG) : CFG :=
  mkCFG (StationName r) (RecordDeviceId r) (RevisionYear r) (ChannelNumber r) (AnalogDetail r) (DigitDetail r) v (SampleRateNum r) (SampleDetail r) (StartTime r) (TriggerTime r) (DataFileType r) (TimeFactor r) (TimeCode r) (LocalCode r) (DataFileContent r).
Definition set_SampleRateNum (v : Z) (r : CFG) : CFG :=
  mkCFG (StationName r) (RecordDeviceId r) (RevisionYear r) (ChannelNumber r) (AnalogDetail r) (DigitDetail r) (LineFrequency r) v (SampleDetail r) (StartTime r) (TriggerTime r) (DataFileType r) (TimeFactor r) (TimeCode r) (LocalCode r) (DataFileContent r).
Definition set_SampleDetail (v : list SampleRate.t) (r : CFG) : CFG :=
  mkCFG (StationName r) (RecordDeviceId r) (RevisionYear r) (ChannelNumber r) (AnalogDetail r) (DigitDetail r) (LineFrequency r) (SampleRateNum r) v (StartTime r) (TriggerTime r) (DataFileType r) (TimeFactor r) (TimeCode r) (LocalCode r) (DataFileContent r).
Definition set_StartTime (v : GoTime.Time) (r : CFG) : CFG :=
  mkCFG (StationName r) (RecordDeviceId r) (RevisionYear r) (ChannelNumber r) (AnalogDetail r) (DigitDetail r) (LineFrequency r) (SampleRateNum r) (SampleDetail r) v (TriggerTime r) (DataFileType r) (TimeFactor r) (TimeCode r) (LocalCode r) (DataFileContent r).
Definition set_TriggerTime (v : GoTime.Time) (r : CFG) : CFG :=
  mkCFG (StationName r) (RecordDeviceId r) (RevisionYear r) (ChannelNumber r) (AnalogDetail r) (DigitDetail r) (LineFrequency r) (SampleRateNum r) (SampleDetail r) (StartTime r) v (DataFileType r) (TimeFactor r) (TimeCode r) (LocalCode r) (DataFileContent r).
Definition set_DataFileType (v : bytes) (r : CFG) : CFG :=
  mkCFG (StationName r) (RecordDeviceId r) (RevisionYear r) (ChannelNumber r) (AnalogDetail r) (DigitDetail r) (LineFrequency r) (SampleRateNum r) (SampleDetail r) (StartTime r) (TriggerTime r) v (TimeFactor r) (TimeCode r) (LocalCode r) (DataFileContent r).
Definition set_TimeFactor (v : float64) (r : CFG) : CFG :=
  mkCFG (StationName r) (RecordDeviceId r) (RevisionYear r) (ChannelNumber r) (AnalogDetail r) (DigitDetail r) (LineFrequency r) (SampleRateNum r) (SampleDetail r) (StartTime r) (TriggerTime r) (DataFileType r) v (TimeCode r) (LocalCode r) (DataFileContent r).
Definition set_TimeCode (v : bytes) (r : CFG) : CFG :=
  mkCFG (StationName r) (RecordDeviceId r) (RevisionYear r) (ChannelNumber r) (AnalogDetail r) (DigitDetail r) (LineFrequency r) (SampleRateNum r) (SampleDetail r) (StartTime r) (TriggerTime r) (DataFileType r) (TimeFactor r) v (LocalCode r) (DataFileContent r).
Definition set_LocalCode (v : bytes) (r : CFG) : CFG :=
  mkCFG (StationName r) (RecordDeviceId r) (RevisionYear r) (ChannelNumber r) (AnalogDetail r) (DigitDetail r) (LineFrequency r) (SampleRateNum r) (SampleDetail r) (StartTime r) (TriggerTime r) (DataFileType r) (TimeFactor r) (TimeCode r) v (DataFileContent r).
Definition set_DataFileContent (v : byteSlice) (r : CFG) : CFG :=
  mkCFG (StationName r) (RecordDeviceId r) (RevisionYear r) (ChannelNumber r) (AnalogDetail r) (DigitDetail r) (LineFrequency r) (SampleRateNum r) (SampleDetail r) (StartTime r) (TriggerTime r) (DataFileType r) (TimeFactor r) (TimeCode r) (LocalCode r) v.

(** ** The decoder's monad

    [ReadCFG] mutates the configuration it is called on as it goes, and
    leaves through [return err], [return nil] or a panic.  A step is a
    function from the configuration to the new configuration and a
    [result]. *)

Definition M (A : Type) : Type := CFG -> CFG * result A.

Definition ret {A : Type} (a : A) : M A := fun cfg => (cfg, Ok a).

Definition bind {A C : Type} (m : M A) (k : A -> M C) : M C :=
  fun cfg =>
    match m cfg with
    | (cfg', Ok a) => k a cfg'
    | (cfg', Err e) => (cfg', Err e)
    | (cfg', Panic p) => (cfg', Panic p)
    end.

(** [return err]. *)
Definition fail {A : Type} (e : error) : M A := fun cfg => (cfg, Err e).

(** A call that reads no configuration. *)
Definition lift {A : Type} (r : result A) : M A := fun cfg => (cfg, r).

(** An assignment to a field of [cfg]. *)
Definition modify (f : CFG -> CFG) : M unit := fun cfg => (f cfg, Ok tt).

(** An assignment to a field of [chA] (of [chD]), which [cfg.AnalogDetail]
    ([cfg.DigitDetail]) points to. *)
Definition modA (f : ChannelA.t -> ChannelA.t) : M unit :=
  modify (fun cfg => set_AnalogDetail (f <$> AnalogDetail cfg) cfg).
Definition modD (f : ChannelD.t -> ChannelD.t) : M unit :=
  modify (fun cfg => set_DigitDetail (f <$> DigitDetail cfg) cfg).

(** A value read from [cfg]. *)
Definition gets {A : Type} (f : CFG -> A) : M A := fun cfg => (cfg, Ok (f cfg)).

End WithFloat.

Notation "x <- m ;; k" := (bind m (fun x => k))
  (at level 100, m at next level, right associativity, only parsing).
Notation "m ;;; k" := (bind m (fun _ => k))
  (at level 100, right associativity, only parsing).

(** ** comgo.go *)

(** ByteToString converts file content to a string and deletes extra
    space. *)
Definition ByteToString (b : bytes) : bytes := GoBytes.TrimSpace b.

(** [strings.ToLower(s) == "s"]: the only strings that [ToLower] maps to
    ["s"] are ["s"] itself and ["S"]. *)
Definition lowerIsS (s : bytes) : bool :=
  bool_decide (s = B "s") || bool_decide (s = B "S").

Section WithFloat.
Context `{Float64}.

Import GoBytes.

(** [lines[i]], and [tempList[i]]. *)
Definition lineAt (lines : list bytes) (i : Z) : M bytes := lift (index lines i).
Definition field (tempList : list bytes) (i : Z) : M bytes := lift (index tempList i).

(** The name of a channel: [ByteToString(bytes.Join(bytes.Split(f, " "), "_"))]. *)
Definition channelName (f : bytes) : bytes :=
  ByteToString (Join (Split f " "%char) (B "_")).

(** Processing first line. *)
Definition readFirstLine (lines : list bytes) : M unit :=
  l <- lineAt lines 0 ;;
  let tempList := Split l ","%char in
  if len tempList <? 2 then
    fail (errorf "cfg format error: Missing info in first line of cfg file. Line has %d parts"
                 (len tempList))
  else
    f0 <- field tempList 0 ;;
    modify (set_StationName (ByteToString f0)) ;;;
    f1 <- field tempList 1 ;;
    modify (set_RecordDeviceId (ByteToString f1)) ;;;
    if 2 <? len tempList then
      f2 <- field tempList 2 ;;
      value <- lift (Strconv.ParseUint (ByteToString f2) 16) ;;
      modify (set_RevisionYear value)
    else ret tt.

(** Processing second line: the total channel number, then the analog and
    digit channel totals, which are returned. *)
Definition readSecondLine (lines : list bytes) : M (Z * Z) :=
  l <- lineAt lines 1 ;;
  let tempList := Split l ","%char in
  if len tempList <? 3 then
    fail (errorf "cfg format error: Missing info in second line of cfg file. Line has %d parts"
                 (len tempList))
  else
    f0 <- field tempList 0 ;;
    value <- lift (Strconv.ParseUint (ByteToString f0) 16) ;;
    modify (set_ChannelNumber value) ;;;
    f1 <- field tempList 1 ;;
    f2 <- field tempList 2 ;;
    if negb (Contains f1 "A"%char) || negb (Contains f2 "D"%char) then
      fail (errorString
              "cfg format error: Missing either analog or digital stream numbers in cfg file")
    else
      modify (fun cfg => set_DigitDetail (Some ChannelD.zero)
                           (set_AnalogDetail (Some ChannelA.zero) cfg)) ;;;
      a <- lift (Strconv.ParseUint (TrimSuffix (TrimSpace f1) "A"%char) 16) ;;
      modA (ChannelA.set_ChannelTotal a) ;;;
      d <- lift (Strconv.ParseUint (TrimSuffix (TrimSpace f2) "D"%char) 16) ;;
      modD (ChannelD.set_ChannelTotal d) ;;;
      ret (a, d).

(** The optional fields of an analog channel: primary and secondary ratio,
    which are skipped when they are no numbers, and the primary or
    secondary identifier. *)
Definition readPrimary (tempList : list bytes) : M unit :=
  if 10 <? len tempList then
    f10 <- field tempList 10 ;;
    match ParseFloat (ByteToString f10) with
    | Ok num => modA (fun chA => ChannelA.set_Primary (ChannelA.Primary chA ++ [num]) chA)
    | _ => ret tt
    end
  else ret tt.

Definition readSecondary (tempList : list bytes) : M unit :=
  if 11 <? len tempList then
    f11 <- field tempList 11 ;;
    match ParseFloat (ByteToString f11) with
    | Ok num => modA (fun chA => ChannelA.set_Secondary (ChannelA.Secondary chA ++ [num]) chA)
    | _ => ret tt
    end
  else ret tt.

Definition readIsSecondaryMeasurement (tempList : list bytes) : M unit :=
  if 12 <? len tempList then
    f12 <- field tempList 12 ;;
    modA (fun chA => ChannelA.set_IsSecondaryMeasurement
                       (ChannelA.IsSecondaryMeasurement chA ++ [lowerIsS (ByteToString f12)]) chA)
  else ret tt.

(** The body of the loop over analog channels, for channel [i]. *)
Definition analogRow (lines : list bytes) (i : Z) : M unit :=
  l <- lineAt lines (2 + i) ;;
  let tempList := Split l ","%char in
  if len tempList <? 10 then
    fail (errorf "cfg format error: missing info for analog channel %d" i)
  else
    f0 <- field tempList 0 ;;
    num <- lift (Strconv.Atoi (ByteToString f0)) ;;
    modA (fun chA => ChannelA.set_ChannelNumber (ChannelA.ChannelNumber chA ++ [wrap16 num]) chA) ;;;
    f1 <- field tempList 1 ;;
    modA (fun chA => ChannelA.set_ChannelNames (ChannelA.ChannelNames chA ++ [channelName f1]) chA) ;;;
    f2 <- field tempList 2 ;;
    modA (fun chA => ChannelA.set_ChannelPhases (ChannelA.ChannelPhases chA ++ [ByteToString f2]) chA) ;;;
    f3 <- field tempList 3 ;;
    modA (fun chA => ChannelA.set_ChannelElements (ChannelA.ChannelElements chA ++ [ByteToString f3]) chA) ;;;
    f4 <- field tempList 4 ;;
    modA (fun chA => ChannelA.set_ChannelUnits (ChannelA.ChannelUnits chA ++ [ByteToString f4]) chA) ;;;
    f5 <- field tempList 5 ;;
    num <- lift (ParseFloat (ByteToString f5)) ;;
    modA (ChannelA.append_factor "a" num) ;;;
    f6 <- field tempList 6 ;;
    num <- lift (ParseFloat (ByteToString f6)) ;;
    modA (ChannelA.append_factor "b" num) ;;;
    f7 <- field tempList 7 ;;
    num <- lift (ParseFloat (ByteToString f7)) ;;
    modA (fun chA => ChannelA.set_TimeFactors (ChannelA.TimeFactors chA ++ [num]) chA) ;;;
    f8 <- field tempList 8 ;;
    num <- lift (Strconv.Atoi (ByteToString f8)) ;;
    modA (fun chA => ChannelA.set_ValueMin (ChannelA.ValueMin chA ++ [num]) chA) ;;;
    f9 <- field tempList 9 ;;
    num <- lift (Strconv.Atoi (ByteToString f9)) ;;
    modA (fun chA => ChannelA.set_ValueMax (ChannelA.ValueMax chA ++ [num]) chA) ;;;
    readPrimary tempList ;;;
    readSecondary tempList ;;;
    readIsSecondaryMeasurement tempList.

(** The optional fields of a digit channel: the element, empty when the
    field is missing, and the initial state, 2 when the field is missing. *)
Definition readElement (tempList : list bytes) : M unit :=
  if 3 <? len tempList then
    f3 <- field tempList 3 ;;
    modD (fun chD => ChannelD.set_ChannelElements
                       (ChannelD.ChannelElements chD ++ [ByteToString f3]) chD)
  else
    modD (fun chD => ChannelD.set_ChannelElements (ChannelD.ChannelElements chD ++ [[]]) chD).

Definition readInitialState (tempList : list bytes) : M unit :=
  if 4 <? len tempList then
    f4 <- field tempList 4 ;;
    num <- lift (Strconv.ParseUint (ByteToString f4) 8) ;;
    modD (fun chD => ChannelD.set_InitialState (ChannelD.InitialState chD ++ [num]) chD)
  else
    modD (fun chD => ChannelD.set_InitialState (ChannelD.InitialState chD ++ [2]) chD).

(** The body of the loop over digit channels, for channel [i]; [a] is
    [int(chA.GetChannelTotal())]. *)
Definition digitRow (lines : list bytes) (a : Z) (i : Z) : M unit :=
  l <- lineAt lines (2 + a + i) ;;
  let tempList := Split l ","%char in
  if len tempList <? 3 then
    fail (errorf "cfg format error: missing info for digit channel: %d" i)
  else
    f0 <- field tempList 0 ;;
    num <- lift (Strconv.Atoi (ByteToString f0)) ;;
    modD (fun chD => ChannelD.set_ChannelNumber (ChannelD.ChannelNumber chD ++ [wrap16 num]) chD) ;;;
    f1 <- field tempList 1 ;;
    modD (fun chD => ChannelD.set_ChannelNames (ChannelD.ChannelNames chD ++ [channelName f1]) chD) ;;;
    f2 <- field tempList 2 ;;
    modD (fun chD => ChannelD.set_ChannelPhases (ChannelD.ChannelPhases chD ++ [ByteToString f2]) chD) ;;;
    readElement tempList ;;;
    readInitialState tempList.

(** [for i := from; i < from + n; i++ { body(i) }], leaving at the first
    [return err] or panic. *)
Fixpoint forLoop (body : Z -> M unit) (n : nat) (from : Z) : M unit :=
  match n with
  | O => ret tt
  | S n' => body from ;;; forLoop body n' (from + 1)
  end.

(** Read line frequency.  The index is computed on [uint16] and wraps. *)
Definition readLineFrequency (lines : list bytes) (a d : Z) : M unit :=
  l <- lineAt lines (wrap16 (2 + a + d)) ;;
  let tempList := Split l ","%char in
  f0 <- field tempList 0 ;;
  num <- lift (ParseFloat (ByteToString f0)) ;;
  modify (set_LineFrequency (uint16_of_float64 num)).

(** Read sampling rate num: a declared 0 is stored as 1.  Returns
    [cfg.GetSampleRateNum()]. *)
Definition readSampleRateNum (lines : list bytes) (a d : Z) : M Z :=
  l <- lineAt lines (wrap16 (3 + a + d)) ;;
  let tempList := Split l ","%char in
  f0 <- field tempList 0 ;;
  num <- lift (Strconv.ParseUint (ByteToString f0) 16) ;;
  (if wrap16 num =? 0 then modify (set_SampleRateNum 1)
   else modify (set_SampleRateNum (wrap16 num))) ;;;
  gets SampleRateNum.

(** The body of the loop over sample rates, for rate [i]; the index is
    computed on [int]. *)
Definition sampleRateRow (lines : list bytes) (a d : Z) (i : Z) : M unit :=
  l <- lineAt lines (4 + i + a + d) ;;
  let tempList := Split l ","%char in
  f0 <- field tempList 0 ;;
  rate <- lift (ParseFloat (ByteToString f0)) ;;
  f1 <- field tempList 1 ;;
  num <- lift (ParseFloat (ByteToString f1)) ;;
  modify (fun cfg => set_SampleDetail
                       (SampleDetail cfg ++ [SampleRate.mk rate (int_of_float64 num)]) cfg).

(** Read start date and time, and trigger date and time: the comma fields
    of the line are joined with [T] and parsed against [TimeFormat]. *)
Definition readStartTime (lines : list bytes) (r a d : Z) : M unit :=
  l <- lineAt lines (wrap16 (4 + r + a + d)) ;;
  let tempList := Split l ","%char in
  start <- lift (timeParse (ByteToString (Join tempList (B "T")))) ;;
  modify (set_StartTime start).

Definition readTriggerTime (lines : list bytes) (r a d : Z) : M unit :=
  l <- lineAt lines (wrap16 (5 + r + a + d)) ;;
  let tempList := Split l ","%char in
  trigger <- lift (timeParse (ByteToString (Join tempList (B "T")))) ;;
  modify (set_TriggerTime trigger).

(** Read dat content type. *)
Definition readDataFileType (lines : list bytes) (r a d : Z) : M unit :=
  l <- lineAt lines (wrap16 (6 + r + a + d)) ;;
  let tempList := Split l ","%char in
  f0 <- field tempList 0 ;;
  modify (set_DataFileType (ByteToString f0)).

(** Read time multiplication factor; an empty field gives 1. *)
Definition readTimeFactor (lines : list bytes) (r a d : Z) : M unit :=
  l <- lineAt lines (wrap16 (7 + r + a + d)) ;;
  let tempList := Split l ","%char in
  f0 <- field tempList 0 ;;
  if negb (bool_decide (f0 = [])) then
    num <- lift (ParseFloat (ByteToString f0)) ;;
    modify (set_TimeFactor num)
  else modify (set_TimeFactor float64_one).

(** Read time_code, local_code. *)
Definition readTimeCode (lines : list bytes) (r a d : Z) : M unit :=
  let optionalLineNum := wrap16 (8 + r + a + d) in
  if optionalLineNum <=? len lines then
    l <- lineAt lines optionalLineNum ;;
    let tempList := Split l ","%char in
    if len tempList =? 2 then
      f0 <- field tempList 0 ;;
      modify (set_TimeCode (ByteToString f0)) ;;;
      f1 <- field tempList 1 ;;
      modify (set_LocalCode (ByteToString f1))
    else ret tt
  else ret tt.

(** The decoder on the lines of the document. *)
Definition readLines (lines : list bytes) : M unit :=
  readFirstLine lines ;;;
  ad <- readSecondLine lines ;;
  let a := ad.1 in
  let d := ad.2 in
  forLoop (analogRow lines) (Z.to_nat a) 0 ;;;
  forLoop (digitRow lines a) (Z.to_nat d) 0 ;;;
  readLineFrequency lines a d ;;;
  r <- readSampleRateNum lines a d ;;
  forLoop (sampleRateRow lines a d) (Z.to_nat r) 0 ;;;
  readStartTime lines r a d ;;;
  readTriggerTime lines r a d ;;;
  readDataFileType lines r a d ;;;
  readTimeFactor lines r a d ;;;
  readTimeCode lines r a d.

(** ReadCFG reads the Comtrade header file (.cfg); [content] is what
    [ioutil.ReadAll(rd)] returned.  The result is the configuration as the
    call left it and [Ok tt] for [return nil]. *)
Definition ReadCFG (content : bytes) : M unit :=
  readLines (Split content "010"%char).

(** GetSamplingNumber returns the number of samples; only one sampling
    rate is taken into account. *)
Definition GetSamplingNumber (cfg : CFG) : Z :=
  match SampleDetail cfg with
  | [] => 0
  | sampleDetail0 :: _ => SampleRate.GetNumber sampleDetail0
  end.

(** ReadDAT stores the content of the .dat file; [content] is the slice
    [ioutil.ReadAll(rd)] returned. *)
Definition ReadDAT (cfg : CFG) (content : byteSlice) : CFG :=
  set_DataFileContent content cfg.

(** ** The sample extractor *)

(** [int(math.Ceil(float64(int(d)) / float64(16)))].  For a [uint16] the
    conversion, the division by a power of two and the rounding are all
    exact in [float64], so the value is the ceiling of the rational
    [d / 16]. *)
Definition ceilDiv16 (d : Z) : Z := Qceiling (inject_Z d / inject_Z 16).

(** Number of bytes per sample, for [a] analog and [d] digit channels.  In
    Go [<<] binds tighter than [+]. *)
Definition NB (a d : Z) : Z := 8 + Z.shiftl a 1 + Z.shiftl (ceilDiv16 d) 1.

(** The signed 16-bit little-endian integers of [bs]. *)
Fixpoint int16sLE (bs : bytes) : list Z :=
  match bs with
  | lo :: hi :: rest => signed 16 (byteZ lo + 256 * byteZ hi) :: int16sLE rest
  | _ => []
  end.

(** [binary.Read(bytes.NewReader(r), binary.LittleEndian, &value)] for a
    [value] of [n] [int16]s. *)
Definition binaryRead (r : bytes) (n : Z) : result (list Z) :=
  let size := 2 * n in
  if size =? 0 then Ok []
  else if len r =? 0 then Err EOF
  else if len r <? size then Err ErrUnexpectedEOF
  else Ok (int16sLE (take (Z.to_nat size) r)).

(** The body of the loop over samples: the calibrated value of channel
    [num] in record [i]. *)
Definition sampleValue (dataFileContent : byteSlice) (nb : Z)
    (factor : gmap string (list float64)) (num : Z) (i : Z) : result float64 :=
  rbind (reslice dataFileContent (i * nb) (i * nb + nb)) (fun s =>
  rbind (resliceFrom s 8) (fun s8 =>
  rbind (binaryRead (contents s8) ((nb - 8) ÷ 2)) (fun value =>
  rbind (index value (num - 1)) (fun v =>
  rbind (index (default [] (factor !! "a")) (num - 1)) (fun fa =>
  rbind (index (default [] (factor !! "b")) (num - 1)) (fun fb =>
  Ok (float64_add (float64_mul (float64_of_int16 v) fa) fb))))))).

(** [for i := from; i < from + n; i++ { result = append(result, body(i)) }]. *)
Fixpoint sampleLoop (body : Z -> result float64) (n : nat) (from : Z)
    (res : list float64) : result (list float64) :=
  match n with
  | O => Ok res
  | S n' => rbind (body from) (fun x => sampleLoop body n' (from + 1) (res ++ [x]))
  end.

(** GetAnalogChannelData returns the data values of channel [num], the
    number of the channel as in the .cfg file.  The receiver may be nil.
    (The source tests the data content for nil a second time after the
    sample detail; the first test has already returned then.) *)
Definition GetAnalogChannelData (cfg : option CFG) (num : Z) : result (list float64) :=
  match cfg with
  | None => Err (errorString "invalid cfg file, read .cfg first")
  | Some c =>
      if slen (DataFileContent c) =? 0 then
        Err (errorString "not data content, read .dat first")
      else
        match AnalogDetail c with
        | None => Err (errorString "invalid analog channel")
        | Some analogDetail =>
            if ChannelA.ChannelTotal analogDetail <? num then
              Err (errorString
                     "analog channel number greater than the total number of channels")
            else if num <? 1 then
              Err (errorString "analog channel number cannot be less than 1")
            else
              match DigitDetail c with
              | None => Err (errorString "invalid digital channel")
              | Some digitDetail =>
                  let nb := NB (ChannelA.ChannelTotal analogDetail)
                               (ChannelD.ChannelTotal digitDetail) in
                  match SampleDetail c with
                  | [] => Err (errorString "invalid or not enough sample detail")
                  | sampleDetail0 :: _ =>
                      let factor := ChannelA.ConversionFactors analogDetail in
                      sampleLoop (sampleValue (DataFileContent c) nb factor num)
                                 (Z.to_nat (SampleRate.GetNumber sampleDetail0)) 0 []
                  end
              end
        end
  end.

End WithFloat.

(** ** An implementation of [Float64] by Rocq's binary64 floats

    Used to run the model on concrete documents.  Its [ParseFloat64] reads
    the decimal literals of [strconv.ParseFloat] (sign, digits with at most
    one period, optional decimal exponent) and rounds them to the nearest
    float, ties to even; an overflow is a range error.  Hexadecimal
    literals, underscores between digits and the names [inf] and [nan],
    which Go also accepts, are outside its domain (it reports a syntax
    error).  The conversions to integers give what Go gives when the value
    fits; Go leaves the other cases to the platform, and the instance
    follows amd64. *)
Module PrimFloat64.

(** The digits read so far as an integer, the number of them, the rest. *)
Fixpoint digits (s : bytes) (acc : Z) (n : Z) : Z * Z * bytes :=
  match s with
  | c :: s' => if Strconv.isDigit c then digits s' (acc * 10 + (byteZ c - 48)) (n + 1)
               else (acc, n, s)
  | [] => (acc, n, s)
  end.

(** Sign, mantissa [m] and decimal exponent [e] of the literal [m * 10^e]. *)
Definition readDecimal (s : bytes) : option (bool * Z * Z) :=
  let '(neg, s) := match s with
                   | c :: s' => if bool_decide (c = "-"%char) then (true, s')
                                else if bool_decide (c = "+"%char) then (false, s')
                                else (false, s)
                   | [] => (false, s)
                   end in
  let '(m1, n1, s) := digits s 0 0 in
  let '(m, n2, s) := match s with
                     | c :: s' => if bool_decide (c = "."%char) then
                                    let '(m, n, s'') := digits s' m1 0 in (m, n, s'')
                                  else (m1, 0, s)
                     | [] => (m1, 0, s)
                     end in
  if n1 + n2 =? 0 then None
  else
    match s with
    | [] => Some (neg, m, - n2)
    | c :: s' =>
        if bool_decide (c = "e"%char) || bool_decide (c = "E"%char) then
          let '(eneg, s') := match s' with
                             | c :: s'' => if bool_decide (c = "-"%char) then (true, s'')
                                           else if bool_decide (c = "+"%char) then (false, s'')
                                           else (false, s')
                             | [] => (false, s')
                             end in
          match digits s' 0 0 with
          | (e, ne, []) => if ne =? 0 then None
                           else Some (neg, m, (if eneg then - e else e) - n2)
          | _ => None
          end
        else None
    end.

(** The float nearest to [m * 10^e]: for a negative [e] the quotient is
    taken with 62 bits or more and a sticky bit below them. *)
Definition nearest (neg : bool) (m e : Z) : spec_float :=
  if m =? 0 then S754_zero neg
  else
    let sgn (x : Z) := if neg then - x else x in
    if 0 <=? e then binary_normalize prec emax (sgn (m * 10 ^ e)) 0 false
    else
      let d := 10 ^ (- e) in
      let s := Z.max 0 (Z.log2 d - Z.log2 m + 64) in
      let q := (m * 2 ^ s) / d in
      let sticky := if (m * 2 ^ s) mod d =? 0 then 0 else 1 in
      binary_normalize prec emax (sgn (2 * q + sticky)) (- s - 1) false.

Definition parse (s : bytes) : float + NumErrKind :=
  match readDecimal s with
  | None => inr ErrSyntax
  | Some (neg, m, e) =>
      match nearest neg m e with
      | S754_infinity _ => inr ErrRange
      | f => inl (SF2Prim f)
      end
  end.

(** The integer part of [f], when [f] is finite. *)
Definition truncate (f : float) : option Z :=
  match Prim2SF f with
  | S754_zero _ => Some 0
  | S754_finite neg m e =>
      let a := if 0 <=? e then Z.pos m * 2 ^ e else Z.shiftr (Z.pos m) (- e) in
      Some (if neg then - a else a)
  | _ => None
  end.

Definition toInt (f : float) : Z :=
  match truncate f with
  | Some z => if (- 2 ^ 63 <=? z) && (z <? 2 ^ 63) then z else - 2 ^ 63
  | None => - 2 ^ 63
  end.

Definition ofInt16 (v : Z) : float :=
  if v <? 0 then PrimFloat.opp (PrimFloat.of_uint63 (Uint63.of_Z (- v)))
  else PrimFloat.of_uint63 (Uint63.of_Z v).

#[export] Instance instance : Float64 := {|
  float64 := float;
  ParseFloat64 := parse;
  float64_zero := 0%float;
  float64_one := 1%float;
  float64_of_int16 := ofInt16;
  float64_mul := PrimFloat.mul;
  float64_add := PrimFloat.add;
  int_of_float64 := toInt;
  uint16_of_float64 := fun f => wrap16 (toInt f)
|}.

End PrimFloat64.

(** ** Notions the statements below are written with *)

(** What the second line of a document declares: the total channel number,
    the analog channel total and the digit channel total, read as
    [ReadCFG] reads them. *)
Definition declared (l : bytes) : option (Z * Z * Z) :=
  match GoBytes.Split l ","%char with
  | f0 :: f1 :: f2 :: _ =>
      match Strconv.ParseUint (ByteToString f0) 16,
            Strconv.ParseUint (GoBytes.TrimSuffix (GoBytes.TrimSpace f1) "A"%char) 16,
            Strconv.ParseUint (GoBytes.TrimSuffix (GoBytes.TrimSpace f2) "D"%char) 16 with
      | Ok t, Ok a, Ok d => Some (t, a, d)
      | _, _, _ => None
      end
  | _ => None
  end.

(** The name of a channel as the specification words it: white space is
    stripped from the field first, then the spaces inside are replaced with
    underscores. *)
Definition specifiedName (f : bytes) : bytes :=
  GoBytes.Join (GoBytes.Split (GoBytes.TrimSpace f) " "%char) (B "_").

(** The number a line reads, as the sampling rate num is read: its first
    comma field, trimmed, as a 16-bit unsigned integer. *)
Definition reads (l : bytes) : result Z :=
  Strconv.ParseUint (ByteToString (hd [] (GoBytes.Split l ","%char))) 16.

(** The raw sample of analog channel [num] in record [i] of a data file
    with records of [nb] bytes: the signed 16-bit little-endian integer
    after the 8 bytes of sample number and time stamp and the samples of
    the channels before [num]. *)
Definition rawSample (data : bytes) (nb num i : Z) : Z :=
  let at_ (k : Z) := byteZ (nth (Z.to_nat k) data "000"%char) in
  let off := i * nb + 8 + 2 * (num - 1) in
  signed 16 (at_ off + 256 * at_ (off + 1)).

(** The character of the decimal digit [k]. *)
Definition digit (k : Z) : ascii := ascii_of_nat (Z.to_nat (48 + k)).

(** The decimal digits of [n], on [w] positions. *)
Fixpoint decimal (w : nat) (n : Z) : bytes :=
  match w with
  | O => []
  | S w' => decimal w' (n / 10) ++ [digit (n mod 10)]
  end.

(** A date and time of day with microseconds, as [TimeFormat] can hold
    it. *)
Definition validTime (t : GoTime.Time) : Prop :=
  0 <= GoTime.year t <= 9999 /\ 1 <= GoTime.month t <= 12 /\
  1 <= GoTime.day t <= GoTime.daysIn (GoTime.month t) (GoTime.year t) /\
  0 <= GoTime.hour t < 24 /\ 0 <= GoTime.minute t < 60 /\ 0 <= GoTime.second t < 60 /\
  0 <= GoTime.nanosecond t < 1000000000 /\ GoTime.nanosecond t mod 1000 = 0.

(** The timestamp line of a .cfg file for [t]: the two comma fields
    [dd/mm/yyyy] and [hh:mm:ss.ssssss]. *)
Definition timestampLine (t : GoTime.Time) : bytes :=
  decimal 2 (GoTime.day t) ++ B "/" ++ decimal 2 (GoTime.month t) ++ B "/" ++
  decimal 4 (GoTime.year t) ++ B "," ++
  decimal 2 (GoTime.hour t) ++ B ":" ++ decimal 2 (GoTime.minute t) ++ B ":" ++
  decimal 2 (GoTime.second t) ++ B "." ++ decimal 6 (GoTime.nanosecond t / 1000).


Section Notions.
Context `{Float64}.

(** The conversion factors ["a"] and ["b"] of an analog table. *)
Definition factorsA (chA : ChannelA.t) : list float64 :=
  default [] (ChannelA.ConversionFactors chA !! "a"%string).
Definition factorsB (chA : ChannelA.t) : list float64 :=
  default [] (ChannelA.ConversionFactors chA !! "b"%string).

(** What a successful [ReadCFG] on the lines [lines] has made of the
    configuration [s]: the totals are the declared ones, there is a
    conversion factor A and B for every analog channel, the sampling rate
    num is the one read (1 for 0) and that many sample rates were appended,
    the start and trigger times are the parsed lines, and the data file
    content is untouched. *)
Definition Decoded (lines : list bytes) (s s' : CFG) : Prop :=
  exists l1 t a d chA chD r srs lS lT,
    lines !! 1%nat = Some l1 /\ declared l1 = Some (t, a, d) /\
    ChannelNumber s' = t /\
    AnalogDetail s' = Some chA /\ ChannelA.ChannelTotal chA = a /\
    length (factorsA chA) = Z.to_nat a /\ length (factorsB chA) = Z.to_nat a /\
    DigitDetail s' = Some chD /\ ChannelD.ChannelTotal chD = d /\
    SampleRateNum s' = r /\ 1 <= r < 65536 /\
    (exists lR nR, lines !! Z.to_nat (wrap16 (3 + a + d)) = Some lR /\ reads lR = Ok nR /\
                   r = (if nR =? 0 then 1 else nR)) /\
    SampleDetail s' = SampleDetail s ++ srs /\ length srs = Z.to_nat r /\
    lines !! Z.to_nat (wrap16 (4 + r + a + d)) = Some lS /\
    timeParse (ByteToString (GoBytes.Join (GoBytes.Split lS ",") (B "T"))) = Ok (StartTime s') /\
    lines !! Z.to_nat (wrap16 (5 + r + a + d)) = Some lT /\
    timeParse (ByteToString (GoBytes.Join (GoBytes.Split lT ",") (B "T"))) = Ok (TriggerTime s') /\
    DataFileContent s' = DataFileContent s.

(** What a step of the decoder establishes when it returns normally. *)
Definition wp {A : Type} (m : M A) (s : CFG) (Q : A -> CFG -> Prop) : Prop :=
  forall s' a, m s = (s', Ok a) -> Q a s'.

End Notions.

(** ** Documents and data files used as examples *)

Module Examples.

(** A document from its lines, joined with newlines (none after the last
    line). *)
Definition document (lines : list string) : bytes :=
  GoBytes.Join (map B lines) ["010"%char].

Definition decode (content : bytes) : CFG * result unit :=
  ReadCFG (H := PrimFloat64.instance) content NewCFG.

Definition extract (cfg : CFG) (data : byteSlice) (num : Z) : result (list float) :=
  GetAnalogChannelData (H := PrimFloat64.instance) (Some (ReadDAT cfg data)) num.

(** One analog channel with factors 2.0 and 1.0, no digit channel, and
    [samples] samples declared. *)
Definition oneChannel (samples : string) : bytes :=
  document [ "STATION,DEV1,1999";
             "1,1A,0D";
             "1,Line A,A,,V,2.0,1.0,0,-32767,32767";
             "50";
             "1";
             ("1000," ++ samples)%string;
             "01/02/2020,10:30:00.000000";
             "01/02/2020,10:30:00.500000";
             "BINARY";
             "1";
             "" ].

(** One record: 8 bytes of sample number and time stamp, then the value 10
    on 16 bits, little-endian. *)
Definition record10 : bytes :=
  B "headerXY" ++ ["010"%char; "000"%char].

(** Two analog channels and one digit channel; the name of the first
    analog channel is padded with spaces, the primary ratio of the second
    is no number. *)
Definition twoChannels : bytes :=
  document [ "STATION,DEV1,1999";
             "3,2A,1D";
             "1, Line A ,A,,V,2.0,1.0,0,-32767,32767,x,1,P";
             "2,Line A,B,,V,0.5,0,0,-32767,32767,400,1,s";
             "1,Trip,,,0";
             "50";
             "0";
             "1000,2";
             "01/02/2020,10:30:00.000000";
             "01/02/2020,10:30:00.500000";
             "BINARY";
             "1";
             "+10h30,0" ].

(** The same with an initial state of the digit channel that is no
    number. *)
Definition badInitialState : bytes :=
  document [ "STATION,DEV1,1999";
             "3,2A,1D";
             "1, Line A ,A,,V,2.0,1.0,0,-32767,32767,x,1,P";
             "2,Line A,B,,V,0.5,0,0,-32767,32767,400,1,s";
             "1,Trip,,,on";
             "50";
             "0";
             "1000,2";
             "01/02/2020,10:30:00.000000";
             "01/02/2020,10:30:00.500000";
             "BINARY";
             "1";
             "+10h30,0" ].

(** Documents that end early: after the first line, inside the analog
    channels, before the trigger time. *)
Definition firstLineOnly : bytes := document [ "STATION,DEV1,1999" ].
Definition missingChannel : bytes :=
  document [ "STATION,DEV1,1999";
             "2,2A,0D";
             "1,Line A,A,,V,2.0,1.0,0,-32767,32767" ].
Definition missingTrigger : bytes :=
  document [ "STATION,DEV1,1999";
             "1,1A,0D";
             "1,Line A,A,,V,2.0,1.0,0,-32767,32767";
             "50";
             "1";
             "1000,2";
             "01/02/2020,10:30:00.000000" ].

(** A timestamp line of six comma fields. *)
Definition sixFields : bytes :=
  document [ "STATION,DEV1,1999";
             "1,1A,0D";
             "1,Line A,A,,V,2.0,1.0,0,-32767,32767";
             "50";
             "1";
             "1000,2";
             "01,02,2020,10,30,00.000000";
             "01,02,2020,10,30,00.500000";
             "BINARY";
             "1";
             "" ].

(** A declared total of 5 channels with one analog and no digit channel. *)
Definition fiveDeclared : bytes :=
  document [ "STATION,DEV1,1999";
             "5,1A,0D";
             "1,Line A,A,,V,2.0,1.0,0,-32767,32767";
             "50";
             "1";
             "1000,2";
             "01/02/2020,10:30:00.000000";
             "01/02/2020,10:30:00.500000";
             "BINARY";
             "1";
             "" ].

(** The lines before and after the sampling rate num of a document with one
    analog channel. *)
Definition beforeRateNum : list bytes :=
  map B [ "STATION,DEV1,1999";
          "1,1A,0D";
          "1,Line A,A,,V,2.0,1.0,0,-32767,32767";
          "50" ].
Definition afterRateNum : list bytes :=
  map B [ "1000,2";
          "01/02/2020,10:30:00.000000";
          "01/02/2020,10:30:00.500000";
          "BINARY";
          "1";
          "" ].

(** A document that ends with the time multiplication factor, with no
    newline after it; the same with the newline; and with a line of time
    code and local code. *)
Definition endsAtTimeFactor : bytes :=
  document [ "STATION,DEV1,1999";
             "1,1A,0D";
             "1,Line A,A,,V,2.0,1.0,0,-32767,32767";
             "50";
             "1";
             "1000,2";
             "01/02/2020,10:30:00.000000";
             "01/02/2020,10:30:00.500000";
             "BINARY";
             "1" ].
Definition endsWithNewline : bytes := endsAtTimeFactor ++ ["010"%char].
Definition endsWithTimeCode : bytes := endsAtTimeFactor ++ ["010"%char] ++ B "-4t,0".

End Examples.

(** ** The time code *)

(** A call that may end the process: [log.Fatal] logs its message and
    exits. *)
Inductive exit (A : Type) :=
| Returns (a : A)
| Exits (msg : string).
Arguments Returns {A} a.
Arguments Exits {A} msg.

Module TimeCode.

Definition isSign (c : ascii) : bool :=
  bool_decide (c = "+"%char) || bool_decide (c = "-"%char).

Definition isHT (c : ascii) : bool :=
  bool_decide (c = "h"%char) || bool_decide (c = "t"%char).

(** The longest prefix of digits, and what follows it: [\d+] is greedy. *)
Fixpoint spanDigits (s : bytes) : bytes * bytes :=
  match s with
  | c :: s' =>
      if Strconv.isDigit c then
        let '(ds, rest) := spanDigits s' in (c :: ds, rest)
      else ([], s)
  | [] => ([], [])
  end.

(** The first submatch of the leftmost match of [([+-]\d+)[ht]?] in [s]: a
    match starts at the first sign that a digit follows, and its group is
    the sign with all the digits after it. *)
Fixpoint findHours (s : bytes) : option bytes :=
  match s with
  | c :: s' =>
      if isSign c then
        match spanDigits s' with
        | ((_ :: _) as ds, _) => Some (c :: ds)
        | ([], _) => findHours s'
        end
      else findHours s'
  | [] => None
  end.

(** The first submatch of the leftmost match of [[+-]\d+[ht](\d+)+] in [s]:
    a match starts at the first sign followed by digits, [h] or [t], and
    digits again; its group is these last digits. *)
Fixpoint findMinutes (s : bytes) : option bytes :=
  match s with
  | c :: s' =>
      if isSign c then
        match spanDigits s' with
        | (_ :: _, u :: rest) =>
            if isHT u then
              match spanDigits rest with
              | ((_ :: _) as ms, _) => Some ms
              | ([], _) => findMinutes s'
              end
            else findMinutes s'
        | _ => findMinutes s'
        end
      else findMinutes s'
  | [] => None
  end.

(** Multiplication and addition on [int64]. *)
Definition mul64 (x y : Z) : Z := signed 64 (x * y).
Definition add64 (x y : Z) : Z := signed 64 (x + y).

End TimeCode.

(** timeCodeToNS: the hours of the code, then its minutes, in
    nanoseconds. *)
Definition timeCodeToNS (code : bytes) : exit Z :=
  match TimeCode.findHours code with
  | Some g =>
      match Strconv.Atoi g with
      | Ok hours =>
          let ns := TimeCode.mul64 (TimeCode.mul64 (TimeCode.mul64 hours 1000000000) 60) 60 in
          match TimeCode.findMinutes code with
          | Some g' =>
              match Strconv.Atoi g' with
              | Ok minutes =>
                  Returns (TimeCode.add64 ns
                             (TimeCode.mul64 (TimeCode.mul64 minutes 1000000000) 60))
              | _ => Exits "error parsing hour for time code: %v"
              end
          | None => Returns ns
          end
      | _ => Exits "error parsing hour for time code"
      end
  | None => Returns 0
  end.

Section Getters.
Context `{Float64}.

(** GetTimeCodeOffset returns the time difference between local time and
    UTC in nanoseconds; the receiver may be nil. *)
Definition GetTimeCodeOffset (cfg : option CFG) : exit Z :=
  match cfg with
  | Some c => if bool_decide (TimeCode c = []) then Returns 0 else timeCodeToNS (TimeCode c)
  | None => Returns 0
  end.

(** GetAnalogChannelNames returns the names of all analog channels. *)
Definition GetAnalogChannelNames (cfg : option CFG) : list bytes :=
  match cfg with
  | Some c => match AnalogDetail c with
              | Some analogDetail => ChannelA.ChannelNames analogDetail
              | None => []
              end
  | None => []
  end.

(** ** Notions the further statements are written with *)

(** The sequences of an analog table that get an entry for every channel
    all have [n] entries, and those of the optional fields have at most
    [n]. *)
Definition analogLengths (chA : ChannelA.t) (n : nat) : Prop :=
  length (ChannelA.ChannelNumber chA) = n /\
  length (ChannelA.ChannelNames chA) = n /\
  length (ChannelA.ChannelPhases chA) = n /\
  length (ChannelA.ChannelElements chA) = n /\
  length (ChannelA.ChannelUnits chA) = n /\
  length (factorsA chA) = n /\
  length (factorsB chA) = n /\
  length (ChannelA.TimeFactors chA) = n /\
  length (ChannelA.ValueMin chA) = n /\
  length (ChannelA.ValueMax chA) = n /\
  (length (ChannelA.Primary chA) <= n)%nat /\
  (length (ChannelA.Secondary chA) <= n)%nat /\
  (length (ChannelA.IsSecondaryMeasurement chA) <= n)%nat.

(** The sequences of a digit table all have [n] entries. *)
Definition digitLengths (chD : ChannelD.t) (n : nat) : Prop :=
  length (ChannelD.ChannelNumber chD) = n /\
  length (ChannelD.ChannelNames chD) = n /\
  length (ChannelD.ChannelPhases chD) = n /\
  length (ChannelD.ChannelElements chD) = n /\
  length (ChannelD.InitialState chD) = n.

End Getters.

(** The comma field [k] of a line as [ByteToString] gives it; a field the
    line has not reads as empty. *)
Definition fieldOf (l : bytes) (k : nat) : bytes :=
  ByteToString (default [] (GoBytes.Split l ","%char !! k)).

(** The channel name of a row: its second comma field, as [channelName]
    stores it. *)
Definition nameOf (l : bytes) : bytes :=
  channelName (default [] (GoBytes.Split l ","%char !! 1%nat)).

(** The conversion [r] succeeded, and its value is the entry [o] of a
    table. *)
Definition stores {A : Type} (r : result A) (o : option A) : Prop :=
  exists x, r = Ok x /\ o = Some x.

Section Entries.
Context `{Float64}.

(** Entry [i] of the analog table is what the row [l] says: the channel
    number on [uint16], the name, phase, element and unit, the conversion
    factors A and B, the time factor, and the minimum and maximum value. *)
Definition analogEntry (l : bytes) (chA : ChannelA.t) (i : nat) : Prop :=
  stores (rbind (Strconv.Atoi (fieldOf l 0)) (fun n => Ok (wrap16 n)))
         (ChannelA.ChannelNumber chA !! i) /\
  ChannelA.ChannelNames chA !! i = Some (nameOf l) /\
  ChannelA.ChannelPhases chA !! i = Some (fieldOf l 2) /\
  ChannelA.ChannelElements chA !! i = Some (fieldOf l 3) /\
  ChannelA.ChannelUnits chA !! i = Some (fieldOf l 4) /\
  stores (ParseFloat (fieldOf l 5)) (factorsA chA !! i) /\
  stores (ParseFloat (fieldOf l 6)) (factorsB chA !! i) /\
  stores (ParseFloat (fieldOf l 7)) (ChannelA.TimeFactors chA !! i) /\
  stores (Strconv.Atoi (fieldOf l 8)) (ChannelA.ValueMin chA !! i) /\
  stores (Strconv.Atoi (fieldOf l 9)) (ChannelA.ValueMax chA !! i).

(** Entry [i] of the digit table is what the row [l] says: the channel
    number on [uint16], the name and phase, the element, empty when the
    row has no fourth field, and the initial state on [uint8], 2 when the
    row has no fifth field. *)
Definition digitEntry (l : bytes) (chD : ChannelD.t) (i : nat) : Prop :=
  stores (rbind (Strconv.Atoi (fieldOf l 0)) (fun n => Ok (wrap16 n)))
         (ChannelD.ChannelNumber chD !! i) /\
  ChannelD.ChannelNames chD !! i = Some (nameOf l) /\
  ChannelD.ChannelPhases chD !! i = Some (fieldOf l 2) /\
  ChannelD.ChannelElements chD !! i = Some (fieldOf l 3) /\
  stores (if 4 <? len (GoBytes.Split l ","%char)
          then Strconv.ParseUint (fieldOf l 4) 8 else Ok 2)
         (ChannelD.InitialState chD !! i).

(** The sample rate [sr] is what the row [l] says: the rate, and the
    number of samples converted to [int]. *)
Definition rateEntry (l : bytes) (sr : SampleRate.t) : Prop :=
  ParseFloat (fieldOf l 0) = Ok (SampleRate.Rate sr) /\
  exists x, ParseFloat (fieldOf l 1) = Ok x /\ SampleRate.Number sr = int_of_float64 x.

(** GetSamplingRate returns the sampling rate; only one sampling rate is
    taken into account. *)
Definition GetSamplingRate (cfg : CFG) : float64 :=
  match SampleDetail cfg with
  | [] => float64_zero
  | sampleDetail0 :: _ => SampleRate.Rate sampleDetail0
  end.

(** The analog table [chA'] is [chA] with the row [l] appended: one entry
    more in each sequence of a mandatory field, at most one more in those
    of the optional fields. *)
Definition analogAppended (l : bytes) (chA chA' : ChannelA.t) : Prop :=
  exists n0 x5 x6 x7 n8 n9,
    (Strconv.Atoi (fieldOf l 0) = Ok n0 /\ ParseFloat (fieldOf l 5) = Ok x5 /\
     ParseFloat (fieldOf l 6) = Ok x6 /\ ParseFloat (fieldOf l 7) = Ok x7 /\
     Strconv.Atoi (fieldOf l 8) = Ok n8 /\ Strconv.Atoi (fieldOf l 9) = Ok n9) /\
    ChannelA.ChannelTotal chA' = ChannelA.ChannelTotal chA /\
    ChannelA.ChannelNumber chA' = ChannelA.ChannelNumber chA ++ [wrap16 n0] /\
    ChannelA.ChannelNames chA' = ChannelA.ChannelNames chA ++ [nameOf l] /\
    ChannelA.ChannelPhases chA' = ChannelA.ChannelPhases chA ++ [fieldOf l 2] /\
    ChannelA.ChannelElements chA' = ChannelA.ChannelElements chA ++ [fieldOf l 3] /\
    ChannelA.ChannelUnits chA' = ChannelA.ChannelUnits chA ++ [fieldOf l 4] /\
    factorsA chA' = factorsA chA ++ [x5] /\
    factorsB chA' = factorsB chA ++ [x6] /\
    ChannelA.TimeFactors chA' = ChannelA.TimeFactors chA ++ [x7] /\
    ChannelA.ValueMin chA' = ChannelA.ValueMin chA ++ [n8] /\
    ChannelA.ValueMax chA' = ChannelA.ValueMax chA ++ [n9] /\
    (length (ChannelA.Primary chA') <= S (length (ChannelA.Primary chA)))%nat /\
    (length (ChannelA.Secondary chA') <= S (length (ChannelA.Secondary chA)))%nat /\
    (length (ChannelA.IsSecondaryMeasurement chA') <=
       S (length (ChannelA.IsSecondaryMeasurement chA)))%nat.

(** The digit table [chD'] is [chD] with the row [l] appended. *)
Definition digitAppended (l : bytes) (chD chD' : ChannelD.t) : Prop :=
  exists n0 st,
    (Strconv.Atoi (fieldOf l 0) = Ok n0 /\
     (if 4 <? len (GoBytes.Split l ","%char)
      then Strconv.ParseUint (fieldOf l 4) 8 else Ok 2) = Ok st) /\
    ChannelD.ChannelTotal chD' = ChannelD.ChannelTotal chD /\
    ChannelD.ChannelNumber chD' = ChannelD.ChannelNumber chD ++ [wrap16 n0] /\
    ChannelD.ChannelNames chD' = ChannelD.ChannelNames chD ++ [nameOf l] /\
    ChannelD.ChannelPhases chD' = ChannelD.ChannelPhases chD ++ [fieldOf l 2] /\
    ChannelD.ChannelElements chD' = ChannelD.ChannelElements chD ++ [fieldOf l 3] /\
    ChannelD.InitialState chD' = ChannelD.InitialState chD ++ [st].

(** The step [m] neither reads nor writes the data file content: it does
    the same on a configuration that holds another one. *)
Definition ignoresData {A : Type} (m : M A) : Prop :=
  forall (v : byteSlice) (s : CFG),
    m (set_DataFileContent v s) = (set_DataFileContent v (m s).1, (m s).2).

End Entries.

(** ** Further examples *)

Module MoreExamples.

Import Examples.

(** A first line, then a second line whose analog total has no [A]. *)
Definition missingTags : bytes :=
  document [ "STATION,DEV1,1999"; "2,1X,1D" ].

(** A float as a [float64] of the instance above. *)
Definition f64 (x : float) : float64 (Float64 := PrimFloat64.instance) := x.

(** An analog table built by hand: one channel with factors 2.0 and 1.0. *)
Definition handChA : ChannelA.t (H := PrimFloat64.instance) :=
  ChannelA.mk 1 [1] [B "Line_A"] [B "A"] [[]] [B "V"]
              (<["b"%string := [f64 1]]> (<["a"%string := [f64 2]]> ∅))
              [f64 0] [-32767] [32767] [] [] [].

Definition handChD : ChannelD.t := ChannelD.zero.

(** Two records of one analog value each, 10 and -3; the slice holds the
    first, the second lies in its spare capacity. *)
Definition shortSlice : byteSlice :=
  mkSlice record10 (B "headerXY" ++ ["253"%char; "255"%char]).

(** A configuration built by hand: the table above, no digit channel, two
    samples declared, and the short slice as data file. *)
Definition handBuilt : CFG (H := PrimFloat64.instance) :=
  mkCFG (B "STATION") (B "DEV1") 1999 1 (Some handChA) (Some handChD) 50 1
        [SampleRate.mk (f64 1000) 2] GoTime.zeroTime GoTime.zeroTime (B "BINARY")
        (f64 1) [] [] shortSlice.

End MoreExamples.

(** * Proofs *)

Lemma ceilDiv16_eq (d : Z) : ceilDiv16 d = - ((- d) / 16).
Proof.
  unfold ceilDiv16, Qceiling, Qfloor. simpl.
  f_equal. f_equal. lia.
Qed.

Lemma NB_eq (a d : Z) : NB a d = 8 + 2 * a + 2 * ceilDiv16 d.
Proof.
  unfold NB. rewrite !Z.shiftl_mul_pow2 by lia. lia.
Qed.

Lemma Split_cons (l : bytes) (sep : ascii) :
  GoBytes.Split l sep = hd [] (GoBytes.Split l sep) :: tl (GoBytes.Split l sep).
Proof.
  destruct l as [| c l]; simpl; [reflexivity |].
  destruct (decide (c = sep)); [reflexivity |].
  destruct (GoBytes.Split l sep); reflexivity.
Qed.

Lemma index_0 {A : Type} (x : A) (xs : list A) : index (x :: xs) 0 = Ok x.
Proof.
  unfold index. cbn [length].
  replace (Z.of_nat (S (length xs)) <=? 0) with false by (symmetry; apply Z.leb_gt; lia).
  reflexivity.
Qed.


(** ** Reasoning about decoder steps *)

Section Rules.
Context `{Float64}.


Lemma wp_ret {A : Type} (a : A) s (Q : A -> CFG -> Prop) : Q a s -> wp (ret a) s Q.
Proof. intros HQ s' a' [= <- <-]. exact HQ. Qed.

Lemma wp_fail {A : Type} (e : error) s (Q : A -> CFG -> Prop) : wp (fail e) s Q.
Proof. intros s' a [=]. Qed.

Lemma wp_lift {A : Type} (r : result A) s (Q : A -> CFG -> Prop) :
  (forall a, r = Ok a -> Q a s) -> wp (lift r) s Q.
Proof. intros HQ s' a [= <- ->]. now apply HQ. Qed.

Lemma wp_modify (f : CFG -> CFG) s (Q : unit -> CFG -> Prop) :
  Q tt (f s) -> wp (modify f) s Q.
Proof. intros HQ s' a [= <- <-]. exact HQ. Qed.

Lemma wp_gets {A : Type} (f : CFG -> A) s (Q : A -> CFG -> Prop) :
  Q (f s) s -> wp (gets f) s Q.
Proof. intros HQ s' a [= <- <-]. exact HQ. Qed.

Lemma wp_bind {A C : Type} (m : M A) (k : A -> M C) s (Q : C -> CFG -> Prop) :
  wp m s (fun a s1 => wp (k a) s1 Q) -> wp (bind m k) s Q.
Proof.
  unfold wp, bind. intros Hm s' c.
  destruct (m s) as [s1 [a | e | p]] eqn:E; try discriminate.
  intros Hk. exact (Hm s1 a eq_refl s' c Hk).
Qed.

Lemma wp_if {A : Type} (b : bool) (m1 m2 : M A) s (Q : A -> CFG -> Prop) :
  (b = true -> wp m1 s Q) -> (b = false -> wp m2 s Q) ->
  wp (if b then m1 else m2) s Q.
Proof. destruct b; auto. Qed.

Lemma wp_mono {A : Type} (m : M A) s (Q Q' : A -> CFG -> Prop) :
  wp m s Q -> (forall a s', Q a s' -> Q' a s') -> wp m s Q'.
Proof. unfold wp. eauto. Qed.

(** A loop keeps an invariant that every iteration keeps. *)
Lemma wp_forLoop (body : Z -> M unit) (I : Z -> CFG -> Prop) (n : nat) :
  forall from s,
    (forall i s1, from <= i < from + Z.of_nat n -> I i s1 ->
                  wp (body i) s1 (fun _ s2 => I (i + 1) s2)) ->
    I from s ->
    wp (forLoop body n from) s (fun _ s' => I (from + Z.of_nat n) s').
Proof.
  induction n as [| n IH]; intros from s Hbody HI; simpl forLoop.
  - apply wp_ret. now rewrite Z.add_0_r.
  - apply wp_bind. eapply wp_mono; [apply (Hbody from); [lia | exact HI] |].
    intros u s1 HI1. simpl in HI1 |- *.
    replace (from + Z.of_nat (S n)) with (from + 1 + Z.of_nat n) by lia.
    apply IH; [| exact HI1]. intros i s2 Hi. apply Hbody. lia.
Qed.

End Rules.

Ltac st_simpl :=
  cbv beta iota delta [StationName RecordDeviceId RevisionYear ChannelNumber AnalogDetail DigitDetail
       LineFrequency SampleRateNum SampleDetail StartTime TriggerTime DataFileType
       TimeFactor TimeCode LocalCode DataFileContent
       set_StationName set_RecordDeviceId set_RevisionYear set_ChannelNumber
       set_AnalogDetail set_DigitDetail set_LineFrequency set_SampleRateNum
       set_SampleDetail set_StartTime set_TriggerTime set_DataFileType set_TimeFactor
       set_TimeCode set_LocalCode set_DataFileContent
       fmap option_fmap option_map
       ChannelA.ChannelTotal ChannelA.ChannelNumber ChannelA.ChannelNames
       ChannelA.ChannelPhases ChannelA.ChannelElements ChannelA.ChannelUnits
       ChannelA.ConversionFactors ChannelA.TimeFactors ChannelA.ValueMin ChannelA.ValueMax
       ChannelA.Primary ChannelA.Secondary ChannelA.IsSecondaryMeasurement
       ChannelA.set_ChannelTotal ChannelA.set_ChannelNumber ChannelA.set_ChannelNames
       ChannelA.set_ChannelPhases ChannelA.set_ChannelElements ChannelA.set_ChannelUnits
       ChannelA.set_ConversionFactors ChannelA.set_TimeFactors ChannelA.set_ValueMin
       ChannelA.set_ValueMax ChannelA.set_Primary ChannelA.set_Secondary
       ChannelA.set_IsSecondaryMeasurement ChannelA.append_factor ChannelA.zero
       ChannelD.ChannelTotal ChannelD.ChannelNumber ChannelD.ChannelNames
       ChannelD.ChannelPhases ChannelD.ChannelElements ChannelD.InitialState
       ChannelD.set_ChannelTotal ChannelD.set_ChannelNumber ChannelD.set_ChannelNames
       ChannelD.set_ChannelPhases ChannelD.set_ChannelElements ChannelD.set_InitialState
       ChannelD.zero].

Ltac wp_step :=
  lazymatch goal with
  | |- wp (bind _ _) _ _ => apply wp_bind
  | |- wp (ret _) _ _ => apply wp_ret
  | |- wp (fail _) _ _ => apply wp_fail
  | |- wp (lift _) _ _ => apply wp_lift; intros ? ?
  | |- wp (modify _) _ _ => apply wp_modify; st_simpl
  | |- wp (gets _) _ _ => apply wp_gets; st_simpl
  | |- wp (if _ then _ else _) _ _ => apply wp_if; intros ?
  | |- wp (field _ _) _ _ => unfold field
  | |- wp (lineAt _ _) _ _ => unfold lineAt
  | |- wp (modA _) _ _ => unfold modA
  | |- wp (readPrimary _) _ _ => unfold readPrimary
  | |- wp (readSecondary _) _ _ => unfold readSecondary
  | |- wp (readIsSecondaryMeasurement _) _ _ => unfold readIsSecondaryMeasurement
  | |- wp (readElement _) _ _ => unfold readElement
  | |- wp (readInitialState _) _ _ => unfold readInitialState
  | |- wp (modD _) _ _ => unfold modD
  | |- wp (let _ := _ in _) _ _ => cbv zeta
  | |- wp (match ?r with Ok _ => _ | _ => _ end) _ _ => destruct r eqn:?
  end.

Ltac wp_run := repeat wp_step.

Ltac wp_phase L :=
  apply wp_bind; eapply wp_mono; [apply L | cbv beta].

Section Run.
Context `{Float64}.

Lemma index_Ok {A : Type} (xs : list A) (i : Z) (x : A) :
  index xs i = Ok x <-> 0 <= i /\ xs !! Z.to_nat i = Some x.
Proof.
  unfold index.
  destruct (i <? 0) eqn:E1; simpl.
  - split; [discriminate | lia].
  - destruct (Z.of_nat (length xs) <=? i) eqn:E2.
    + split; [discriminate |]. intros [_ Hl]. apply lookup_lt_Some in Hl. lia.
    + destruct (xs !! Z.to_nat i) eqn:E3.
      * split; [intros [= ->]; split; [lia | reflexivity] | intros [_ [= ->]]; reflexivity].
      * split; [discriminate | intros [_ [=]]].
Qed.

Lemma ParseUint_Ok (s : bytes) (w n : Z) :
  Strconv.ParseUint s w = Ok n <-> Strconv.parseUint10 s w = inl n.
Proof.
  unfold Strconv.ParseUint. destruct (Strconv.parseUint10 s w); split; congruence.
Qed.

Lemma parseUintLoop_range (maxVal : Z) (s : bytes) :
  forall n r, 0 <= n <= maxVal -> Strconv.parseUintLoop maxVal s n = inl r ->
              0 <= r <= maxVal.
Proof.
  induction s as [| c s IH]; intros n r Hn; simpl.
  - intros [= <-]. exact Hn.
  - destruct (negb (Strconv.isDigit c)); [discriminate |].
    destruct (_ <=? n); [discriminate |].
    destruct (_ || _) eqn:E; [discriminate |].
    apply orb_false_iff in E as [_ E2]. apply IH.
    unfold wrap64, wrap in *. split; [apply Z.mod_pos_bound; lia | lia].
Qed.

Lemma ParseUint_range (s : bytes) (w n : Z) :
  0 <= w -> Strconv.ParseUint s w = Ok n -> 0 <= n < 2 ^ w.
Proof.
  intros Hw E. apply ParseUint_Ok in E. unfold Strconv.parseUint10 in E.
  destruct s as [| c s]; [discriminate |].
  apply parseUintLoop_range in E; [lia |].
  pose proof (Z.pow_pos_nonneg 2 w ltac:(lia) Hw). lia.
Qed.

Lemma wrap16_small (n : Z) : 0 <= n < 65536 -> wrap16 n = n.
Proof. intros Hn. unfold wrap16, wrap. apply Z.mod_small. simpl. lia. Qed.

Lemma wrap16_range (n : Z) : 0 <= wrap16 n < 65536.
Proof. unfold wrap16, wrap. apply Z.mod_pos_bound. reflexivity. Qed.

Lemma declared_range (l : bytes) (t a d : Z) :
  declared l = Some (t, a, d) -> 0 <= a < 65536 /\ 0 <= d < 65536.
Proof.
  unfold declared. intros Hdec.
  destruct (GoBytes.Split l ",") as [| f0 [| f1 [| f2 fs]]]; try discriminate.
  destruct (Strconv.ParseUint (ByteToString f0) 16); try discriminate.
  destruct (Strconv.ParseUint (GoBytes.TrimSuffix _ "A") 16) eqn:EA; try discriminate.
  destruct (Strconv.ParseUint (GoBytes.TrimSuffix _ "D") 16) eqn:ED; try discriminate.
  simplify_eq. split; eapply (ParseUint_range _ 16); try eassumption; lia.
Qed.

(** *** What each section of the decoder leaves behind *)

Lemma readFirstLine_Ok lines s :
  wp (readFirstLine lines) s (fun _ s' =>
    exists n d y, s' = set_RevisionYear y (set_RecordDeviceId d (set_StationName n s))).
Proof.
  destruct s. unfold readFirstLine. wp_run.
  all: lazymatch goal with
       | |- exists _ _ _, mkCFG ?n ?d ?y _ _ _ _ _ _ _ _ _ _ _ _ _ = _ =>
           exists n, d, y; reflexivity
       end.
Qed.

Lemma readSecondLine_Ok lines s :
  wp (readSecondLine lines) s (fun ad s' =>
    exists l t,
      lines !! 1%nat = Some l /\ declared l = Some (t, ad.1, ad.2) /\
      s' = set_DigitDetail (Some (ChannelD.set_ChannelTotal ad.2 ChannelD.zero))
             (set_AnalogDetail (Some (ChannelA.set_ChannelTotal ad.1 ChannelA.zero))
                (set_ChannelNumber t s))).
Proof.
  destruct s. unfold readSecondLine. wp_run.
  repeat match goal with E : index _ _ = Ok _ |- _ => apply index_Ok in E as [_ E] end.
  eexists _, _. split; [eassumption |]. split; [| reflexivity].
  unfold declared.
  destruct (GoBytes.Split a ",") as [| g0 [| g1 [| g2 gs]]]; try discriminate.
  simpl in *. simplify_eq. 
  repeat match goal with E : Strconv.ParseUint _ _ = Ok _ |- _ => rewrite E end.
  reflexivity.
Qed.

Lemma analogRow_Ok lines i s chA :
  AnalogDetail s = Some chA ->
  wp (analogRow lines i) s (fun _ s' =>
    exists chA', s' = set_AnalogDetail (Some chA') s /\
      ChannelA.ChannelTotal chA' = ChannelA.ChannelTotal chA /\
      length (factorsA chA') = S (length (factorsA chA)) /\
      length (factorsB chA') = S (length (factorsB chA))).
Proof.
  intros HA. destruct s; simpl in HA; subst. destruct chA. unfold analogRow.
  wp_run.
  all: eexists; split; [reflexivity|]; unfold factorsA, factorsB; st_simpl.
  all: split; [reflexivity |].
  all: repeat (rewrite lookup_insert_ne by done); rewrite !lookup_insert_eq;
    repeat (rewrite lookup_insert_ne by done); cbn [from_option id].
  all: rewrite !length_app; simpl; lia || (split; lia).
Qed.

Lemma analogLoop_Ok lines n s chA :
  AnalogDetail s = Some chA ->
  wp (forLoop (analogRow lines) n 0) s (fun _ s' =>
    exists chA', s' = set_AnalogDetail (Some chA') s /\
      ChannelA.ChannelTotal chA' = ChannelA.ChannelTotal chA /\
      length (factorsA chA') = (length (factorsA chA) + n)%nat /\
      length (factorsB chA') = (length (factorsB chA) + n)%nat).
Proof.
  intros HA.
  eapply wp_mono.
  - apply (wp_forLoop _ (fun i s' =>
      exists chA', s' = set_AnalogDetail (Some chA') s /\
        ChannelA.ChannelTotal chA' = ChannelA.ChannelTotal chA /\
        length (factorsA chA') = (length (factorsA chA) + Z.to_nat i)%nat /\
        length (factorsB chA') = (length (factorsB chA) + Z.to_nat i)%nat)).
    + intros i s1 Hi (chA1 & -> & Ht & Ha & Hb).
      eapply wp_mono; [apply (analogRow_Ok _ _ _ chA1); destruct s; reflexivity |].
      intros _ s2 (chA2 & -> & Ht2 & Ha2 & Hb2). exists chA2.
      split; [destruct s; reflexivity |].
      split; [congruence |]. split; lia.
    + exists chA. split; [destruct s; cbn in *; subst; reflexivity |].
      split; [reflexivity |]. split; simpl; lia.
  - intros _ s' (chA' & -> & Ht & Ha & Hb). exists chA'.
    repeat split; try assumption; simpl in *; lia.
Qed.

Lemma digitRow_Ok lines a i s chD :
  DigitDetail s = Some chD ->
  wp (digitRow lines a i) s (fun _ s' =>
    exists chD', s' = set_DigitDetail (Some chD') s /\
      ChannelD.ChannelTotal chD' = ChannelD.ChannelTotal chD).
Proof.
  intros HD. destruct s; simpl in HD; subst. destruct chD. unfold digitRow.
  wp_run.
  all: eexists; split; reflexivity.
Qed.

Lemma digitLoop_Ok lines a n s chD :
  DigitDetail s = Some chD ->
  wp (forLoop (digitRow lines a) n 0) s (fun _ s' =>
    exists chD', s' = set_DigitDetail (Some chD') s /\
      ChannelD.ChannelTotal chD' = ChannelD.ChannelTotal chD).
Proof.
  intros HD.
  eapply wp_mono.
  - apply (wp_forLoop _ (fun _ s' =>
      exists chD', s' = set_DigitDetail (Some chD') s /\
        ChannelD.ChannelTotal chD' = ChannelD.ChannelTotal chD)).
    + intros i s1 Hi (chD1 & -> & Ht).
      eapply wp_mono; [apply (digitRow_Ok _ _ _ _ chD1); destruct s; reflexivity |].
      intros _ s2 (chD2 & -> & Ht2). exists chD2.
      split; [destruct s; reflexivity | congruence].
    + exists chD. split; [destruct s; cbn in *; subst; reflexivity | reflexivity].
  - intros u s' Hs'. exact Hs'.
Qed.

Lemma readLineFrequency_Ok lines a d s :
  wp (readLineFrequency lines a d) s (fun _ s' => exists v, s' = set_LineFrequency v s).
Proof. unfold readLineFrequency. wp_run. eauto. Qed.

Lemma readSampleRateNum_Ok lines a d s :
  wp (readSampleRateNum lines a d) s (fun r s' =>
    exists l n,
      lines !! Z.to_nat (wrap16 (3 + a + d)) = Some l /\ reads l = Ok n /\
      r = (if n =? 0 then 1 else n) /\
      s' = set_SampleRateNum r s /\ 1 <= r < 65536).
Proof.
  destruct s. unfold readSampleRateNum. wp_run.
  all: repeat match goal with
              | E : index (GoBytes.Split _ _) 0 = Ok _ |- _ =>
                  rewrite Split_cons, index_0 in E; injection E as <-
              | E : index _ _ = Ok _ |- _ => apply index_Ok in E as [_ E]
              end.
  all: match goal with
       | E : Strconv.ParseUint _ 16 = Ok ?n |- _ =>
           pose proof (ParseUint_range _ 16 n ltac:(lia) E) as Hr;
           rewrite (wrap16_small n) in * by exact Hr;
           eexists _, n; split; [eassumption |]; split; [exact E |]
       end.
  all: match goal with E : (_ =? 0) = _ |- _ => rewrite E end.
  - split; [reflexivity |]. split; [reflexivity | lia].
  - split; [reflexivity |]. split; [reflexivity |].
    match goal with E : (_ =? 0) = false |- _ => apply Z.eqb_neq in E end.
    simpl in Hr. lia.
Qed.

Lemma sampleRateRow_Ok lines a d i s :
  wp (sampleRateRow lines a d i) s (fun _ s' =>
    exists sr, s' = set_SampleDetail (SampleDetail s ++ [sr]) s).
Proof. unfold sampleRateRow. wp_run. eauto. Qed.

Lemma sampleRateLoop_Ok lines a d n s :
  wp (forLoop (sampleRateRow lines a d) n 0) s (fun _ s' =>
    exists srs, s' = set_SampleDetail (SampleDetail s ++ srs) s /\ length srs = n).
Proof.
  eapply wp_mono.
  - apply (wp_forLoop _ (fun i s' =>
      exists srs, s' = set_SampleDetail (SampleDetail s ++ srs) s /\
                  length srs = Z.to_nat i)).
    + intros i s1 Hi (srs & -> & Hl).
      eapply wp_mono; [apply sampleRateRow_Ok |].
      intros _ s2 (sr & ->). exists (srs ++ [sr]).
      split; [destruct s; simpl; now rewrite <- app_assoc |].
      rewrite length_app. simpl. lia.
    + exists []. split; [destruct s; simpl; now rewrite app_nil_r | reflexivity].
  - intros _ s' (srs & -> & Hl). exists srs. split; [reflexivity | simpl in Hl; lia].
Qed.

Lemma readStartTime_Ok lines r a d s :
  wp (readStartTime lines r a d) s (fun _ s' =>
    exists l t, lines !! Z.to_nat (wrap16 (4 + r + a + d)) = Some l /\
      timeParse (ByteToString (GoBytes.Join (GoBytes.Split l ",") (B "T"))) = Ok t /\
      s' = set_StartTime t s).
Proof.
  unfold readStartTime. wp_run.
  match goal with E : index _ _ = Ok _ |- _ => apply index_Ok in E as [_ E] end. eauto.
Qed.

Lemma readTriggerTime_Ok lines r a d s :
  wp (readTriggerTime lines r a d) s (fun _ s' =>
    exists l t, lines !! Z.to_nat (wrap16 (5 + r + a + d)) = Some l /\
      timeParse (ByteToString (GoBytes.Join (GoBytes.Split l ",") (B "T"))) = Ok t /\
      s' = set_TriggerTime t s).
Proof.
  unfold readTriggerTime. wp_run.
  match goal with E : index _ _ = Ok _ |- _ => apply index_Ok in E as [_ E] end. eauto.
Qed.

Lemma readDataFileType_Ok lines r a d s :
  wp (readDataFileType lines r a d) s (fun _ s' => exists v, s' = set_DataFileType v s).
Proof. unfold readDataFileType. wp_run. eauto. Qed.

Lemma readTimeFactor_Ok lines r a d s :
  wp (readTimeFactor lines r a d) s (fun _ s' => exists v, s' = set_TimeFactor v s).
Proof. unfold readTimeFactor. wp_run; eauto. Qed.

Lemma readTimeCode_Ok lines r a d s :
  wp (readTimeCode lines r a d) s (fun _ s' =>
    exists tc lc, s' = set_LocalCode lc (set_TimeCode tc s)).
Proof.
  destruct s. unfold readTimeCode. cbv zeta. wp_run.
  all: lazymatch goal with
       | |- exists _ _, mkCFG _ _ _ _ _ _ _ _ _ _ _ _ _ ?tc ?lc _ = _ =>
           exists tc, lc; reflexivity
       end.
Qed.

(** *** What a successful decoding leaves behind *)

Lemma readLines_wp lines s :
  wp (readLines lines) s (fun _ s' => Decoded lines s s').
Proof.
  unfold readLines.
  wp_phase readFirstLine_Ok. intros _ s1 (n & dv & y & ->).
  wp_phase readSecondLine_Ok. intros [a d] s1 (l1 & t & Hl1 & Hdec & ->).
  cbv zeta. cbn [fst snd] in *.
  apply wp_bind; eapply wp_mono; [eapply analogLoop_Ok; reflexivity | cbv beta].
  intros _ s1 (chA & -> & HtA & HlA & HlB).
  apply wp_bind; eapply wp_mono; [eapply digitLoop_Ok; reflexivity | cbv beta].
  intros _ s1 (chD & -> & HtD).
  wp_phase readLineFrequency_Ok. intros _ s1 (lf & ->).
  wp_phase readSampleRateNum_Ok. intros r s1 (lR & nR & HlR & HnR & HrR & -> & Hr).
  wp_phase sampleRateLoop_Ok. intros _ s1 (srs & -> & Hsrs).
  wp_phase readStartTime_Ok. intros _ s1 (lS & tS & HlS & HtS & ->).
  wp_phase readTriggerTime_Ok. intros _ s1 (lT & tT & HlT & HtT & ->).
  wp_phase readDataFileType_Ok. intros _ s1 (dt & ->).
  wp_phase readTimeFactor_Ok. intros _ s1 (tf & ->).
  eapply wp_mono; [apply readTimeCode_Ok |]. cbv beta. intros _ s' (tc & lc & ->).
  exists l1, t, a, d, chA, chD, r, srs, lS, lT.
  destruct s. cbn in *.
  repeat split; try assumption; try lia.
  exists lR, nR. repeat split; assumption.
Qed.

Lemma readLines_Ok lines s s' :
  readLines lines s = (s', Ok tt) -> Decoded lines s s'.
Proof. intros E. exact (readLines_wp lines s s' tt E). Qed.
End Run.

Lemma NB_facts (a d : Z) :
  0 <= a -> 0 <= d ->
  0 <= ceilDiv16 d /\ NB a d = 8 + 2 * (a + ceilDiv16 d) /\
  (NB a d - 8) ÷ 2 = a + ceilDiv16 d.
Proof.
  intros Ha Hd. rewrite NB_eq, ceilDiv16_eq.
  assert (0 <= - (- d / 16)) as Hc.
  { pose proof (Z.div_mod (- d) 16 ltac:(lia)).
    pose proof (Z.mod_pos_bound (- d) 16 ltac:(lia)). lia. }
  split; [exact Hc |]. split; [lia |].
  replace (8 + 2 * a + 2 * - (- d / 16) - 8) with ((a + - (- d / 16)) * 2) by lia.
  apply Z.quot_mul. lia.
Qed.

Lemma reslice_Ok (s : byteSlice) (lo hi : Z) :
  0 <= lo <= hi -> hi <= scap s ->
  reslice s lo hi =
    Ok (mkSlice (take (Z.to_nat (hi - lo)) (drop (Z.to_nat lo) (contents s ++ spare s)))
                (drop (Z.to_nat hi) (contents s ++ spare s))).
Proof.
  intros Hlo Hhi. unfold reslice.
  replace ((hi <? 0) || (scap s <? hi)) with false by (symmetry; apply orb_false_iff; lia).
  replace ((lo <? 0) || (hi <? lo)) with false by (symmetry; apply orb_false_iff; lia).
  reflexivity.
Qed.

Lemma reslice_Panic (s : byteSlice) (lo hi : Z) :
  scap s < hi -> reslice s lo hi = Panic (SliceBoundsOutOfRange hi (scap s)).
Proof.
  intros Hhi. unfold reslice.
  replace ((hi <? 0) || (scap s <? hi)) with true by (symmetry; apply orb_true_iff; lia).
  reflexivity.
Qed.

Lemma int16sLE_lookup (bs : bytes) (k : nat) (b0 b1 : ascii) :
  bs !! (2 * k)%nat = Some b0 -> bs !! (2 * k + 1)%nat = Some b1 ->
  int16sLE bs !! k = Some (signed 16 (byteZ b0 + 256 * byteZ b1)).
Proof.
  revert bs. induction k as [| k IH]; intros bs H0 H1.
  - destruct bs as [| lo [| hi rest]]; simpl in *; try discriminate.
    congruence.
  - destruct bs as [| lo [| hi rest]]; simpl in *; try discriminate.
    replace (k + S (k + 0))%nat with (S (2 * k)) in * by lia.
    simpl in *. apply IH; [exact H0 |].
    replace (2 * k + 1)%nat with (S (2 * k)) by lia. exact H1.
Qed.

Lemma len_nonneg {A : Type} (xs : list A) : 0 <= len xs.
Proof. unfold len. lia. Qed.

Section Extract.
Context `{Float64}.

Lemma sampleValue_Panic (data : byteSlice) (nb : Z) factor (num i : Z) :
  scap data < i * nb + nb ->
  sampleValue data nb factor num i =
    Panic (SliceBoundsOutOfRange (i * nb + nb) (scap data)).
Proof.
  intros Hc. unfold sampleValue. rewrite reslice_Panic by exact Hc. reflexivity.
Qed.

Lemma sampleValue_Ok (data : byteSlice) (a d : Z) (factor : gmap string (list float64))
    (num i : Z) (fa fb : float64) :
  0 <= a -> 0 <= d -> 1 <= num <= a -> 0 <= i ->
  i * NB a d + NB a d <= scap data ->
  default [] (factor !! "a"%string) !! Z.to_nat (num - 1) = Some fa ->
  default [] (factor !! "b"%string) !! Z.to_nat (num - 1) = Some fb ->
  sampleValue data (NB a d) factor num i =
    Ok (float64_add
          (float64_mul (float64_of_int16 (rawSample (contents data ++ spare data) (NB a d) num i))
                       fa) fb).
Proof.
  intros Ha Hd Hnum Hi Hcap Hfa Hfb.
  destruct (NB_facts a d Ha Hd) as (Hc & Hnb & Hq).
  set (nb := NB a d) in *. set (c := ceilDiv16 d) in *.
  set (array := contents data ++ spare data).
  assert (len array = scap data) as Hlen.
  { unfold array, scap, len. rewrite length_app. lia. }
  unfold sampleValue.
  rewrite reslice_Ok by nia. cbn [rbind]. fold array.
  replace (i * nb + nb - i * nb) with nb by lia.
  unfold resliceFrom, slen. cbn [contents spare].
  assert (length (take (Z.to_nat nb) (drop (Z.to_nat (i * nb)) array)) = Z.to_nat nb) as Ht.
  { rewrite length_take, length_drop. unfold len in Hlen. nia. }
  rewrite reslice_Ok.
  2: { unfold len. rewrite Ht. lia. }
  2: { unfold scap, len. cbn [contents spare]. rewrite Ht. lia. }
  cbn [rbind contents spare].
  replace (Z.to_nat (i * nb + nb)) with (Z.to_nat (i * nb) + Z.to_nat nb)%nat by nia.
  rewrite <- drop_drop, take_drop.
  unfold len. rewrite Ht, Z2Nat.id by lia.
  set (r := take (Z.to_nat (nb - 8)) (drop (Z.to_nat 8) (drop (Z.to_nat (i * nb)) array))).
  assert (length r = Z.to_nat (nb - 8)) as Hr.
  { unfold r. rewrite length_take, !length_drop. unfold len in Hlen. nia. }
  assert (forall j : nat, (j < Z.to_nat (nb - 8))%nat ->
            r !! j = array !! (Z.to_nat (i * nb + 8) + j)%nat) as Hrj.
  { intros j Hj. unfold r. rewrite lookup_take_lt by exact Hj.
    rewrite !lookup_drop. f_equal. nia. }
  unfold binaryRead. rewrite Hq.
  replace (2 * (a + c) =? 0) with false by (symmetry; apply Z.eqb_neq; lia).
  unfold len. rewrite Hr.
  replace (Z.of_nat (Z.to_nat (nb - 8)) =? 0) with false by (symmetry; apply Z.eqb_neq; lia).
  replace (Z.of_nat (Z.to_nat (nb - 8)) <? 2 * (a + c)) with false
    by (symmetry; apply Z.ltb_ge; lia).
  cbn [rbind].
  replace (Z.to_nat (2 * (a + c))) with (length r) by lia.
  rewrite firstn_all.
  assert (is_Some (array !! (Z.to_nat (i * nb + 8) + 2 * Z.to_nat (num - 1))%nat)) as [b0 Hb0].
  { apply lookup_lt_is_Some. unfold len in Hlen. nia. }
  assert (is_Some (array !! (Z.to_nat (i * nb + 8) + (2 * Z.to_nat (num - 1) + 1))%nat))
    as [b1 Hb1].
  { apply lookup_lt_is_Some. unfold len in Hlen. nia. }
  assert (index (int16sLE r) (num - 1) = Ok (signed 16 (byteZ b0 + 256 * byteZ b1))) as ->.
  { apply index_Ok. split; [lia |]. apply int16sLE_lookup.
    - rewrite Hrj by lia. exact Hb0.
    - rewrite Hrj by lia. exact Hb1. }
  cbn [rbind].
  assert (index (default [] (factor !! "a"%string)) (num - 1) = Ok fa) as ->
    by (apply index_Ok; split; [lia | exact Hfa]).
  assert (index (default [] (factor !! "b"%string)) (num - 1) = Ok fb) as ->
    by (apply index_Ok; split; [lia | exact Hfb]).
  cbn [rbind]. do 3 f_equal.
  unfold rawSample. f_equal.
  rewrite !nth_lookup.
  replace (Z.to_nat (i * nb + 8 + 2 * (num - 1)))
    with (Z.to_nat (i * nb + 8) + 2 * Z.to_nat (num - 1))%nat by nia.
  replace (Z.to_nat (i * nb + 8 + 2 * (num - 1) + 1))
    with (Z.to_nat (i * nb + 8) + (2 * Z.to_nat (num - 1) + 1))%nat by nia.
  fold array. rewrite Hb0, Hb1. reflexivity.
Qed.


Lemma sampleLoop_Ok (body : Z -> result float64) (val : Z -> float64) (n : nat) :
  forall from res,
    (forall i, from <= i < from + Z.of_nat n -> body i = Ok (val i)) ->
    sampleLoop body n from res = Ok (res ++ (val <$> seqZ from (Z.of_nat n))).
Proof.
  induction n as [| n IH]; intros from res Hbody.
  - simpl. now rewrite app_nil_r.
  - cbn [sampleLoop]. rewrite Hbody by lia. cbn [rbind].
    rewrite IH by (intros i Hi; apply Hbody; lia).
    rewrite <- app_assoc. do 2 f_equal.
    replace (Z.of_nat (S n)) with (Z.succ (Z.of_nat n)) by lia.
    rewrite (seqZ_cons from) by lia. rewrite Z.pred_succ. reflexivity.
Qed.

Lemma sampleLoop_Panic (body : Z -> result float64) (nb cap : Z) (n : nat) :
  0 < nb ->
  (forall i, 0 <= i -> i * nb + nb <= cap -> exists v, body i = Ok v) ->
  (forall i, 0 <= i -> cap < i * nb + nb ->
             body i = Panic (SliceBoundsOutOfRange (i * nb + nb) cap)) ->
  forall from res,
    0 <= from -> from * nb <= cap -> cap < (from + Z.of_nat n) * nb ->
    exists k, from <= k < from + Z.of_nat n /\ cap < k * nb + nb /\
      sampleLoop body n from res = Panic (SliceBoundsOutOfRange (k * nb + nb) cap).
Proof.
  intros Hnb HOk HPanic.
  induction n as [| n IH]; intros from res Hfrom Hfit Hcap.
  - exfalso. simpl in Hcap. nia.
  - cbn [sampleLoop].
    destruct (Z_le_gt_dec (from * nb + nb) cap) as [Hle | Hgt].
    + destruct (HOk from Hfrom Hle) as [v ->]. cbn [rbind].
      destruct (IH (from + 1) (res ++ [v]) ltac:(lia) ltac:(nia) ltac:(nia))
        as (k & Hk & Hc & E).
      exists k. split; [lia |]. split; [exact Hc | exact E].
    + exists from. split; [lia |]. split; [lia |].
      rewrite HPanic by lia. reflexivity.
Qed.

(** What [GetAnalogChannelData] computes on a decoded configuration that
    holds a data file: the loop over the samples. *)
Lemma GetAnalogChannelData_decoded lines cfg0 cfg data num :
  Decoded lines cfg0 cfg ->
  slen data <> 0 ->
  1 <= num <= ChannelA.GetChannelTotal (AnalogDetail cfg) ->
  exists chA sr0 rest fa fb,
    AnalogDetail cfg = Some chA /\ SampleDetail cfg = sr0 :: rest /\
    0 <= ChannelA.GetChannelTotal (AnalogDetail cfg) /\
    0 <= ChannelD.GetChannelTotal (DigitDetail cfg) /\
    factorsA chA !! Z.to_nat (num - 1) = Some fa /\
    factorsB chA !! Z.to_nat (num - 1) = Some fb /\
    GetAnalogChannelData (Some (ReadDAT cfg data)) num =
      sampleLoop (sampleValue data
                    (NB (ChannelA.GetChannelTotal (AnalogDetail cfg))
                        (ChannelD.GetChannelTotal (DigitDetail cfg)))
                    (ChannelA.ConversionFactors chA) num)
                 (Z.to_nat (GetSamplingNumber cfg)) 0 [].
Proof.
  intros (l1 & t & a & d & chA & chD & r & srs & lS & lT & Hl1 & Hdec & Ht & HA & HtA &
          HlA & HlB & HD & HtD & Hr & Hrr & _ & HS & Hsrs & _) Hdata Hnum.
  rewrite HA, HD in *. cbn [ChannelA.GetChannelTotal ChannelD.GetChannelTotal] in *.
  destruct (declared_range _ _ _ _ Hdec) as [Ha Hd].
  assert (exists sr0 rest, SampleDetail cfg = sr0 :: rest) as (sr0 & rest & Hsd).
  { rewrite HS. destruct srs as [| sr srs']; [simpl in Hsrs; lia |].
    destruct (SampleDetail cfg0); simpl; eauto. }
  assert (is_Some (factorsA chA !! Z.to_nat (num - 1))) as [fa Hfa]
    by (apply lookup_lt_is_Some; lia).
  assert (is_Some (factorsB chA !! Z.to_nat (num - 1))) as [fb Hfb]
    by (apply lookup_lt_is_Some; lia).
  exists chA, sr0, rest, fa, fb.
  repeat (split; [first [assumption | reflexivity | lia] |]).
  unfold GetAnalogChannelData, ReadDAT, GetSamplingNumber.
  destruct cfg. cbn in *. subst.
  replace (slen data =? 0) with false by (symmetry; apply Z.eqb_neq; exact Hdata).
  replace (ChannelA.ChannelTotal chA <? num) with false by (symmetry; apply Z.ltb_ge; lia).
  replace (num <? 1) with false by (symmetry; apply Z.ltb_ge; lia).
  rewrite Hsd. reflexivity.
Qed.

End Extract.

Lemma index_agree {A : Type} (xs ys : list A) (j : Z) :
  length xs = length ys -> xs !! Z.to_nat j = ys !! Z.to_nat j -> index xs j = index ys j.
Proof. intros Hl Hj. unfold index. rewrite Hl, Hj. reflexivity. Qed.

Lemma wrap16_le (n : Z) : 0 <= n -> 0 <= wrap16 n <= n.
Proof.
  intros Hn. unfold wrap16, wrap. split; [apply Z.mod_pos_bound; reflexivity |].
  apply Z.mod_le; [exact Hn | reflexivity].
Qed.

Lemma wrap16_add_ne (k c : Z) : 0 <= k -> 0 < c < 65536 -> wrap16 (k + c) <> k.
Proof.
  intros Hk Hc. unfold wrap16, wrap. change (2 ^ 16) with 65536.
  pose proof (Z.div_mod (k + c) 65536 ltac:(lia)).
  pose proof (Z.mod_pos_bound (k + c) 65536 ltac:(lia)).
  intros E. rewrite E in *.
  assert ((k + c) / 65536 = 0 \/ 1 <= (k + c) / 65536) as [E0 | E1] by
    (pose proof (Z.div_pos (k + c) 65536 ltac:(lia) ltac:(lia)); lia).
  - lia.
  - nia.
Qed.

Section TwoDocuments.
Context `{Float64}.

Lemma bind_congr {A C : Type} (m0 m1 : M A) (k0 k1 : A -> M C) (s : CFG) :
  m0 s = m1 s ->
  (forall a s1, m0 s = (s1, Ok a) -> k0 a s1 = k1 a s1) ->
  bind m0 k0 s = bind m1 k1 s.
Proof.
  intros Hm Hk. unfold bind. rewrite <- Hm.
  destruct (m0 s) as [s1 [a | e | p]]; [apply Hk |..]; reflexivity.
Qed.

Lemma forLoop_agree (body0 body1 : Z -> M unit) (n : nat) :
  forall from,
    (forall i, from <= i < from + Z.of_nat n -> body0 i = body1 i) ->
    forLoop body0 n from = forLoop body1 n from.
Proof.
  induction n as [| n IH]; intros from Hb; [reflexivity |].
  cbn [forLoop]. rewrite (Hb from) by lia. rewrite (IH (from + 1)); [reflexivity |].
  intros i Hi. apply Hb. lia.
Qed.

Variables (lines0 lines1 : list bytes).
Hypothesis same_length : length lines0 = length lines1.

Lemma readFirstLine_agree :
  index lines0 0 = index lines1 0 -> readFirstLine lines0 = readFirstLine lines1.
Proof. intros E. unfold readFirstLine, lineAt. rewrite E. reflexivity. Qed.

Lemma readSecondLine_agree :
  index lines0 1 = index lines1 1 -> readSecondLine lines0 = readSecondLine lines1.
Proof. intros E. unfold readSecondLine, lineAt. rewrite E. reflexivity. Qed.

Lemma analogRow_agree i :
  index lines0 (2 + i) = index lines1 (2 + i) -> analogRow lines0 i = analogRow lines1 i.
Proof. intros E. unfold analogRow, lineAt. rewrite E. reflexivity. Qed.

Lemma digitRow_agree a i :
  index lines0 (2 + a + i) = index lines1 (2 + a + i) ->
  digitRow lines0 a i = digitRow lines1 a i.
Proof. intros E. unfold digitRow, lineAt. rewrite E. reflexivity. Qed.

Lemma readLineFrequency_agree a d :
  index lines0 (wrap16 (2 + a + d)) = index lines1 (wrap16 (2 + a + d)) ->
  readLineFrequency lines0 a d = readLineFrequency lines1 a d.
Proof. intros E. unfold readLineFrequency, lineAt. rewrite E. reflexivity. Qed.

Lemma readSampleRateNum_agree a d :
  index lines0 (wrap16 (3 + a + d)) = index lines1 (wrap16 (3 + a + d)) ->
  readSampleRateNum lines0 a d = readSampleRateNum lines1 a d.
Proof. intros E. unfold readSampleRateNum, lineAt. rewrite E. reflexivity. Qed.

Lemma sampleRateRow_agree a d i :
  index lines0 (4 + i + a + d) = index lines1 (4 + i + a + d) ->
  sampleRateRow lines0 a d i = sampleRateRow lines1 a d i.
Proof. intros E. unfold sampleRateRow, lineAt. rewrite E. reflexivity. Qed.

Lemma readStartTime_agree r a d :
  index lines0 (wrap16 (4 + r + a + d)) = index lines1 (wrap16 (4 + r + a + d)) ->
  readStartTime lines0 r a d = readStartTime lines1 r a d.
Proof. intros E. unfold readStartTime, lineAt. rewrite E. reflexivity. Qed.

Lemma readTriggerTime_agree r a d :
  index lines0 (wrap16 (5 + r + a + d)) = index lines1 (wrap16 (5 + r + a + d)) ->
  readTriggerTime lines0 r a d = readTriggerTime lines1 r a d.
Proof. intros E. unfold readTriggerTime, lineAt. rewrite E. reflexivity. Qed.

Lemma readDataFileType_agree r a d :
  index lines0 (wrap16 (6 + r + a + d)) = index lines1 (wrap16 (6 + r + a + d)) ->
  readDataFileType lines0 r a d = readDataFileType lines1 r a d.
Proof. intros E. unfold readDataFileType, lineAt. rewrite E. reflexivity. Qed.

Lemma readTimeFactor_agree r a d :
  index lines0 (wrap16 (7 + r + a + d)) = index lines1 (wrap16 (7 + r + a + d)) ->
  readTimeFactor lines0 r a d = readTimeFactor lines1 r a d.
Proof. intros E. unfold readTimeFactor, lineAt. rewrite E. reflexivity. Qed.

Lemma readTimeCode_agree r a d :
  index lines0 (wrap16 (8 + r + a + d)) = index lines1 (wrap16 (8 + r + a + d)) ->
  readTimeCode lines0 r a d = readTimeCode lines1 r a d.
Proof.
  intros E. unfold readTimeCode, lineAt, len. rewrite E, same_length. reflexivity.
Qed.

End TwoDocuments.

Section ZeroRateCount.
Context `{Float64}.

(** A line that reads [n] gives the sampling rate num [max n 1]. *)
Lemma readSampleRateNum_reads (lines : list bytes) (a d : Z) (l : bytes) (n : Z) (s : CFG) :
  lines !! Z.to_nat (wrap16 (3 + a + d)) = Some l ->
  reads l = Ok n ->
  readSampleRateNum lines a d s =
    (set_SampleRateNum (if n =? 0 then 1 else n) s, Ok (if n =? 0 then 1 else n)).
Proof.
  intros Hl Hn. unfold readSampleRateNum, lineAt, field, bind, lift.
  assert (index lines (wrap16 (3 + a + d)) = Ok l) as ->.
  { apply index_Ok. split; [apply wrap16_range | exact Hl]. }
  rewrite Split_cons, index_0. unfold reads in Hn. rewrite Hn.
  pose proof (ParseUint_range _ 16 n ltac:(lia) Hn) as Hr.
  rewrite (wrap16_small n) by exact Hr.
  destruct (n =? 0); reflexivity.
Qed.

(** C8.  Two documents that differ only in the line of the sampling rate
    num (the line after the line frequency, which follows the second line
    and the channels it declares), reading 0 in one and 1 in the other,
    are decoded alike: [ReadCFG] leaves the same configuration and the same
    result. *)
Theorem zero_rate_count_as_one :
  forall (content0 content1 : bytes) (before after : list bytes) (l0 l1 second : bytes)
         (t a d : Z) (cfg0 : CFG),
    GoBytes.Split content0 "010"%char = before ++ l0 :: after ->
    GoBytes.Split content1 "010"%char = before ++ l1 :: after ->
    before !! 1%nat = Some second ->
    declared second = Some (t, a, d) ->
    Z.of_nat (length before) = 3 + a + d ->
    reads l0 = Ok 0 ->
    reads l1 = Ok 1 ->
    ReadCFG content0 cfg0 = ReadCFG content1 cfg0 /\
    (3 + a + d < 65536 ->
     forall cfg, ReadCFG content0 cfg0 = (cfg, Ok tt) ->
       SampleRateNum cfg = 1 /\ exists sr, SampleDetail cfg = SampleDetail cfg0 ++ [sr]).
Proof.
  intros content0 content1 before after l0 l1 second t a d cfg0 E0 E1 Hsec Hdec Hk Hr0 Hr1.
  split; cycle 1.
  { intros Hsmall cfg E. apply readLines_Ok in E. rewrite E0 in E.
    destruct E as (l1' & t' & a' & d' & chA & chD & r & srs & lS & lT & Hl1 & Hdec' & _ & _ &
                   _ & _ & _ & _ & _ & Hr & _ & (lR & nR & HlR & HnR & HrR) & HS & Hsrs & _).
    destruct (declared_range _ _ _ _ Hdec) as [Ha Hd].
    rewrite lookup_app_l in Hl1 by lia.
    assert (a' = a /\ d' = d) as [-> ->] by (split; congruence).
    rewrite wrap16_small in HlR by lia.
    rewrite lookup_app_r in HlR by lia.
    replace (Z.to_nat (3 + a + d) - length before)%nat with O in HlR by lia.
    injection HlR as <-. rewrite Hr0 in HnR. injection HnR as <-.
    simpl in HrR. rewrite HrR in *. split; [exact Hr |].
    destruct srs as [| sr [| sr' srs]]; try (simpl in Hsrs; lia).
    exists sr. exact HS. }
  unfold ReadCFG. rewrite E0, E1.
  set (lines0 := before ++ l0 :: after). set (lines1 := before ++ l1 :: after).
  destruct (declared_range _ _ _ _ Hdec) as [Ha Hd].
  set (k := 3 + a + d) in *.
  assert (length lines0 = length lines1) as Hlen
    by (unfold lines0, lines1; rewrite !length_app; reflexivity).
  assert (forall j, j <> k -> index lines0 j = index lines1 j) as Hagree.
  { intros j Hj. apply index_agree; [exact Hlen |].
    destruct (Z_lt_ge_dec j 0) as [Hneg | Hpos].
    - unfold index. replace (Z.to_nat j) with (Z.to_nat 0) by lia.
      unfold lines0, lines1. rewrite !lookup_app_l by (simpl; lia). reflexivity.
    - unfold lines0, lines1.
      destruct (Z_lt_ge_dec j k).
      + rewrite !lookup_app_l by lia. reflexivity.
      + rewrite !lookup_app_r by lia.
        replace (Z.to_nat j - length before)%nat with (S (Z.to_nat (j - k - 1))) by lia.
        reflexivity. }
  assert (lines0 !! Z.to_nat k = Some l0) as Hk0.
  { unfold lines0. rewrite lookup_app_r by lia.
    replace (Z.to_nat k - length before)%nat with O by lia. reflexivity. }
  assert (lines1 !! Z.to_nat k = Some l1) as Hk1.
  { unfold lines1. rewrite lookup_app_r by lia.
    replace (Z.to_nat k - length before)%nat with O by lia. reflexivity. }
  unfold readLines.
  apply bind_congr.
  { rewrite (readFirstLine_agree lines0 lines1); [reflexivity | apply Hagree; lia]. }
  intros _ s1 _.
  apply bind_congr.
  { rewrite (readSecondLine_agree lines0 lines1); [reflexivity | apply Hagree; lia]. }
  intros [a' d'] s2 Hs2. cbv zeta. cbn [fst snd].
  assert (a' = a /\ d' = d) as [-> ->].
  { apply readSecondLine_Ok in Hs2 as (l & t' & Hl & Hdec' & _).
    unfold lines0 in Hl. rewrite lookup_app_l in Hl by lia.
    cbn [fst snd] in Hdec'. split; congruence. }
  apply bind_congr.
  { rewrite (forLoop_agree (analogRow lines0) (analogRow lines1)); [reflexivity |].
    intros i Hi. apply analogRow_agree, Hagree. lia. }
  intros _ s3 _.
  apply bind_congr.
  { rewrite (forLoop_agree (digitRow lines0 a) (digitRow lines1 a)); [reflexivity |].
    intros i Hi. apply digitRow_agree, Hagree. lia. }
  intros _ s4 _.
  apply bind_congr.
  { rewrite (readLineFrequency_agree lines0 lines1); [reflexivity |].
    apply Hagree. pose proof (wrap16_le (2 + a + d) ltac:(lia)). lia. }
  intros _ s5 _.
  assert (readSampleRateNum lines0 a d s5 = readSampleRateNum lines1 a d s5 /\
          forall r s6, readSampleRateNum lines0 a d s5 = (s6, Ok r) ->
                       1 <= r < 65536 /\ (k < 65536 -> r = 1)) as [Hsame Hr].
  { destruct (Z_lt_ge_dec k 65536) as [Hsmall | Hbig].
    - fold k. 
      rewrite (readSampleRateNum_reads lines0 a d l0 0), (readSampleRateNum_reads lines1 a d l1 1);
        try assumption; fold k; try (rewrite wrap16_small by lia; assumption).
      split; [reflexivity |]. intros r s6 [= <- <-]. simpl. lia.
    - split.
      + rewrite (readSampleRateNum_agree lines0 lines1); [reflexivity |].
        apply Hagree. fold k. pose proof (wrap16_range k). lia.
      + intros r s6 E. apply readSampleRateNum_Ok in E as (_ & _ & _ & _ & _ & _ & E).
        split; [exact E | lia]. }
  apply bind_congr; [exact Hsame |].
  intros r s6 Hs6. destruct (Hr r s6 Hs6) as [Hrr Hr1'].
  assert (forall c, 4 <= c <= 8 -> wrap16 (c + r + a + d) <> k) as Hne.
  { intros c Hc. destruct (Z_lt_ge_dec k 65536) as [Hsmall | Hbig].
    - rewrite (Hr1' Hsmall). replace (c + 1 + a + d) with (k + (c - 2)) by lia.
      apply wrap16_add_ne; lia.
    - pose proof (wrap16_range (c + r + a + d)). lia. }
  apply bind_congr.
  { rewrite (forLoop_agree (sampleRateRow lines0 a d) (sampleRateRow lines1 a d));
      [reflexivity |].
    intros i Hi. apply sampleRateRow_agree, Hagree. lia. }
  intros _ s7 _.
  apply bind_congr.
  { rewrite (readStartTime_agree lines0 lines1); [reflexivity |]. apply Hagree, Hne. lia. }
  intros _ s8 _.
  apply bind_congr.
  { rewrite (readTriggerTime_agree lines0 lines1); [reflexivity |]. apply Hagree, Hne. lia. }
  intros _ s9 _.
  apply bind_congr.
  { rewrite (readDataFileType_agree lines0 lines1); [reflexivity |]. apply Hagree, Hne. lia. }
  intros _ s10 _.
  apply bind_congr.
  { rewrite (readTimeFactor_agree lines0 lines1); [reflexivity |]. apply Hagree, Hne. lia. }
  intros _ s11 _.
  rewrite (readTimeCode_agree lines0 lines1); [reflexivity | exact Hlen |].
  apply Hagree, Hne. lia.
Qed.

End ZeroRateCount.

(** ** Timestamps *)

Lemma byteZ_digit (n : Z) : byteZ (digit (n mod 10)) = 48 + n mod 10.
Proof.
  pose proof (Z.mod_pos_bound n 10 ltac:(lia)).
  unfold byteZ, digit. rewrite nat_ascii_embedding by lia. lia.
Qed.

Lemma isDigit_digit (n : Z) : Strconv.isDigit (digit (n mod 10)) = true.
Proof.
  pose proof (Z.mod_pos_bound n 10 ltac:(lia)).
  unfold Strconv.isDigit. rewrite byteZ_digit. apply andb_true_iff. lia.
Qed.

Lemma digit_ne (n : Z) (c : ascii) : Strconv.isDigit c = false -> digit (n mod 10) <> c.
Proof. intros Hc E. rewrite <- E, isDigit_digit in Hc. discriminate. Qed.

Lemma dropRune_digit (c : ascii) (s : bytes) :
  Strconv.isDigit c = true ->
  GoBytes.dropRune GoBytes.spaceRunes (c :: s) = None /\
  GoBytes.dropRune (map reverse GoBytes.spaceRunes) (c :: s) = None.
Proof.
  intros Hc.
  destruct c as [[] [] [] [] [] [] [] []]; vm_compute in Hc; try discriminate Hc;
    split; reflexivity.
Qed.

(** White space is only trimmed from a string that begins or ends with
    it. *)
Lemma TrimSpace_digits (c c' : ascii) (s r : bytes) :
  Strconv.isDigit c = true -> Strconv.isDigit c' = true ->
  reverse (c :: s) = c' :: r ->
  GoBytes.TrimSpace (c :: s) = c :: s.
Proof.
  intros Hc Hc' Hrev. unfold GoBytes.TrimSpace.
  assert (GoBytes.trimLeft (length (c :: s)) GoBytes.spaceRunes (c :: s) = c :: s) as ->.
  { cbn [length GoBytes.trimLeft]. now rewrite (proj1 (dropRune_digit c s Hc)). }
  rewrite Hrev. cbn [length GoBytes.trimLeft].
  rewrite (proj2 (dropRune_digit c' r Hc')). rewrite <- Hrev. apply reverse_involutive.
Qed.

Lemma Split_no_sep (x : bytes) (sep : ascii) :
  sep ∉ x -> GoBytes.Split x sep = [x].
Proof.
  induction x as [| c x IH]; intros Hx; [reflexivity |].
  apply not_elem_of_cons in Hx as [Hc Hx]. cbn [GoBytes.Split].
  destruct (decide (c = sep)); [congruence |]. now rewrite IH.
Qed.

Lemma Split_app_sep (x y : bytes) (sep : ascii) :
  sep ∉ x -> GoBytes.Split (x ++ sep :: y) sep = x :: GoBytes.Split y sep.
Proof.
  induction x as [| c x IH]; intros Hx.
  - cbn [app GoBytes.Split]. destruct (decide (sep = sep)); [reflexivity | congruence].
  - apply not_elem_of_cons in Hx as [Hc Hx]. cbn [app GoBytes.Split].
    destruct (decide (c = sep)); [congruence |]. now rewrite IH.
Qed.

Lemma decimal_isDigit (w : nat) :
  forall n, Forall (fun c => Strconv.isDigit c = true) (decimal w n).
Proof.
  induction w as [| w IH]; intros n; cbn [decimal]; [constructor |].
  apply Forall_app. split; [apply IH |]. constructor; [apply isDigit_digit | constructor].
Qed.

Lemma decimal_no_sep (w : nat) (n : Z) (sep : ascii) :
  Strconv.isDigit sep = false -> sep ∉ decimal w n.
Proof.
  intros Hsep Hin. pose proof (decimal_isDigit w n) as Hd.
  rewrite Forall_forall in Hd. specialize (Hd sep Hin). congruence.
Qed.

Lemma atoiFast_app (s1 s2 : bytes) :
  forall acc, Strconv.atoiFast (s1 ++ s2) acc =
              match Strconv.atoiFast s1 acc with
              | Some a => Strconv.atoiFast s2 a
              | None => None
              end.
Proof.
  induction s1 as [| c s1 IH]; intros acc; cbn [app Strconv.atoiFast]; [reflexivity |].
  destruct (Strconv.isDigit c); [apply IH | reflexivity].
Qed.

Lemma atoiFast_decimal (w : nat) :
  forall n acc, Strconv.atoiFast (decimal w n) acc = Some (acc * 10 ^ Z.of_nat w + n mod 10 ^ Z.of_nat w).
Proof.
  induction w as [| w IH]; intros n acc.
  - cbn [decimal Strconv.atoiFast]. f_equal. rewrite Z.mod_1_r. simpl. lia.
  - cbn [decimal]. rewrite atoiFast_app, IH. cbn [Strconv.atoiFast].
    rewrite isDigit_digit, byteZ_digit. f_equal.
    rewrite Nat2Z.inj_succ, Z.pow_succ_r by lia.
    rewrite (Z.rem_mul_r n 10 (10 ^ Z.of_nat w)) by lia.
    lia.
Qed.

Lemma decimal_length (w : nat) : forall n, length (decimal w n) = w.
Proof.
  induction w as [| w IH]; intros n; cbn [decimal]; [reflexivity |].
  rewrite length_app, IH. simpl. lia.
Qed.

Lemma decimal_2 (n : Z) : decimal 2 n = [digit ((n / 10) mod 10); digit (n mod 10)].
Proof. reflexivity. Qed.

(** [getnum] reads back a number printed on two positions. *)
Lemma getnum_decimal (n : Z) (fixed : bool) (rest : bytes) :
  0 <= n < 100 ->
  GoTime.getnum (decimal 2 n ++ rest) fixed = Some (n, rest).
Proof.
  intros Hn. rewrite decimal_2. cbn [app GoTime.getnum].
  rewrite !isDigit_digit, !byteZ_digit. do 2 f_equal.
  pose proof (Z.div_mod n 10 ltac:(lia)). pose proof (Z.mod_pos_bound n 10 ltac:(lia)).
  rewrite (Z.mod_small (n / 10) 10) by lia. lia.
Qed.

Lemma atoi_digits (s : bytes) :
  Forall (fun c => Strconv.isDigit c = true) s -> GoTime.atoi s = Strconv.atoiFast s 0.
Proof.
  intros Hs. destruct s as [| c s]; [reflexivity |].
  apply Forall_cons in Hs as [Hc _]. unfold GoTime.atoi.
  rewrite !bool_decide_eq_false_2; [reflexivity | |]; intros ->; discriminate Hc.
Qed.

Lemma atoi_decimal (w : nat) (n : Z) :
  0 <= n < 10 ^ Z.of_nat w -> GoTime.atoi (decimal w n) = Some n.
Proof.
  intros Hn. rewrite atoi_digits by apply decimal_isDigit.
  rewrite atoiFast_decimal. f_equal. rewrite Z.mod_small by exact Hn. lia.
Qed.

Lemma skip_cons (c : ascii) (v : bytes) : GoTime.skip (c :: v) c = Some v.
Proof. unfold GoTime.skip. destruct (decide (c = c)); [reflexivity | congruence]. Qed.

Lemma daysIn_le_31 (m y : Z) : 1 <= m <= 12 -> GoTime.daysIn m y <= 31.
Proof.
  intros Hm. unfold GoTime.daysIn.
  assert (m = 1 \/ m = 2 \/ m = 3 \/ m = 4 \/ m = 5 \/ m = 6 \/ m = 7 \/ m = 8 \/ m = 9 \/
          m = 10 \/ m = 11 \/ m = 12) as Hc by lia.
  destruct (GoTime.isLeap y);
    repeat (destruct Hc as [-> | Hc]; [vm_compute; discriminate |]); subst; vm_compute;
    discriminate.
Qed.

(** The date and the time of a timestamp line, joined with [T], parse back
    to the timestamp. *)
Lemma parseLayout_timestamp (t : GoTime.Time) :
  validTime t ->
  GoTime.parseLayout
    (decimal 2 (GoTime.day t) ++ B "/" ++ decimal 2 (GoTime.month t) ++ B "/" ++
     decimal 4 (GoTime.year t) ++ B "T" ++
     decimal 2 (GoTime.hour t) ++ B ":" ++ decimal 2 (GoTime.minute t) ++ B ":" ++
     decimal 2 (GoTime.second t) ++ B "." ++ decimal 6 (GoTime.nanosecond t / 1000)) = Some t.
Proof.
  intros (Hy & Hmo & Hd & Hh & Hmi & Hs & Hns & Hus).
  destruct t as [y mo d h mi sec ns]. cbn [GoTime.year GoTime.month GoTime.day GoTime.hour
    GoTime.minute GoTime.second GoTime.nanosecond] in *.
  pose proof (daysIn_le_31 mo y Hmo) as Hd31.
  set (us := ns / 1000).
  assert (0 <= us < 1000000 /\ us * 1000 = ns) as [Hus1 Hus2].
  { pose proof (Z.div_mod ns 1000 ltac:(lia)). unfold us. lia. }
  unfold GoTime.parseLayout.
  change (B "/") with ["/"%char]. change (B "T") with ["T"%char].
  change (B ":") with [":"%char]. change (B ".") with ["."%char].
  cbn [app].
  rewrite getnum_decimal by lia. cbn [GoTime.bindO]. rewrite skip_cons. cbn [GoTime.bindO].
  rewrite getnum_decimal by lia. cbn [GoTime.bindO].
  replace ((mo <=? 0) || (12 <? mo)) with false by (symmetry; apply orb_false_iff; lia).
  rewrite skip_cons. cbn [GoTime.bindO].
  assert (forall rest, take 4 (decimal 4 y ++ rest) = decimal 4 y) as Htake4
    by (intros rest; apply (take_app_length' _ _ 4); symmetry; apply decimal_length).
  assert (forall rest, drop 4 (decimal 4 y ++ rest) = rest) as Hdrop4
    by (intros rest; apply (drop_app_length' _ _ 4); symmetry; apply decimal_length).
  rewrite Htake4, Hdrop4.
  replace ((Z.of_nat (length (decimal 4 y ++ _)) <? 4) || negb (GoTime.isDigitAt _ 0))
    with false.
  2: { symmetry. apply orb_false_iff. split.
       - rewrite length_app, decimal_length. apply Z.ltb_ge. lia.
       - cbn [decimal app]. unfold GoTime.isDigitAt. cbn [lookup list_lookup].
         now rewrite isDigit_digit. }
  rewrite atoi_decimal by (simpl; lia). cbn [GoTime.bindO].
  rewrite skip_cons. cbn [GoTime.bindO].
  rewrite getnum_decimal by lia. cbn [GoTime.bindO].
  replace ((h <? 0) || (24 <=? h)) with false by (symmetry; apply orb_false_iff; lia).
  rewrite skip_cons. cbn [GoTime.bindO].
  rewrite getnum_decimal by lia. cbn [GoTime.bindO].
  replace ((mi <? 0) || (60 <=? mi)) with false by (symmetry; apply orb_false_iff; lia).
  rewrite skip_cons. cbn [GoTime.bindO].
  rewrite getnum_decimal by lia. cbn [GoTime.bindO].
  replace ((sec <? 0) || (60 <=? sec)) with false by (symmetry; apply orb_false_iff; lia).
  cbn [length]. rewrite decimal_length.
  change (Z.of_nat 7 <? 7) with false. cbv iota.
  unfold GoTime.parseNanoseconds.
  change (GoTime.commaOrPeriod ".") with true. cbv iota.
  rewrite <- (app_nil_r (decimal 6 us)) at 1.
  rewrite (take_app_length' _ _ 6) by (symmetry; apply decimal_length).
  rewrite atoi_decimal by (simpl; lia).
  replace (us <? 0) with false by (symmetry; apply Z.ltb_ge; lia).
  cbn [GoTime.bindO drop].
  rewrite <- (app_nil_r (decimal 6 us)).
  rewrite (drop_app_length' _ _ 6) by (symmetry; apply decimal_length).
  cbn [bool_decide negb]. rewrite bool_decide_eq_true_2 by reflexivity. cbn [negb].
  replace ((d <? 1) || (GoTime.daysIn mo y <? d)) with false
    by (symmetry; apply orb_false_iff; lia).
  rewrite Hus2. reflexivity.
Qed.

(** A timestamp line is split at its comma, joined with [T] and parsed
    back to the timestamp. *)
Lemma timeParse_timestampLine (t : GoTime.Time) :
  validTime t ->
  timeParse (ByteToString (GoBytes.Join (GoBytes.Split (timestampLine t) ","%char) (B "T")))
  = Ok t.
Proof.
  intros Hv.
  set (x := decimal 2 (GoTime.day t) ++ B "/" ++ decimal 2 (GoTime.month t) ++ B "/" ++
            decimal 4 (GoTime.year t)).
  set (y := decimal 2 (GoTime.hour t) ++ B ":" ++ decimal 2 (GoTime.minute t) ++ B ":" ++
            decimal 2 (GoTime.second t) ++ B "." ++ decimal 6 (GoTime.nanosecond t / 1000)).
  assert (timestampLine t = x ++ ","%char :: y) as ->.
  { unfold timestampLine, x, y. rewrite <- !app_assoc. reflexivity. }
  assert (forall w n c, Strconv.isDigit c = false -> ","%char <> c ->
            forall rest, ","%char ∉ rest -> ","%char ∉ decimal w n ++ c :: rest) as Hstep.
  { intros w n c Hc Hne rest Hrest.
    apply not_elem_of_app. split; [apply decimal_no_sep; reflexivity |].
    apply not_elem_of_cons. split; assumption. }
  rewrite Split_app_sep, Split_no_sep.
  2: { unfold y. change (B ":") with [":"%char]. change (B ".") with ["."%char]. cbn [app].
       do 3 (apply Hstep; [reflexivity | discriminate |]).
       apply decimal_no_sep. reflexivity. }
  2: { unfold x. change (B "/") with ["/"%char]. cbn [app].
       do 2 (apply Hstep; [reflexivity | discriminate |]).
       apply decimal_no_sep. reflexivity. }
  cbn [GoBytes.Join]. unfold timeParse, ByteToString.
  assert (GoBytes.TrimSpace (x ++ B "T" ++ y) = x ++ B "T" ++ y) as ->.
  { unfold x, y. cbn [decimal app B list_ascii_of_string].
    eapply TrimSpace_digits; cycle 2; [reflexivity | apply isDigit_digit ..]. }
  unfold x, y. rewrite <- !app_assoc.
  rewrite (parseLayout_timestamp t Hv). reflexivity.
Qed.

Section Timestamps.
Context `{Float64}.

(** C6, amended.  A start-timestamp (trigger-timestamp) line of the two
    comma fields [dd/mm/yyyy] and [hh:mm:ss.ssssss] is joined with [T],
    parsed against [TimeFormat] and stored as the start (trigger) time; and
    when [ReadCFG] succeeds on a document with such lines, these are the
    times of the configuration. *)
Theorem timestamps_decoded :
  (forall (lines : list bytes) (r a d : Z) (s : CFG) (t : GoTime.Time),
      validTime t ->
      lines !! Z.to_nat (wrap16 (4 + r + a + d)) = Some (timestampLine t) ->
      readStartTime lines r a d s = (set_StartTime t s, Ok tt))
  /\ (forall (lines : list bytes) (r a d : Z) (s : CFG) (t : GoTime.Time),
      validTime t ->
      lines !! Z.to_nat (wrap16 (5 + r + a + d)) = Some (timestampLine t) ->
      readTriggerTime lines r a d s = (set_TriggerTime t s, Ok tt))
  /\ (forall (content : bytes) (cfg0 cfg : CFG) (tS tT : GoTime.Time),
      ReadCFG content cfg0 = (cfg, Ok tt) ->
      let lines := GoBytes.Split content "010"%char in
      let r := SampleRateNum cfg in
      let a := ChannelA.GetChannelTotal (AnalogDetail cfg) in
      let d := ChannelD.GetChannelTotal (DigitDetail cfg) in
      validTime tS -> validTime tT ->
      lines !! Z.to_nat (wrap16 (4 + r + a + d)) = Some (timestampLine tS) ->
      lines !! Z.to_nat (wrap16 (5 + r + a + d)) = Some (timestampLine tT) ->
      StartTime cfg = tS /\ TriggerTime cfg = tT).
Proof.
  split; [| split].
  - intros lines r a d s t Hv Hl.
    unfold readStartTime, lineAt, bind, lift, modify.
    assert (index lines (wrap16 (4 + r + a + d)) = Ok (timestampLine t)) as ->
      by (apply index_Ok; split; [apply wrap16_range | exact Hl]).
    rewrite (timeParse_timestampLine t Hv). reflexivity.
  - intros lines r a d s t Hv Hl.
    unfold readTriggerTime, lineAt, bind, lift, modify.
    assert (index lines (wrap16 (5 + r + a + d)) = Ok (timestampLine t)) as ->
      by (apply index_Ok; split; [apply wrap16_range | exact Hl]).
    rewrite (timeParse_timestampLine t Hv). reflexivity.
  - intros content cfg0 cfg tS tT E lines r a d HvS HvT HlS HlT.
    apply readLines_Ok in E.
    destruct E as (l1 & t & a' & d' & chA & chD & r' & srs & lS & lT & _ & _ & _ & HA & HtA &
                   _ & _ & HD & HtD & Hr & _ & _ & _ & _ & HlS' & HtS & HlT' & HtT & _).
    unfold r, a, d, lines in *. rewrite HA, HD, Hr in *.
    cbn [ChannelA.GetChannelTotal ChannelD.GetChannelTotal] in *.
    rewrite HtA, HtD in *.
    rewrite HlS in HlS'. injection HlS' as <-.
    rewrite HlT in HlT'. injection HlT' as <-.
    rewrite (timeParse_timestampLine tS HvS) in HtS.
    rewrite (timeParse_timestampLine tT HvT) in HtT.
    split; congruence.
Qed.

End Timestamps.

(** C2.  The number of bytes per sample for [a] analog and [d] digit
    channels is [8 + 2 * a + 2 * c], where [c] is the ceiling of [d / 16]
    (the least integer with [d <= 16 * c]); for 3 and 20 channels it is
    18. *)
Theorem NB_formula :
  (forall a d : Z,
      exists c : Z, 16 * (c - 1) < d <= 16 * c /\ NB a d = 8 + 2 * a + 2 * c)
  /\ NB 3 20 = 18.
Proof.
  split; [| reflexivity].
  intros a d. exists (ceilDiv16 d). split; [| apply NB_eq].
  rewrite ceilDiv16_eq.
  pose proof (Z.div_mod (- d) 16 ltac:(lia)) as E.
  pose proof (Z.mod_pos_bound (- d) 16 ltac:(lia)) as Hb.
  lia.
Qed.

Section Claims.
Context `{Float64}.

(** C1, amended.  On a configuration that [ReadCFG] decoded and a data file
    that is not empty and holds at least [sampleCount * NB] bytes,
    [GetAnalogChannelData num] with [1 <= num <= analogChannelTotal] returns
    [max sampleCount 0] values, the [i]-th being the raw sample of channel
    [num] in record [i] times the conversion factor A of the channel plus
    its conversion factor B.  With one analog channel of factors 2.0 and
    1.0 and one record of value 10, whatever its 8 header bytes, the result
    is [21.0]. *)
Theorem analog_channel_data :
  (forall (content : bytes) (cfg0 cfg : CFG) (data : byteSlice) (num : Z),
      ReadCFG content cfg0 = (cfg, Ok tt) ->
      let a := ChannelA.GetChannelTotal (AnalogDetail cfg) in
      let d := ChannelD.GetChannelTotal (DigitDetail cfg) in
      let n := GetSamplingNumber cfg in
      slen data <> 0 ->
      n * NB a d <= slen data ->
      1 <= num <= a ->
      exists (fa fb : float64) (vs : list float64),
        factorsA (default ChannelA.zero (AnalogDetail cfg)) !! Z.to_nat (num - 1) = Some fa /\
        factorsB (default ChannelA.zero (AnalogDetail cfg)) !! Z.to_nat (num - 1) = Some fb /\
        GetAnalogChannelData (Some (ReadDAT cfg data)) num = Ok vs /\
        length vs = Z.to_nat n /\
        forall i, 0 <= i < n ->
          vs !! Z.to_nat i =
            Some (float64_add
                    (float64_mul (float64_of_int16 (rawSample (contents data) (NB a d) num i)) fa)
                    fb))
  /\ (forall h1 h2 h3 h4 h5 h6 h7 h8 : ascii,
        Examples.extract (Examples.decode (Examples.oneChannel "1")).1
          (sliceOf ([h1; h2; h3; h4; h5; h6; h7; h8] ++ ["010"%char; "000"%char])) 1
        = Ok [21%float]).
Proof.
  split.
  - intros content cfg0 cfg data num E a d n Hdata Hlen Hnum.
    apply readLines_Ok in E.
    destruct (GetAnalogChannelData_decoded _ _ _ data num E Hdata Hnum)
      as (chA & sr0 & rest & fa & fb & HA & HS & Ha & Hd & Hfa & Hfb & ->).
    fold a d n in Ha, Hd |- *.
    rewrite HA. cbn [default from_option id].
    destruct (NB_facts a d Ha Hd) as (Hc & Hnb & _).
    set (val := fun i => float64_add
                  (float64_mul (float64_of_int16 (rawSample (contents data) (NB a d) num i)) fa)
                  fb).
    exists fa, fb, (val <$> seqZ 0 (Z.of_nat (Z.to_nat n))).
    split; [exact Hfa |]. split; [exact Hfb |]. split.
    + rewrite (sampleLoop_Ok _ val); [reflexivity |].
      intros i Hi.
      assert (8 <= NB a d) as Hpos by lia.
      assert (i * NB a d + NB a d <= slen data) as Hfit.
      { assert ((i + 1) * NB a d <= n * NB a d)
          by (apply Z.mul_le_mono_nonneg_r; lia).
        lia. }
      rewrite (sampleValue_Ok data a d _ num i fa fb); try assumption; try lia.
      * unfold val, rawSample. do 4 f_equal.
        rewrite !nth_lookup.
        rewrite !lookup_app_l; [reflexivity | |]; unfold slen, len in Hfit; nia.
      * unfold scap. pose proof (len_nonneg (spare data)). unfold slen in Hfit. lia.
    + split.
      * rewrite length_fmap, length_seqZ. lia.
      * intros i Hi. rewrite list_lookup_fmap, lookup_seqZ_lt by lia.
        cbn [fmap option_fmap option_map].
        replace (0 + Z.of_nat (Z.to_nat i)) with i by lia. reflexivity.
  - intros. vm_compute. reflexivity.
Qed.


(** C3.  On a decoded configuration, a data file that is not empty and
    whose capacity is below [sampleCount * NB] makes
    [GetAnalogChannelData] panic, at the first record [k] that does not
    fit: the slice expression is out of range, and no error is returned. *)
Theorem short_buffer_panics :
  forall (content : bytes) (cfg0 cfg : CFG) (data : byteSlice) (num : Z),
    ReadCFG content cfg0 = (cfg, Ok tt) ->
    let a := ChannelA.GetChannelTotal (AnalogDetail cfg) in
    let d := ChannelD.GetChannelTotal (DigitDetail cfg) in
    let n := GetSamplingNumber cfg in
    slen data <> 0 ->
    scap data < n * NB a d ->
    1 <= num <= a ->
    exists k, 0 <= k < n /\
      GetAnalogChannelData (Some (ReadDAT cfg data)) num =
        Panic (SliceBoundsOutOfRange (k * NB a d + NB a d) (scap data)).
Proof.
  intros content cfg0 cfg data num E a d n Hdata Hcap Hnum.
  apply readLines_Ok in E.
  destruct (GetAnalogChannelData_decoded _ _ _ data num E Hdata Hnum)
    as (chA & sr0 & rest & fa & fb & HA & HS & Ha & Hd & Hfa & Hfb & ->).
  fold a d n in Ha, Hd |- *.
  destruct (NB_facts a d Ha Hd) as (Hc & Hnb & _).
  assert (0 <= scap data) as Hcap0.
  { unfold scap. pose proof (len_nonneg (contents data)).
    pose proof (len_nonneg (spare data)). lia. }
  assert (0 < n) as Hn by nia.
  destruct (sampleLoop_Panic
              (sampleValue data (NB a d) (ChannelA.ConversionFactors chA) num)
              (NB a d) (scap data) (Z.to_nat n) ltac:(lia)) with (from := 0) (res := @nil float64)
    as (k & Hk & _ & Ek).
  - intros i Hi Hfit. eexists. apply (sampleValue_Ok data a d _ num i fa fb); assumption.
  - intros i Hi Hfit. apply sampleValue_Panic. exact Hfit.
  - lia.
  - lia.
  - rewrite Z2Nat.id by lia. lia.
  - exists k. split; [lia | exact Ek].
Qed.

(** C7, amended.  After a successful [ReadCFG] the stored total channel
    number, analog channel total and digit channel total are the three
    numbers the second line declares; the first is the sum of the other two
    exactly when the declared numbers are so. *)
Theorem channel_totals_as_declared :
  forall (content : bytes) (cfg0 cfg : CFG),
    ReadCFG content cfg0 = (cfg, Ok tt) ->
    exists (l : bytes) (t a d : Z),
      GoBytes.Split content "010"%char !! 1%nat = Some l /\
      declared l = Some (t, a, d) /\
      ChannelNumber cfg = t /\
      ChannelA.GetChannelTotal (AnalogDetail cfg) = a /\
      ChannelD.GetChannelTotal (DigitDetail cfg) = d /\
      (ChannelNumber cfg =
         ChannelA.GetChannelTotal (AnalogDetail cfg) + ChannelD.GetChannelTotal (DigitDetail cfg)
       <-> t = a + d).
Proof.
  intros content cfg0 cfg E. apply readLines_Ok in E.
  destruct E as (l1 & t & a & d & chA & chD & r & srs & lS & lT & Hl1 & Hdec & Ht & HA & HtA &
                 _ & _ & HD & HtD & _).
  exists l1, t, a, d. rewrite HA, HD. cbn [ChannelA.GetChannelTotal ChannelD.GetChannelTotal].
  repeat split; try assumption; lia.
Qed.

End Claims.

Lemma index_Panic {A : Type} (xs : list A) (i : Z) :
  len xs <= i -> index xs i = Panic (IndexOutOfRange i (len xs)).
Proof.
  intros Hi. unfold index, len in *.
  replace (Z.of_nat (length xs) <=? i) with true by (symmetry; apply Z.leb_le; lia).
  rewrite orb_true_r. reflexivity.
Qed.

Section MoreClaims.
Context `{Float64}.

(** C4.  A line index at or beyond the number of lines makes the decoder
    panic (index out of range): it returns no error.  So does a document of
    one line whose first line is well formed, a document that ends inside
    the analog channels, and one that ends before the trigger time. *)
Theorem truncated_document_panics :
  (forall (lines : list bytes) (i : Z) (s : CFG),
      len lines <= i ->
      lineAt lines i s = (s, Panic (IndexOutOfRange i (len lines))))
  /\ (forall (lines : list bytes) (s s1 : CFG),
      len lines = 1 ->
      readFirstLine lines s = (s1, Ok tt) ->
      readLines lines s = (s1, Panic (IndexOutOfRange 1 1)))
  /\ (Examples.decode Examples.firstLineOnly).2 = Panic (IndexOutOfRange 1 1)
  /\ (Examples.decode Examples.missingChannel).2 = Panic (IndexOutOfRange 3 3)
  /\ (Examples.decode Examples.missingTrigger).2 = Panic (IndexOutOfRange 7 7).
Proof.
  split; [| split; [| repeat split; vm_compute; reflexivity]].
  - intros lines i s Hi. unfold lineAt, lift. now rewrite index_Panic.
  - intros lines s s1 Hlen E.
    unfold readLines, bind. rewrite E.
    unfold readSecondLine, bind, lineAt, lift.
    rewrite index_Panic by lia. rewrite Hlen. reflexivity.
Qed.

(** C5.  The stored name of a channel is the field with every space
    replaced with an underscore and the white space left then stripped: a
    name padded with spaces keeps underscores at both ends, where the
    specification strips first.  Both agree on a name without padding. *)
Theorem channel_name_padding :
  channelName (B " Line A ") = B "_Line_A_"
  /\ specifiedName (B " Line A ") = B "Line_A"
  /\ channelName (B "Line A") = B "Line_A"
  /\ specifiedName (B "Line A") = B "Line_A"
  /\ (Examples.decode Examples.twoChannels).2 = Ok tt
  /\ (ChannelA.ChannelNames <$> AnalogDetail (Examples.decode Examples.twoChannels).1)
     = Some [B "_Line_A_"; B "Line_A"].
Proof. repeat split; vm_compute; reflexivity. Qed.

(** C9.  The line of time code and local code.  When the document has
    exactly as many lines as the index of that line, the decoder panics
    (index out of range); with fewer lines, or with a line there that has
    not exactly two comma fields, nothing is stored and no error is
    returned; a line of two fields is stored.  A document that ends with
    the time multiplication factor and no newline is the first case. *)
Theorem time_code_line :
  (forall (lines : list bytes) (r a d : Z) (s : CFG),
      wrap16 (8 + r + a + d) = len lines ->
      readTimeCode lines r a d s = (s, Panic (IndexOutOfRange (len lines) (len lines))))
  /\ (forall (lines : list bytes) (r a d : Z) (s : CFG),
      len lines < wrap16 (8 + r + a + d) ->
      readTimeCode lines r a d s = (s, Ok tt))
  /\ (forall (lines : list bytes) (r a d : Z) (s : CFG) (l : bytes),
      lines !! Z.to_nat (wrap16 (8 + r + a + d)) = Some l ->
      len (GoBytes.Split l ","%char) <> 2 ->
      readTimeCode lines r a d s = (s, Ok tt))
  /\ (forall (lines : list bytes) (r a d : Z) (s : CFG) (l f0 f1 : bytes),
      lines !! Z.to_nat (wrap16 (8 + r + a + d)) = Some l ->
      GoBytes.Split l ","%char = [f0; f1] ->
      readTimeCode lines r a d s =
        (set_LocalCode (ByteToString f1) (set_TimeCode (ByteToString f0) s), Ok tt))
  /\ (Examples.decode Examples.endsAtTimeFactor).2 = Panic (IndexOutOfRange 10 10)
  /\ (Examples.decode Examples.endsWithNewline).2 = Ok tt
  /\ TimeCode (Examples.decode Examples.endsWithNewline).1 = []
  /\ (Examples.decode Examples.endsWithTimeCode).2 = Ok tt
  /\ TimeCode (Examples.decode Examples.endsWithTimeCode).1 = B "-4t"
  /\ LocalCode (Examples.decode Examples.endsWithTimeCode).1 = B "0".
Proof.
  split; [| split; [| split; [| split; [| repeat split; vm_compute; reflexivity]]]].
  - intros lines r a d s E. unfold readTimeCode. cbv zeta. rewrite E, Z.leb_refl.
    unfold bind, lineAt, lift. rewrite index_Panic by lia. reflexivity.
  - intros lines r a d s Hlt. unfold readTimeCode. cbv zeta.
    replace (wrap16 (8 + r + a + d) <=? len lines) with false
      by (symmetry; apply Z.leb_gt; exact Hlt).
    reflexivity.
  - intros lines r a d s l Hl Hn. unfold readTimeCode. cbv zeta.
    pose proof (lookup_lt_Some _ _ _ Hl) as Hlt. pose proof (wrap16_range (8 + r + a + d)).
    replace (wrap16 (8 + r + a + d) <=? len lines) with true
      by (symmetry; apply Z.leb_le; unfold len; lia).
    unfold bind, lineAt, lift.
    assert (index lines (wrap16 (8 + r + a + d)) = Ok l) as ->
      by (apply index_Ok; split; [lia | exact Hl]).
    replace (len (GoBytes.Split l ",") =? 2) with false
      by (symmetry; apply Z.eqb_neq; exact Hn).
    reflexivity.
  - intros lines r a d s l f0 f1 Hl Hs. unfold readTimeCode. cbv zeta.
    pose proof (lookup_lt_Some _ _ _ Hl) as Hlt. pose proof (wrap16_range (8 + r + a + d)).
    replace (wrap16 (8 + r + a + d) <=? len lines) with true
      by (symmetry; apply Z.leb_le; unfold len; lia).
    unfold bind, lineAt, lift.
    assert (index lines (wrap16 (8 + r + a + d)) = Ok l) as ->
      by (apply index_Ok; split; [lia | exact Hl]).
    rewrite Hs. reflexivity.
Qed.

(** C10.  A primary or secondary ratio of an analog channel that is no
    number is skipped: the step returns no error and changes nothing, so
    that the channel gets no entry in [Primary] or [Secondary]; an initial
    state of a digit channel that is no 8-bit unsigned integer is returned
    as an error.  In the example the ratio of the first of two channels is
    skipped, and [Primary] holds the ratio of the second channel alone. *)
Theorem optional_fields_asymmetry :
  (forall (tempList : list bytes) (s : CFG) (f : bytes) (e : error),
      tempList !! 10%nat = Some f ->
      ParseFloat (ByteToString f) = Err e ->
      readPrimary tempList s = (s, Ok tt))
  /\ (forall (tempList : list bytes) (s : CFG) (f : bytes) (e : error),
      tempList !! 11%nat = Some f ->
      ParseFloat (ByteToString f) = Err e ->
      readSecondary tempList s = (s, Ok tt))
  /\ (forall (tempList : list bytes) (s : CFG) (f : bytes) (e : error),
      tempList !! 4%nat = Some f ->
      Strconv.ParseUint (ByteToString f) 8 = Err e ->
      readInitialState tempList s = (s, Err e))
  /\ (Examples.decode Examples.twoChannels).2 = Ok tt
  /\ (ChannelA.ChannelNumber <$> AnalogDetail (Examples.decode Examples.twoChannels).1)
     = Some [1; 2]
  /\ (ChannelA.Primary <$> AnalogDetail (Examples.decode Examples.twoChannels).1)
     = Some [400%float]
  /\ (ChannelA.Secondary <$> AnalogDetail (Examples.decode Examples.twoChannels).1)
     = Some [1%float; 1%float]
  /\ (Examples.decode Examples.badInitialState).2
     = Err (NumError "ParseUint" (B "on") ErrSyntax).
Proof.
  split; [| split; [| split; [| repeat split; vm_compute; reflexivity]]].
  - intros tempList s f e Hf He. unfold readPrimary.
    pose proof (lookup_lt_Some _ _ _ Hf) as Hlt.
    replace (10 <? len tempList) with true by (symmetry; apply Z.ltb_lt; unfold len; lia).
    unfold bind, field, lift.
    assert (index tempList 10 = Ok f) as -> by (apply index_Ok; split; [lia | exact Hf]).
    rewrite He. reflexivity.
  - intros tempList s f e Hf He. unfold readSecondary.
    pose proof (lookup_lt_Some _ _ _ Hf) as Hlt.
    replace (11 <? len tempList) with true by (symmetry; apply Z.ltb_lt; unfold len; lia).
    unfold bind, field, lift.
    assert (index tempList 11 = Ok f) as -> by (apply index_Ok; split; [lia | exact Hf]).
    rewrite He. reflexivity.
  - intros tempList s f e Hf He. unfold readInitialState.
    pose proof (lookup_lt_Some _ _ _ Hf) as Hlt.
    replace (4 <? len tempList) with true by (symmetry; apply Z.ltb_lt; unfold len; lia).
    unfold bind, field, lift.
    assert (index tempList 4 = Ok f) as -> by (apply index_Ok; split; [lia | exact Hf]).
    rewrite He. reflexivity.
Qed.

End MoreClaims.

(** ** The channel tables and the lines of a decoded document *)

Lemma fieldOf_index (l : bytes) (k : nat) (f : bytes) :
  index (GoBytes.Split l ","%char) (Z.of_nat k) = Ok f -> fieldOf l k = ByteToString f.
Proof.
  intros E. apply index_Ok in E as [_ E]. rewrite Nat2Z.id in E.
  unfold fieldOf. now rewrite E.
Qed.

Lemma nameOf_index (l f : bytes) :
  index (GoBytes.Split l ","%char) 1 = Ok f -> nameOf l = channelName f.
Proof.
  intros E. apply index_Ok in E as [_ E]. unfold nameOf.
  change (Z.to_nat 1) with 1%nat in E. now rewrite E.
Qed.

Lemma fieldOf_missing (l : bytes) (k : nat) :
  len (GoBytes.Split l ","%char) <= Z.of_nat k -> fieldOf l k = [].
Proof.
  intros Hk. unfold fieldOf. rewrite lookup_ge_None_2 by (unfold len in Hk; lia).
  reflexivity.
Qed.

Lemma lookup_snoc_eq {A : Type} (xs : list A) (x : A) (n : nat) :
  length xs = n -> (xs ++ [x]) !! n = Some x.
Proof. intros <-. now apply list_lookup_middle. Qed.

Lemma lookup_snoc_lt {A : Type} (xs : list A) (x : A) (j n : nat) :
  length xs = n -> (j < n)%nat -> (xs ++ [x]) !! j = xs !! j.
Proof. intros <- Hj. now apply lookup_app_l. Qed.

(** The comma fields a step has read, as [fieldOf] and [nameOf] name
    them. *)
Ltac fields :=
  repeat match goal with
  | E : index (GoBytes.Split ?l _) ?k = Ok ?f |- _ =>
      let k' := eval cbv in (Z.to_nat k) in
      pose proof (fieldOf_index l k' f E);
      try pose proof (nameOf_index l f E);
      clear E
  end;
  repeat match goal with
  | E : fieldOf _ _ = ByteToString _ |- _ => rewrite E; clear E
  | E : nameOf _ = channelName _ |- _ => rewrite E; clear E
  end.

Ltac conjs := repeat lazymatch goal with |- _ /\ _ => split end.

Section Tables.
Context `{Float64}.

Lemma analogRow_appends lines i s chA :
  AnalogDetail s = Some chA ->
  wp (analogRow lines i) s (fun _ s' =>
    exists chA' l,
      s' = set_AnalogDetail (Some chA') s /\
      (lines !! Z.to_nat (2 + i) = Some l /\ 0 <= 2 + i /\
       10 <= len (GoBytes.Split l ","%char)) /\
      analogAppended l chA chA').
Proof.
  intros HA. destruct s; simpl in HA; subst. destruct chA.
  unfold analogRow, analogAppended. wp_run.
  all: match goal with
       | E : index _ (2 + _) = Ok ?l |- _ =>
           apply index_Ok in E as [Hi0 Hl]; eexists _, l
       end.
  all: match goal with E : (len _ <? 10) = false |- _ => apply Z.ltb_ge in E end.
  all: split; [reflexivity |]; split; [conjs; assumption |].
  all: eexists _, _, _, _, _, _.
  all: fields.
  all: conjs.
  all: try eassumption; try reflexivity.
  all: unfold factorsA, factorsB; st_simpl.
  all: repeat (rewrite lookup_insert_ne by done); rewrite ?lookup_insert_eq;
    repeat (rewrite lookup_insert_ne by done); cbn [from_option id].
  all: try reflexivity.
  all: rewrite ?length_app; cbn [length]; lia.
Qed.

Lemma analogAppended_entries l chA chA' n :
  analogAppended l chA chA' ->
  analogLengths chA n ->
  analogLengths chA' (S n) /\ analogEntry l chA' n /\
  forall l' j, (j < n)%nat -> analogEntry l' chA j -> analogEntry l' chA' j.
Proof.
  intros (n0 & x5 & x6 & x7 & n8 & n9 & (P0 & P5 & P6 & P7 & P8 & P9) & Ht &
          E1 & E2 & E3 & E4 & E5 & E6 & E7 & E8 & E9 & E10 & O1 & O2 & O3)
         (L1 & L2 & L3 & L4 & L5 & L6 & L7 & L8 & L9 & L10 & L11 & L12 & L13).
  split; [| split].
  - unfold analogLengths.
    rewrite E1, E2, E3, E4, E5, E6, E7, E8, E9, E10, !length_app. cbn [length].
    conjs; lia.
  - unfold analogEntry, stores.
    rewrite E1, E2, E3, E4, E5, E6, E7, E8, E9, E10, P0, P5, P6, P7, P8, P9.
    cbn [rbind].
    rewrite !(lookup_snoc_eq _ _ n) by assumption.
    conjs; eauto.
  - intros l' j Hj (A1 & A2 & A3 & A4 & A5 & A6 & A7 & A8 & A9 & A10).
    unfold analogEntry.
    rewrite E1, E2, E3, E4, E5, E6, E7, E8, E9, E10.
    rewrite !(lookup_snoc_lt _ _ j n) by assumption.
    conjs; assumption.
Qed.

Lemma analogLoop_entries lines n s chA :
  AnalogDetail s = Some chA ->
  analogLengths chA 0 ->
  wp (forLoop (analogRow lines) n 0) s (fun _ s' =>
    exists chA', s' = set_AnalogDetail (Some chA') s /\
      ChannelA.ChannelTotal chA' = ChannelA.ChannelTotal chA /\
      analogLengths chA' n /\
      forall i, 0 <= i < Z.of_nat n ->
        exists l, lines !! Z.to_nat (2 + i) = Some l /\
                  10 <= len (GoBytes.Split l ","%char) /\
                  analogEntry l chA' (Z.to_nat i)).
Proof.
  intros HA HL.
  eapply wp_mono.
  - apply (wp_forLoop _ (fun k s' =>
      exists chA', s' = set_AnalogDetail (Some chA') s /\
        ChannelA.ChannelTotal chA' = ChannelA.ChannelTotal chA /\
        analogLengths chA' (Z.to_nat k) /\
        forall i, 0 <= i < k ->
          exists l, lines !! Z.to_nat (2 + i) = Some l /\
                    10 <= len (GoBytes.Split l ","%char) /\
                    analogEntry l chA' (Z.to_nat i))).
    + intros k s1 Hk (chA1 & -> & Ht & HL1 & Hrows).
      eapply wp_mono;
        [apply (analogRow_appends _ _ _ chA1); destruct s; reflexivity |].
      intros u s2 (chA2 & l & -> & (Hl & _ & Hn) & Happ).
      destruct (analogAppended_entries _ _ _ _ Happ HL1) as (HL2 & Hnew & Hold).
      exists chA2. split; [destruct s; reflexivity |]. split.
      { destruct Happ as (? & ? & ? & ? & ? & ? & _ & Ht2 & _). congruence. }
      split; [replace (Z.to_nat (k + 1)) with (S (Z.to_nat k)) by lia; exact HL2 |].
      intros i Hi. destruct (Z.eq_dec i k) as [-> | Hne]; [eauto |].
      destruct (Hrows i ltac:(lia)) as (l' & Hl' & Hn' & He').
      exists l'. split; [exact Hl' |]. split; [exact Hn' |].
      apply Hold; [lia | exact He'].
    + exists chA. split; [destruct s; cbn in *; subst; reflexivity |].
      split; [reflexivity |]. split; [exact HL |]. intros i Hi. lia.
  - intros u s' (chA' & -> & Ht & HL' & Hrows).
    exists chA'. split; [reflexivity |]. split; [exact Ht |].
    replace (Z.to_nat (0 + Z.of_nat n)) with n in HL' by lia.
    split; [exact HL' |]. intros i Hi. apply Hrows. lia.
Qed.

Lemma digitRow_appends lines a i s chD :
  DigitDetail s = Some chD ->
  wp (digitRow lines a i) s (fun _ s' =>
    exists chD' l,
      s' = set_DigitDetail (Some chD') s /\
      (lines !! Z.to_nat (2 + a + i) = Some l /\ 0 <= 2 + a + i /\
       3 <= len (GoBytes.Split l ","%char)) /\
      digitAppended l chD chD').
Proof.
  intros HD. destruct s; simpl in HD; subst. destruct chD.
  unfold digitRow, digitAppended. wp_run.
  all: match goal with
       | E : index _ (2 + _ + _) = Ok ?l |- _ =>
           apply index_Ok in E as [Hi0 Hl]; eexists _, l
       end.
  all: match goal with E : (len _ <? 3) = false |- _ => apply Z.ltb_ge in E end.
  all: split; [reflexivity |]; split; [conjs; assumption |].
  all: eexists _, _.
  all: repeat match goal with
              | E : (?n <? len _) = false |- _ =>
                  rewrite ?E; apply Z.ltb_ge in E;
                  let k := eval cbv in (Z.to_nat n) in
                  rewrite ?(fieldOf_missing _ k) by exact E
              | E : (_ <? len _) = true |- _ => rewrite ?E; clear E
              end.
  all: fields.
  all: conjs.
  all: try eassumption; reflexivity.
Qed.

Lemma digitAppended_entries l chD chD' n :
  digitAppended l chD chD' ->
  digitLengths chD n ->
  digitLengths chD' (S n) /\ digitEntry l chD' n /\
  forall l' j, (j < n)%nat -> digitEntry l' chD j -> digitEntry l' chD' j.
Proof.
  intros (n0 & st & (P0 & P4) & Ht & E1 & E2 & E3 & E4 & E5)
         (L1 & L2 & L3 & L4 & L5).
  split; [| split].
  - unfold digitLengths. rewrite E1, E2, E3, E4, E5, !length_app. cbn [length].
    conjs; lia.
  - unfold digitEntry, stores. rewrite E1, E2, E3, E4, E5, P0, P4. cbn [rbind].
    rewrite !(lookup_snoc_eq _ _ n) by assumption.
    conjs; eauto.
  - intros l' j Hj (A1 & A2 & A3 & A4 & A5).
    unfold digitEntry. rewrite E1, E2, E3, E4, E5.
    rewrite !(lookup_snoc_lt _ _ j n) by assumption.
    conjs; assumption.
Qed.

Lemma digitLoop_entries lines a n s chD :
  0 <= a ->
  DigitDetail s = Some chD ->
  digitLengths chD 0 ->
  wp (forLoop (digitRow lines a) n 0) s (fun _ s' =>
    exists chD', s' = set_DigitDetail (Some chD') s /\
      ChannelD.ChannelTotal chD' = ChannelD.ChannelTotal chD /\
      digitLengths chD' n /\
      forall i, 0 <= i < Z.of_nat n ->
        exists l, lines !! Z.to_nat (2 + a + i) = Some l /\
                  3 <= len (GoBytes.Split l ","%char) /\
                  digitEntry l chD' (Z.to_nat i)).
Proof.
  intros Ha HD HL.
  eapply wp_mono.
  - apply (wp_forLoop _ (fun k s' =>
      exists chD', s' = set_DigitDetail (Some chD') s /\
        ChannelD.ChannelTotal chD' = ChannelD.ChannelTotal chD /\
        digitLengths chD' (Z.to_nat k) /\
        forall i, 0 <= i < k ->
          exists l, lines !! Z.to_nat (2 + a + i) = Some l /\
                    3 <= len (GoBytes.Split l ","%char) /\
                    digitEntry l chD' (Z.to_nat i))).
    + intros k s1 Hk (chD1 & -> & Ht & HL1 & Hrows).
      eapply wp_mono;
        [apply (digitRow_appends _ _ _ _ chD1); destruct s; reflexivity |].
      intros u s2 (chD2 & l & -> & (Hl & _ & Hn) & Happ).
      destruct (digitAppended_entries _ _ _ _ Happ HL1) as (HL2 & Hnew & Hold).
      exists chD2. split; [destruct s; reflexivity |]. split.
      { destruct Happ as (? & ? & _ & Ht2 & _). congruence. }
      split; [replace (Z.to_nat (k + 1)) with (S (Z.to_nat k)) by lia; exact HL2 |].
      intros i Hi. destruct (Z.eq_dec i k) as [-> | Hne]; [eauto |].
      destruct (Hrows i ltac:(lia)) as (l' & Hl' & Hn' & He').
      exists l'. split; [exact Hl' |]. split; [exact Hn' |].
      apply Hold; [lia | exact He'].
    + exists chD. split; [destruct s; cbn in *; subst; reflexivity |].
      split; [reflexivity |]. split; [exact HL |]. intros i Hi. lia.
  - intros u s' (chD' & -> & Ht & HL' & Hrows).
    exists chD'. split; [reflexivity |]. split; [exact Ht |].
    replace (Z.to_nat (0 + Z.of_nat n)) with n in HL' by lia.
    split; [exact HL' |]. intros i Hi. apply Hrows. lia.
Qed.

Lemma sampleRateRow_entry lines a d i s :
  wp (sampleRateRow lines a d i) s (fun _ s' =>
    exists sr l, s' = set_SampleDetail (SampleDetail s ++ [sr]) s /\
      lines !! Z.to_nat (4 + i + a + d) = Some l /\
      2 <= len (GoBytes.Split l ","%char) /\ rateEntry l sr).
Proof.
  unfold sampleRateRow. wp_run.
  match goal with
  | E : index _ (4 + _ + _ + _) = Ok ?l |- _ =>
      apply index_Ok in E as [Hi0 Hl]; eexists _, l
  end.
  split; [reflexivity |]. split; [exact Hl |]. split.
  - match goal with
    | E : index _ 1 = Ok _ |- _ => apply index_Ok in E as [_ E]; apply lookup_lt_Some in E
    end.
    unfold len. lia.
  - unfold rateEntry. fields. cbn [SampleRate.Rate SampleRate.Number]. eauto.
Qed.

Lemma sampleRateLoop_entries lines a d n s :
  wp (forLoop (sampleRateRow lines a d) n 0) s (fun _ s' =>
    exists srs, s' = set_SampleDetail (SampleDetail s ++ srs) s /\
      length srs = n /\
      forall i, 0 <= i < Z.of_nat n ->
        exists l sr, lines !! Z.to_nat (4 + i + a + d) = Some l /\
                     2 <= len (GoBytes.Split l ","%char) /\
                     srs !! Z.to_nat i = Some sr /\ rateEntry l sr).
Proof.
  eapply wp_mono.
  - apply (wp_forLoop _ (fun k s' =>
      exists srs, s' = set_SampleDetail (SampleDetail s ++ srs) s /\
        length srs = Z.to_nat k /\
        forall i, 0 <= i < k ->
          exists l sr, lines !! Z.to_nat (4 + i + a + d) = Some l /\
                       2 <= len (GoBytes.Split l ","%char) /\
                       srs !! Z.to_nat i = Some sr /\ rateEntry l sr)).
    + intros k s1 Hk (srs & -> & Hlen & Hrows).
      eapply wp_mono; [apply sampleRateRow_entry |].
      intros u s2 (sr & l & -> & Hl & Hn & He).
      exists (srs ++ [sr]). split; [destruct s; simpl; now rewrite <- app_assoc |].
      split; [rewrite length_app; simpl; lia |].
      intros i Hi. destruct (Z.eq_dec i k) as [-> | Hne].
      * exists l, sr. rewrite (lookup_snoc_eq _ _ (Z.to_nat k)) by exact Hlen. eauto.
      * destruct (Hrows i ltac:(lia)) as (l' & sr' & Hl' & Hn' & Hs' & He').
        exists l', sr'.
        rewrite (lookup_snoc_lt _ _ _ (Z.to_nat k)) by (try exact Hlen; lia). eauto.
    + exists []. split; [destruct s; simpl; now rewrite app_nil_r |].
      split; [reflexivity |]. intros i Hi. lia.
  - intros u s' (srs & -> & Hlen & Hrows).
    exists srs. split; [reflexivity |]. split; [simpl in Hlen; lia |].
    intros i Hi. apply Hrows. lia.
Qed.

(** *** The header and the lines after the channel rows *)

Lemma readFirstLine_fields lines s :
  wp (readFirstLine lines) s (fun _ s' =>
    exists l y,
      lines !! 0%nat = Some l /\ 2 <= len (GoBytes.Split l ","%char) /\
      (if 2 <? len (GoBytes.Split l ","%char)
       then Strconv.ParseUint (fieldOf l 2) 16 = Ok y else y = RevisionYear s) /\
      s' = set_RevisionYear y (set_RecordDeviceId (fieldOf l 1) (set_StationName (fieldOf l 0) s))).
Proof.
  destruct s. unfold readFirstLine. wp_run.
  all: match goal with
       | E : index ?ls 0 = Ok ?l |- _ =>
           lazymatch ls with GoBytes.Split _ _ => fail | _ => idtac end;
           apply index_Ok in E as [_ Hl]; eexists l, _
       end.
  all: match goal with E : (len _ <? 2) = false |- _ => apply Z.ltb_ge in E end.
  all: split; [exact Hl |]; split; [assumption |].
  all: match goal with E : (2 <? len _) = _ |- _ => rewrite E end.
  all: fields.
  all: split; [first [eassumption | reflexivity] | reflexivity].
Qed.

Lemma readLineFrequency_val lines a d s :
  wp (readLineFrequency lines a d) s (fun _ s' =>
    exists l x, lines !! Z.to_nat (wrap16 (2 + a + d)) = Some l /\
      ParseFloat (fieldOf l 0) = Ok x /\
      s' = set_LineFrequency (uint16_of_float64 x) s).
Proof.
  unfold readLineFrequency. wp_run.
  match goal with
  | E : index ?ls _ = Ok ?l |- _ =>
      lazymatch ls with GoBytes.Split _ _ => fail | _ => idtac end;
      apply index_Ok in E as [_ Hl]; eexists l, _
  end.
  fields. eauto.
Qed.

Lemma readDataFileType_val lines r a d s :
  wp (readDataFileType lines r a d) s (fun _ s' =>
    exists l, lines !! Z.to_nat (wrap16 (6 + r + a + d)) = Some l /\
      s' = set_DataFileType (fieldOf l 0) s).
Proof.
  unfold readDataFileType. wp_run.
  match goal with
  | E : index ?ls _ = Ok ?l |- _ =>
      lazymatch ls with GoBytes.Split _ _ => fail | _ => idtac end;
      apply index_Ok in E as [_ Hl]; eexists l
  end.
  fields. eauto.
Qed.

Lemma readTimeFactor_val lines r a d s :
  wp (readTimeFactor lines r a d) s (fun _ s' =>
    exists l tf, lines !! Z.to_nat (wrap16 (7 + r + a + d)) = Some l /\
      (if bool_decide (hd [] (GoBytes.Split l ","%char) = [])
       then tf = float64_one else ParseFloat (fieldOf l 0) = Ok tf) /\
      s' = set_TimeFactor tf s).
Proof.
  destruct s. unfold readTimeFactor. wp_run.
  all: match goal with
       | E : index ?ls _ = Ok ?l |- _ =>
      lazymatch ls with GoBytes.Split _ _ => fail | _ => idtac end;
      apply index_Ok in E as [_ Hl]; eexists l, _
       end.
  all: split; [exact Hl |].
  all: match goal with
       | E : index (GoBytes.Split ?l ?c) 0 = Ok ?f |- _ =>
           assert (hd [] (GoBytes.Split l c) = f) as ->
             by (rewrite Split_cons, index_0 in E; congruence)
       end.
  all: match goal with
       | E : negb (bool_decide _) = _ |- _ =>
           first [apply negb_true_iff in E; apply bool_decide_eq_false in E;
                  rewrite bool_decide_eq_false_2 by exact E
                 | apply negb_false_iff in E; apply bool_decide_eq_true in E;
                   rewrite bool_decide_eq_true_2 by exact E]
       end.
  all: fields.
  all: split; [first [eassumption | reflexivity] | reflexivity].
Qed.

(** What a successful decoding has made of the configuration, section by
    section. *)
Lemma readLines_full lines s :
  wp (readLines lines) s (fun _ s' =>
    exists chA chD srs l0 lF lT lM,
      AnalogDetail s' = Some chA /\ DigitDetail s' = Some chD /\
      (0 <= ChannelA.ChannelTotal chA < 65536 /\ 0 <= ChannelD.ChannelTotal chD < 65536 /\
       1 <= SampleRateNum s' < 65536) /\
      analogLengths chA (Z.to_nat (ChannelA.ChannelTotal chA)) /\
      digitLengths chD (Z.to_nat (ChannelD.ChannelTotal chD)) /\
      (forall i, 0 <= i < ChannelA.ChannelTotal chA ->
         exists l, lines !! Z.to_nat (2 + i) = Some l /\
                   10 <= len (GoBytes.Split l ","%char) /\
                   analogEntry l chA (Z.to_nat i)) /\
      (forall i, 0 <= i < ChannelD.ChannelTotal chD ->
         exists l, lines !! Z.to_nat (2 + ChannelA.ChannelTotal chA + i) = Some l /\
                   3 <= len (GoBytes.Split l ","%char) /\
                   digitEntry l chD (Z.to_nat i)) /\
      (SampleDetail s' = SampleDetail s ++ srs /\
       length srs = Z.to_nat (SampleRateNum s') /\
       forall i, 0 <= i < SampleRateNum s' ->
         exists l sr,
           lines !! Z.to_nat (4 + i + ChannelA.ChannelTotal chA +
                              ChannelD.ChannelTotal chD) = Some l /\
           2 <= len (GoBytes.Split l ","%char) /\
           srs !! Z.to_nat i = Some sr /\ rateEntry l sr) /\
      (lines !! 0%nat = Some l0 /\ 2 <= len (GoBytes.Split l0 ","%char) /\
       StationName s' = fieldOf l0 0 /\ RecordDeviceId s' = fieldOf l0 1 /\
       (if 2 <? len (GoBytes.Split l0 ","%char)
        then Strconv.ParseUint (fieldOf l0 2) 16 = Ok (RevisionYear s')
        else RevisionYear s' = RevisionYear s)) /\
      (lines !! Z.to_nat (wrap16 (2 + ChannelA.ChannelTotal chA +
                                  ChannelD.ChannelTotal chD)) = Some lF /\
       exists x, ParseFloat (fieldOf lF 0) = Ok x /\
                 LineFrequency s' = uint16_of_float64 x) /\
      (lines !! Z.to_nat (wrap16 (6 + SampleRateNum s' + ChannelA.ChannelTotal chA +
                                  ChannelD.ChannelTotal chD)) = Some lT /\
       DataFileType s' = fieldOf lT 0) /\
      (lines !! Z.to_nat (wrap16 (7 + SampleRateNum s' + ChannelA.ChannelTotal chA +
                                  ChannelD.ChannelTotal chD)) = Some lM /\
       if bool_decide (hd [] (GoBytes.Split lM ","%char) = [])
       then TimeFactor s' = float64_one
       else ParseFloat (fieldOf lM 0) = Ok (TimeFactor s'))).
Proof.
  unfold readLines.
  wp_phase readFirstLine_fields. intros _ s1 (l0 & y & Hl0 & Hn0 & Hy & ->).
  wp_phase readSecondLine_Ok. intros [a d] s1 (l1 & t & Hl1 & Hdec & ->).
  cbv zeta. cbn [fst snd] in *.
  destruct (declared_range _ _ _ _ Hdec) as [Ha Hd].
  apply wp_bind; eapply wp_mono;
    [eapply analogLoop_entries;
     [reflexivity | unfold analogLengths; cbn; repeat split; lia] | cbv beta].
  intros _ s1 (chA & -> & HtA & HLA & HrowsA).
  apply wp_bind; eapply wp_mono;
    [eapply (digitLoop_entries lines a);
     [lia | reflexivity | unfold digitLengths; cbn; repeat split; lia] | cbv beta].
  intros _ s1 (chD & -> & HtD & HLD & HrowsD).
  wp_phase readLineFrequency_val. intros _ s1 (lF & x & HlF & Hx & ->).
  wp_phase readSampleRateNum_Ok. intros r s1 (lR & nR & HlR & HnR & HrR & -> & Hr).
  wp_phase sampleRateLoop_entries. intros _ s1 (srs & -> & Hsrs & HrowsR).
  wp_phase readStartTime_Ok. intros _ s1 (lS & tS & HlS & HtS & ->).
  wp_phase readTriggerTime_Ok. intros _ s1 (lG & tG & HlG & HtG & ->).
  wp_phase readDataFileType_val. intros _ s1 (lT & HlT & ->).
  wp_phase readTimeFactor_val. intros _ s1 (lM & tf & HlM & Htf & ->).
  eapply wp_mono; [apply readTimeCode_Ok |]. cbv beta. intros _ s' (tc & lc & ->).
  exists chA, chD, srs, l0, lF, lT, lM.
  destruct s as [sn0 rd0 ry0 cn0 ad0 dd0 lf0 srn0 sd0 st0 tt0 dft0 tf0 tc0 lc0 dfc0].
  cbn [AnalogDetail DigitDetail SampleRateNum SampleDetail StationName
                   RecordDeviceId RevisionYear LineFrequency DataFileType TimeFactor
                   set_StationName set_RecordDeviceId set_RevisionYear set_ChannelNumber
                   set_AnalogDetail set_DigitDetail set_LineFrequency set_SampleRateNum
                   set_SampleDetail set_StartTime set_TriggerTime set_DataFileType
                   set_TimeFactor set_TimeCode set_LocalCode] in *.
  cbn [ChannelA.ChannelTotal ChannelA.set_ChannelTotal ChannelA.zero
       ChannelD.ChannelTotal ChannelD.set_ChannelTotal ChannelD.zero] in HtA, HtD.
  subst a d.
  rewrite !Z2Nat.id in * by lia.
  split; [reflexivity |]. split; [reflexivity |]. split; [lia |].
  split; [exact HLA |]. split; [exact HLD |]. split; [exact HrowsA |].
  split; [exact HrowsD |].
  split; [split; [reflexivity | split; [lia | exact HrowsR]] |].
  split; [conjs; first [assumption | reflexivity] |].
  split; [split; [exact HlF | eauto] |].
  split; [split; [exact HlT | reflexivity] |].
  split; [exact HlM |].
  destruct (bool_decide _); assumption.
Qed.

(** X1.  After a successful [ReadCFG], whatever the configuration held
    before, the analog table has one entry per declared analog channel in
    each of its ten mandatory sequences (numbers, names, phases, elements,
    units, factors A and B, time factors, minima, maxima), and at most that
    many in the three optional ones; [GetAnalogChannelNames] returns that
    many names. *)
Theorem analog_table_lengths :
  forall (content : bytes) (cfg0 cfg : CFG),
    ReadCFG content cfg0 = (cfg, Ok tt) ->
    exists chA,
      AnalogDetail cfg = Some chA /\
      analogLengths chA (Z.to_nat (ChannelA.ChannelTotal chA)) /\
      length (GetAnalogChannelNames (Some cfg)) = Z.to_nat (ChannelA.ChannelTotal chA).
Proof.
  intros content cfg0 cfg E. apply (readLines_full _ _ _ tt) in E.
  destruct E as (chA & chD & srs & l0 & lF & lT & lM & HA & _ & _ & HLA & _).
  exists chA. split; [exact HA |]. split; [exact HLA |].
  cbn [GetAnalogChannelNames]. rewrite HA. apply HLA.
Qed.

(** X2.  After a successful [ReadCFG] the five sequences of the digit
    table (numbers, names, phases, elements, initial states) have one entry
    per declared digit channel: a missing element or initial state has got
    its default. *)
Theorem digit_table_lengths :
  forall (content : bytes) (cfg0 cfg : CFG),
    ReadCFG content cfg0 = (cfg, Ok tt) ->
    exists chD,
      DigitDetail cfg = Some chD /\
      digitLengths chD (Z.to_nat (ChannelD.ChannelTotal chD)).
Proof.
  intros content cfg0 cfg E. apply (readLines_full _ _ _ tt) in E.
  destruct E as (chA & chD & srs & l0 & lF & lT & lM & _ & HD & _ & _ & HLD & _).
  exists chD. split; assumption.
Qed.

(** X3.  A document that [ReadCFG] decodes has a line of at least 10
    comma fields for every analog channel, of at least 3 for every digit
    channel and of at least 2 for every sample rate, at the positions the
    stored totals give; so it has at least [4 + R + A + D] lines. *)
Theorem decoded_document_lines :
  forall (content : bytes) (cfg0 cfg : CFG),
    ReadCFG content cfg0 = (cfg, Ok tt) ->
    let lines := GoBytes.Split content "010"%char in
    let a := ChannelA.GetChannelTotal (AnalogDetail cfg) in
    let d := ChannelD.GetChannelTotal (DigitDetail cfg) in
    let r := SampleRateNum cfg in
    (forall i, 0 <= i < a ->
       exists l, lines !! Z.to_nat (2 + i) = Some l /\ 10 <= len (GoBytes.Split l ","%char)) /\
    (forall i, 0 <= i < d ->
       exists l, lines !! Z.to_nat (2 + a + i) = Some l /\
                 3 <= len (GoBytes.Split l ","%char)) /\
    (forall i, 0 <= i < r ->
       exists l, lines !! Z.to_nat (4 + i + a + d) = Some l /\
                 2 <= len (GoBytes.Split l ","%char)) /\
    4 + r + a + d <= len lines.
Proof.
  intros content cfg0 cfg E lines a d r. apply (readLines_full _ _ _ tt) in E.
  destruct E as (chA & chD & srs & l0 & lF & lT & lM & HA & HD & (Ha & Hd & Hr) & _ & _ &
                 HrA & HrD & (_ & _ & HrR) & _).
  unfold a, d, r. rewrite HA, HD.
  cbn [ChannelA.GetChannelTotal ChannelD.GetChannelTotal].
  assert (forall i, 0 <= i < SampleRateNum cfg ->
            exists l, GoBytes.Split content "010"%char
                        !! Z.to_nat (4 + i + ChannelA.ChannelTotal chA +
                                     ChannelD.ChannelTotal chD) = Some l /\
                      2 <= len (GoBytes.Split l ","%char)) as HrR'.
  { intros i Hi. destruct (HrR i Hi) as (l & sr & Hl & Hn & _). eauto. }
  split; [intros i Hi; destruct (HrA i Hi) as (l & Hl & Hn & _); eauto |].
  split; [intros i Hi; destruct (HrD i Hi) as (l & Hl & Hn & _); eauto |].
  split; [exact HrR' |].
  destruct (HrR' (SampleRateNum cfg - 1) ltac:(lia)) as (l & Hl & _).
  apply lookup_lt_Some in Hl. unfold lines, len. lia.
Qed.

(** X4.  After a successful [ReadCFG], entry [i] of the analog table is
    what row [i] of the document says, for every analog channel: the number
    is the first field read as an integer and cut to 16 bits, the name the
    second field with its spaces replaced, phase, element and unit the
    trimmed third to fifth fields, the factors A and B and the time factor
    the sixth to eighth fields read as floats, and the minimum and maximum
    the ninth and tenth read as integers. *)
Theorem analog_rows_decoded :
  forall (content : bytes) (cfg0 cfg : CFG),
    ReadCFG content cfg0 = (cfg, Ok tt) ->
    exists chA,
      AnalogDetail cfg = Some chA /\
      forall i, 0 <= i < ChannelA.ChannelTotal chA ->
        exists l, GoBytes.Split content "010"%char !! Z.to_nat (2 + i) = Some l /\
                  analogEntry l chA (Z.to_nat i).
Proof.
  intros content cfg0 cfg E. apply (readLines_full _ _ _ tt) in E.
  destruct E as (chA & chD & srs & l0 & lF & lT & lM & HA & _ & _ & _ & _ & HrA & _).
  exists chA. split; [exact HA |].
  intros i Hi. destruct (HrA i Hi) as (l & Hl & _ & He). eauto.
Qed.

(** X5.  After a successful [ReadCFG], entry [i] of the digit table is
    what row [i] after the analog rows says, for every digit channel: the
    number, name and phase as for an analog channel, the element the
    trimmed fourth field, empty when the row has only three fields, and the
    initial state the fifth field read on 8 bits, 2 when the row has no
    fifth field. *)
Theorem digit_rows_decoded :
  forall (content : bytes) (cfg0 cfg : CFG),
    ReadCFG content cfg0 = (cfg, Ok tt) ->
    exists chD,
      DigitDetail cfg = Some chD /\
      forall i, 0 <= i < ChannelD.ChannelTotal chD ->
        exists l,
          GoBytes.Split content "010"%char
            !! Z.to_nat (2 + ChannelA.GetChannelTotal (AnalogDetail cfg) + i) = Some l /\
          digitEntry l chD (Z.to_nat i).
Proof.
  intros content cfg0 cfg E. apply (readLines_full _ _ _ tt) in E.
  destruct E as (chA & chD & srs & l0 & lF & lT & lM & HA & HD & _ & _ & _ & _ & HrD & _).
  exists chD. split; [exact HD |]. rewrite HA. cbn [ChannelA.GetChannelTotal].
  intros i Hi. destruct (HrD i Hi) as (l & Hl & _ & He). eauto.
Qed.

(** X6.  A successful [ReadCFG] appends to the sample rates the
    configuration held as many entries as the stored sampling rate num, and
    entry [i] is what line [4 + i + A + D] says: its first field read as a
    float is the rate, its second read as a float and converted to [int]
    the number of samples. *)
Theorem sample_rates_decoded :
  forall (content : bytes) (cfg0 cfg : CFG),
    ReadCFG content cfg0 = (cfg, Ok tt) ->
    exists srs,
      SampleDetail cfg = SampleDetail cfg0 ++ srs /\
      length srs = Z.to_nat (SampleRateNum cfg) /\
      forall i, 0 <= i < SampleRateNum cfg ->
        exists l sr,
          GoBytes.Split content "010"%char
            !! Z.to_nat (4 + i + ChannelA.GetChannelTotal (AnalogDetail cfg) +
                         ChannelD.GetChannelTotal (DigitDetail cfg)) = Some l /\
          srs !! Z.to_nat i = Some sr /\ rateEntry l sr.
Proof.
  intros content cfg0 cfg E. apply (readLines_full _ _ _ tt) in E.
  destruct E as (chA & chD & srs & l0 & lF & lT & lM & HA & HD & _ & _ & _ & _ & _ &
                 (HS & Hlen & HrR) & _).
  exists srs. split; [exact HS |]. split; [exact Hlen |].
  rewrite HA, HD. cbn [ChannelA.GetChannelTotal ChannelD.GetChannelTotal].
  intros i Hi. destruct (HrR i Hi) as (l & sr & Hl & _ & Hs & He). eauto.
Qed.

(** X7.  A successful [ReadCFG] into a configuration that already holds a
    sample rate, as after an earlier [ReadCFG], leaves [GetSamplingNumber]
    and [GetSamplingRate] as they were: the rates of the new document are
    appended behind the old ones, while the channel tables are replaced. *)
Theorem redecoding_keeps_first_rate :
  forall (content1 content2 : bytes) (cfg0 cfg1 cfg2 : CFG),
    ReadCFG content1 cfg0 = (cfg1, Ok tt) ->
    ReadCFG content2 cfg1 = (cfg2, Ok tt) ->
    GetSamplingNumber cfg2 = GetSamplingNumber cfg1 /\
    GetSamplingRate cfg2 = GetSamplingRate cfg1 /\
    len (SampleDetail cfg2) = len (SampleDetail cfg1) + SampleRateNum cfg2.
Proof.
  intros content1 content2 cfg0 cfg1 cfg2 E1 E2.
  apply (readLines_full _ _ _ tt) in E1, E2.
  destruct E1 as (chA & chD & srs & l0 & lF & lT & lM & _ & _ & (_ & _ & Hr) & _ & _ & _ & _ &
                  (HS & Hlen & _) & _).
  destruct E2 as (chA' & chD' & srs' & l0' & lF' & lT' & lM' & _ & _ & (_ & _ & Hr') & _ & _ &
                  _ & _ & (HS' & Hlen' & _) & _).
  assert (exists sr rest, SampleDetail cfg1 = sr :: rest) as (sr & rest & Hcons).
  { rewrite HS. destruct srs as [| sr srs]; [simpl in Hlen; lia |].
    destruct (SampleDetail cfg0); simpl; eauto. }
  unfold GetSamplingNumber, GetSamplingRate, len.
  rewrite HS', Hcons, length_app. cbn [app]. split; [reflexivity |].
  split; [reflexivity | lia].
Qed.

(** X8.  After a successful [ReadCFG] the station name and the recording
    device id are the trimmed first and second fields of the first line;
    the revision year is its third field read on 16 bits, and is left as it
    was when the line has two fields only. *)
Theorem first_line_decoded :
  forall (content : bytes) (cfg0 cfg : CFG),
    ReadCFG content cfg0 = (cfg, Ok tt) ->
    exists l,
      GoBytes.Split content "010"%char !! 0%nat = Some l /\
      2 <= len (GoBytes.Split l ","%char) /\
      StationName cfg = fieldOf l 0 /\ RecordDeviceId cfg = fieldOf l 1 /\
      (if 2 <? len (GoBytes.Split l ","%char)
       then Strconv.ParseUint (fieldOf l 2) 16 = Ok (RevisionYear cfg)
       else RevisionYear cfg = RevisionYear cfg0).
Proof.
  intros content cfg0 cfg E. apply (readLines_full _ _ _ tt) in E.
  destruct E as (chA & chD & srs & l0 & lF & lT & lM & _ & _ & _ & _ & _ & _ & _ & _ & H0 & _).
  exists l0. exact H0.
Qed.

(** X9.  After a successful [ReadCFG] the line frequency is the first
    field of line [2 + A + D] read as a float and converted to [uint16],
    the data file type the trimmed first field of line [6 + R + A + D], and
    the time factor the first field of line [7 + R + A + D] read as a
    float, or 1 when that field is empty; the line indexes are computed on
    16 bits. *)
Theorem frequency_type_factor_decoded :
  forall (content : bytes) (cfg0 cfg : CFG),
    ReadCFG content cfg0 = (cfg, Ok tt) ->
    let lines := GoBytes.Split content "010"%char in
    let a := ChannelA.GetChannelTotal (AnalogDetail cfg) in
    let d := ChannelD.GetChannelTotal (DigitDetail cfg) in
    let r := SampleRateNum cfg in
    exists lF lT lM,
      (lines !! Z.to_nat (wrap16 (2 + a + d)) = Some lF /\
       exists x, ParseFloat (fieldOf lF 0) = Ok x /\
                 LineFrequency cfg = uint16_of_float64 x) /\
      (lines !! Z.to_nat (wrap16 (6 + r + a + d)) = Some lT /\
       DataFileType cfg = fieldOf lT 0) /\
      (lines !! Z.to_nat (wrap16 (7 + r + a + d)) = Some lM /\
       if bool_decide (hd [] (GoBytes.Split lM ","%char) = [])
       then TimeFactor cfg = float64_one
       else ParseFloat (fieldOf lM 0) = Ok (TimeFactor cfg)).
Proof.
  intros content cfg0 cfg E lines a d r. apply (readLines_full _ _ _ tt) in E.
  destruct E as (chA & chD & srs & l0 & lF & lT & lM & HA & HD & _ & _ & _ & _ & _ & _ & _ &
                 HF & HT & HM).
  unfold a, d, r. rewrite HA, HD. cbn [ChannelA.GetChannelTotal ChannelD.GetChannelTotal].
  exists lF, lT, lM. split; [exact HF |]. split; [exact HT | exact HM].
Qed.

End Tables.

(** ** The decoder and the data file content *)

Section IgnoresData.
Context `{Float64}.

Lemma ignoresData_ret {A : Type} (a : A) : ignoresData (ret a).
Proof. intros v s. reflexivity. Qed.

Lemma ignoresData_fail {A : Type} (e : error) : ignoresData (fail (A := A) e).
Proof. intros v s. reflexivity. Qed.

Lemma ignoresData_lift {A : Type} (r : result A) : ignoresData (lift r).
Proof. intros v s. reflexivity. Qed.

Lemma ignoresData_gets {A : Type} (g : CFG -> A) :
  (forall v s, g (set_DataFileContent v s) = g s) -> ignoresData (gets g).
Proof. intros Hg v s. unfold gets. now rewrite Hg. Qed.

Lemma ignoresData_modify (f : CFG -> CFG) :
  (forall v s, f (set_DataFileContent v s) = set_DataFileContent v (f s)) ->
  ignoresData (modify f).
Proof. intros Hf v s. unfold modify. now rewrite Hf. Qed.

Lemma ignoresData_bind {A C : Type} (m : M A) (k : A -> M C) :
  ignoresData m -> (forall a, ignoresData (k a)) -> ignoresData (bind m k).
Proof.
  intros Hm Hk v s. unfold bind. rewrite Hm.
  destruct (m s) as [s1 [a | e | p]]; cbn [fst snd]; [apply Hk | reflexivity ..].
Qed.

Lemma ignoresData_forLoop (body : Z -> M unit) (n : nat) :
  (forall i, ignoresData (body i)) -> forall from, ignoresData (forLoop body n from).
Proof.
  intros Hb. induction n as [| n IH]; intros from; cbn [forLoop].
  - apply ignoresData_ret.
  - apply ignoresData_bind; [apply Hb | intros _; apply IH].
Qed.

End IgnoresData.

Ltac ignores_step :=
  lazymatch goal with
  | |- ignoresData (bind _ _) => apply ignoresData_bind; [| intros ?]
  | |- ignoresData (ret _) => apply ignoresData_ret
  | |- ignoresData (fail _) => apply ignoresData_fail
  | |- ignoresData (lift _) => apply ignoresData_lift
  | |- ignoresData (gets _) => apply ignoresData_gets; intros ? []; reflexivity
  | |- ignoresData (modify _) => apply ignoresData_modify; intros ? []; reflexivity
  | |- ignoresData (forLoop _ _ _) => apply ignoresData_forLoop; intros ?
  | |- ignoresData (if ?b then _ else _) => destruct b
  | |- ignoresData (match ?r with Ok _ => _ | _ => _ end) => destruct r
  | |- ignoresData (let _ := _ in _) => cbv zeta
  | |- ignoresData (field _ _) => unfold field
  | |- ignoresData (lineAt _ _) => unfold lineAt
  | |- ignoresData (modA _) => unfold modA
  | |- ignoresData (modD _) => unfold modD
  | |- ignoresData (readPrimary _) => unfold readPrimary
  | |- ignoresData (readSecondary _) => unfold readSecondary
  | |- ignoresData (readIsSecondaryMeasurement _) => unfold readIsSecondaryMeasurement
  | |- ignoresData (readElement _) => unfold readElement
  | |- ignoresData (readInitialState _) => unfold readInitialState
  | |- ignoresData (readFirstLine _) => unfold readFirstLine
  | |- ignoresData (readSecondLine _) => unfold readSecondLine
  | |- ignoresData (analogRow _ _) => unfold analogRow
  | |- ignoresData (digitRow _ _ _) => unfold digitRow
  | |- ignoresData (readLineFrequency _ _ _) => unfold readLineFrequency
  | |- ignoresData (readSampleRateNum _ _ _) => unfold readSampleRateNum
  | |- ignoresData (sampleRateRow _ _ _ _) => unfold sampleRateRow
  | |- ignoresData (readStartTime _ _ _ _) => unfold readStartTime
  | |- ignoresData (readTriggerTime _ _ _ _) => unfold readTriggerTime
  | |- ignoresData (readDataFileType _ _ _ _) => unfold readDataFileType
  | |- ignoresData (readTimeFactor _ _ _ _) => unfold readTimeFactor
  | |- ignoresData (readTimeCode _ _ _ _) => unfold readTimeCode
  end.

Section Commute.
Context `{Float64}.

Lemma readLines_ignoresData (lines : list bytes) : ignoresData (readLines lines).
Proof. unfold readLines. repeat ignores_step. Qed.

(** X10.  [ReadCFG] neither reads nor writes the data file content,
    whether it returns normally, returns an error or panics: reading the
    .dat file before the .cfg file gives the configuration, the outcome and
    the samples that reading it after gives, and the content a
    configuration holds is still there after [ReadCFG]. *)
Theorem ReadCFG_ReadDAT_commute :
  forall (content : bytes) (cfg : CFG) (data : byteSlice),
    ReadCFG content (ReadDAT cfg data) =
      (ReadDAT (ReadCFG content cfg).1 data, (ReadCFG content cfg).2) /\
    (forall num,
       GetAnalogChannelData (Some (ReadCFG content (ReadDAT cfg data)).1) num =
       GetAnalogChannelData (Some (ReadDAT (ReadCFG content cfg).1 data)) num) /\
    DataFileContent (ReadCFG content cfg).1 = DataFileContent cfg.
Proof.
  intros content cfg data.
  pose proof (readLines_ignoresData (GoBytes.Split content "010"%char)) as Hi.
  assert (ReadCFG content (ReadDAT cfg data) =
            (ReadDAT (ReadCFG content cfg).1 data, (ReadCFG content cfg).2)) as E
    by apply Hi.
  split; [exact E |]. split; [intros num; now rewrite E |].
  specialize (Hi (DataFileContent cfg) cfg).
  replace (set_DataFileContent (DataFileContent cfg) cfg) with cfg in Hi
    by (destruct cfg; reflexivity).
  unfold ReadCFG.
  apply (f_equal (fun p => DataFileContent p.1)) in Hi. cbn [fst] in Hi.
  rewrite Hi. destruct (readLines _ cfg).1; reflexivity.
Qed.

(** X11.  A document whose first line holds no comma, as the empty
    document does, makes [ReadCFG] return the error that counts one part,
    and leaves the configuration as it was; it does not panic. *)
Theorem first_line_without_comma :
  forall (content : bytes) (cfg : CFG),
    ","%char ∉ hd [] (GoBytes.Split content "010"%char) ->
    ReadCFG content cfg =
      (cfg, Err (errorf "cfg format error: Missing info in first line of cfg file. Line has %d parts" 1)).
Proof.
  intros content cfg Hc. unfold ReadCFG, readLines, readFirstLine, lineAt, lift.
  rewrite (Split_cons content). cbn [hd] in *.
  unfold bind at 1 2 3. rewrite index_0.
  rewrite (Split_no_sep _ _ Hc). reflexivity.
Qed.

(** X20.  When the first line is read and the second line has three
    fields or more, the first a number, but its second field holds no [A]
    or its third no [D], [ReadCFG] returns the error that names the missing
    stream numbers.  The configuration is then half updated: the fields of
    the first line and the total channel number are those of the document,
    the channel tables those it held before. *)
Theorem missing_stream_tags :
  forall (content : bytes) (cfg s1 : CFG) (l1 f0 f1 f2 : bytes) (rest : list bytes) (t : Z),
    let lines := GoBytes.Split content "010"%char in
    readFirstLine lines cfg = (s1, Ok tt) ->
    lines !! 1%nat = Some l1 ->
    GoBytes.Split l1 ","%char = f0 :: f1 :: f2 :: rest ->
    Strconv.ParseUint (ByteToString f0) 16 = Ok t ->
    "A"%char ∉ f1 \/ "D"%char ∉ f2 ->
    ReadCFG content cfg =
      (set_ChannelNumber t s1,
       Err (errorString
              "cfg format error: Missing either analog or digital stream numbers in cfg file")) /\
    AnalogDetail (set_ChannelNumber t s1) = AnalogDetail cfg /\
    DigitDetail (set_ChannelNumber t s1) = DigitDetail cfg.
Proof.
  intros content cfg s1 l1 f0 f1 f2 rest t lines H1 Hl1 Hsplit Ht Htag.
  assert (readSecondLine lines s1 =
            (set_ChannelNumber t s1,
             Err (errorString
                    "cfg format error: Missing either analog or digital stream numbers in cfg file")))
    as H2.
  { unfold readSecondLine, lineAt, field, lift.
    assert (index lines 1 = Ok l1) as -> by (apply index_Ok; split; [lia | exact Hl1]).
    unfold bind at 1. rewrite Hsplit.
    replace (len (f0 :: f1 :: f2 :: rest) <? 3) with false
      by (symmetry; apply Z.ltb_ge; unfold len; cbn [length]; lia).
    assert (index (f0 :: f1 :: f2 :: rest) 0 = Ok f0) as -> by apply index_0.
    assert (index (f0 :: f1 :: f2 :: rest) 1 = Ok f1) as ->
      by (apply index_Ok; split; [lia | reflexivity]).
    assert (index (f0 :: f1 :: f2 :: rest) 2 = Ok f2) as ->
      by (apply index_Ok; split; [lia | reflexivity]).
    assert (negb (GoBytes.Contains f1 "A") || negb (GoBytes.Contains f2 "D") = true) as Hc.
    { unfold GoBytes.Contains. apply orb_true_iff.
      destruct Htag as [Hn | Hn]; [left | right];
        apply negb_true_iff, bool_decide_eq_false; exact Hn. }
    unfold bind, modify, fail. cbv beta iota. rewrite Ht. cbv beta iota.
    rewrite Hc. reflexivity. }
  split.
  - unfold ReadCFG, readLines. fold lines. unfold bind at 1. rewrite H1.
    unfold bind at 1. rewrite H2. reflexivity.
  - pose proof (readFirstLine_Ok lines cfg s1 tt H1) as (n & dv & y & ->).
    destruct cfg; split; reflexivity.
Qed.

End Commute.

(** ** The sample extractor on any configuration *)

Section Extractor.
Context `{Float64}.

Lemma sampleLoop_inv (body : Z -> result float64) (n : nat) :
  forall from res vs,
    sampleLoop body n from res = Ok vs ->
    length vs = (length res + n)%nat /\
    forall i, from <= i < from + Z.of_nat n -> exists v, body i = Ok v.
Proof.
  induction n as [| n IH]; intros from res vs E; cbn [sampleLoop] in E.
  - injection E as <-. split; [lia | intros i Hi; lia].
  - destruct (body from) as [x | e | p] eqn:Eb; cbn [rbind] in E; try discriminate.
    apply IH in E as [Hlen Hbody]. rewrite length_app in Hlen. cbn [length] in Hlen.
    split; [lia |]. intros i Hi.
    destruct (Z.eq_dec i from) as [-> | Hne]; [eauto | apply Hbody; lia].
Qed.

Lemma reslice_Ok_inv (s s' : byteSlice) (lo hi : Z) :
  reslice s lo hi = Ok s' -> 0 <= lo <= hi /\ hi <= scap s.
Proof.
  unfold reslice.
  destruct ((hi <? 0) || (scap s <? hi)) eqn:E1; [discriminate |].
  destruct ((lo <? 0) || (hi <? lo)) eqn:E2; [discriminate |].
  apply orb_false_iff in E1 as [_ E1], E2 as [E2 E3]. lia.
Qed.

Lemma sampleValue_fits (data : byteSlice) (nb : Z) factor (num i : Z) (v : float64) :
  sampleValue data nb factor num i = Ok v ->
  0 <= i * nb <= i * nb + nb /\ i * nb + nb <= scap data.
Proof.
  unfold sampleValue.
  destruct (reslice data (i * nb) (i * nb + nb)) as [s | e | p] eqn:E; try discriminate.
  intros _. apply reslice_Ok_inv in E. exact E.
Qed.

(** The values of [GetAnalogChannelData] when every guard passes and the
    capacity of the data slice holds the records. *)
Lemma GetAnalogChannelData_values :
  forall (c : CFG) (chA : ChannelA.t) (chD : ChannelD.t)
         (sr : SampleRate.t) (rest : list SampleRate.t) (num : Z) (fa fb : float64),
    AnalogDetail c = Some chA -> DigitDetail c = Some chD ->
    SampleDetail c = sr :: rest ->
    let a := ChannelA.ChannelTotal chA in
    let d := ChannelD.ChannelTotal chD in
    let n := SampleRate.Number sr in
    let data := DataFileContent c in
    slen data <> 0 -> 0 <= d -> 1 <= num <= a ->
    n * NB a d <= scap data ->
    factorsA chA !! Z.to_nat (num - 1) = Some fa ->
    factorsB chA !! Z.to_nat (num - 1) = Some fb ->
    exists vs,
      GetAnalogChannelData (Some c) num = Ok vs /\
      length vs = Z.to_nat n /\
      forall i, 0 <= i < n ->
        vs !! Z.to_nat i =
          Some (float64_add
                  (float64_mul
                     (float64_of_int16
                        (rawSample (contents data ++ spare data) (NB a d) num i)) fa)
                  fb).
Proof.
  intros c chA chD sr rest num fa fb HA HD HS a d n data Hdata Hd Hnum Hcap Hfa Hfb.
  destruct (NB_facts a d ltac:(lia) Hd) as (Hc & Hnb & _).
  set (val := fun i => float64_add
                (float64_mul
                   (float64_of_int16
                      (rawSample (contents data ++ spare data) (NB a d) num i)) fa) fb).
  exists (val <$> seqZ 0 (Z.of_nat (Z.to_nat n))).
  split; [| split].
  - unfold GetAnalogChannelData. fold data. rewrite HA, HD, HS.
    replace (slen data =? 0) with false by (symmetry; apply Z.eqb_neq; exact Hdata).
    fold a d.
    replace (a <? num) with false by (symmetry; apply Z.ltb_ge; lia).
    replace (num <? 1) with false by (symmetry; apply Z.ltb_ge; lia).
    cbv zeta. unfold SampleRate.GetNumber. fold n.
    rewrite (sampleLoop_Ok _ val); [reflexivity |].
    intros i Hi.
    apply (sampleValue_Ok data a d _ num i fa fb); try assumption; try lia.
    assert ((i + 1) * NB a d <= n * NB a d) by (apply Z.mul_le_mono_nonneg_r; lia).
    lia.
  - rewrite length_fmap, length_seqZ. lia.
  - intros i Hi. rewrite list_lookup_fmap, lookup_seqZ_lt by lia.
    cbn [fmap option_fmap option_map].
    replace (0 + Z.of_nat (Z.to_nat i)) with i by lia. reflexivity.
Qed.

(** X12.  On any configuration, decoded or built by hand, that holds a
    data file, both tables and a sample rate of [n] samples,
    [GetAnalogChannelData] returns [n] values for a channel of the analog
    table that has its two conversion factors, as soon as the capacity of
    the data slice holds [n] records; no value when [n] is not positive.
    The records are read from the array under the slice, past its length
    if it is shorter. *)
Theorem analog_channel_data_within_capacity :
  forall (c : CFG) (chA : ChannelA.t) (chD : ChannelD.t)
         (sr : SampleRate.t) (rest : list SampleRate.t) (num : Z) (fa fb : float64),
    AnalogDetail c = Some chA -> DigitDetail c = Some chD ->
    SampleDetail c = sr :: rest ->
    let a := ChannelA.ChannelTotal chA in
    let d := ChannelD.ChannelTotal chD in
    let n := SampleRate.Number sr in
    let data := DataFileContent c in
    slen data <> 0 -> 0 <= d -> 1 <= num <= a ->
    n * NB a d <= scap data ->
    factorsA chA !! Z.to_nat (num - 1) = Some fa ->
    factorsB chA !! Z.to_nat (num - 1) = Some fb ->
    exists vs,
      GetAnalogChannelData (Some c) num = Ok vs /\
      length vs = Z.to_nat n /\
      forall i, 0 <= i < n ->
        vs !! Z.to_nat i =
          Some (float64_add
                  (float64_mul
                     (float64_of_int16
                        (rawSample (contents data ++ spare data) (NB a d) num i)) fa)
                  fb).
Proof. exact GetAnalogChannelData_values. Qed.

(** X13.  [GetAnalogChannelData] returns values only when every guard
    holds: the configuration is there and holds a data file that is not
    empty, an analog and a digit table and a sample rate, and the channel
    number is between 1 and the analog channel total.  It then returns as
    many values as the first sample rate has samples, and every record it
    has read lies within the capacity of the data slice. *)
Theorem analog_channel_data_guards :
  forall (cfg : option CFG) (num : Z) (vs : list float64),
    GetAnalogChannelData cfg num = Ok vs ->
    exists c chA chD sr rest,
      cfg = Some c /\ slen (DataFileContent c) <> 0 /\
      AnalogDetail c = Some chA /\ DigitDetail c = Some chD /\
      1 <= num <= ChannelA.ChannelTotal chA /\
      SampleDetail c = sr :: rest /\
      length vs = Z.to_nat (SampleRate.Number sr) /\
      (0 < SampleRate.Number sr ->
       SampleRate.Number sr * NB (ChannelA.ChannelTotal chA) (ChannelD.ChannelTotal chD)
         <= scap (DataFileContent c)).
Proof.
  intros cfg num vs E. unfold GetAnalogChannelData in E.
  destruct cfg as [c |]; [| discriminate].
  destruct (slen (DataFileContent c) =? 0) eqn:Hdata; [discriminate |].
  destruct (AnalogDetail c) as [chA |] eqn:HA; [| discriminate].
  destruct (ChannelA.ChannelTotal chA <? num) eqn:Hhi; [discriminate |].
  destruct (num <? 1) eqn:Hlo; [discriminate |].
  destruct (DigitDetail c) as [chD |] eqn:HD; [| discriminate].
  cbv zeta in E.
  destruct (SampleDetail c) as [| sr rest] eqn:HS; [discriminate |].
  apply sampleLoop_inv in E as [Hlen Hbody]. unfold SampleRate.GetNumber in *.
  exists c, chA, chD, sr, rest.
  split; [reflexivity |]. split; [apply Z.eqb_neq; exact Hdata |].
  split; [exact HA |]. split; [exact HD |]. split; [lia |].
  split; [exact HS |]. split; [exact Hlen |].
  intros Hn. destruct (Hbody (SampleRate.Number sr - 1) ltac:(lia)) as [v Hv].
  apply sampleValue_fits in Hv. lia.
Qed.

(** X19.  From the document to the samples: after a successful
    [ReadCFG], for a data file that is not empty and whose capacity holds
    the records, the values [GetAnalogChannelData] returns for channel
    [num] are the raw samples times the sixth field of line [1 + num] of
    the document plus its seventh field, both read as floats.  The channel
    is found by its position among the analog rows, not by the channel
    number its row declares. *)
Theorem samples_calibrated_by_row :
  forall (content : bytes) (cfg0 cfg : CFG) (data : byteSlice) (num : Z),
    ReadCFG content cfg0 = (cfg, Ok tt) ->
    let a := ChannelA.GetChannelTotal (AnalogDetail cfg) in
    let d := ChannelD.GetChannelTotal (DigitDetail cfg) in
    let n := GetSamplingNumber cfg in
    slen data <> 0 ->
    n * NB a d <= scap data ->
    1 <= num <= a ->
    exists (l : bytes) (fa fb : float64) (vs : list float64),
      GoBytes.Split content "010"%char !! Z.to_nat (1 + num) = Some l /\
      ParseFloat (fieldOf l 5) = Ok fa /\ ParseFloat (fieldOf l 6) = Ok fb /\
      GetAnalogChannelData (Some (ReadDAT cfg data)) num = Ok vs /\
      length vs = Z.to_nat n /\
      forall i, 0 <= i < n ->
        vs !! Z.to_nat i =
          Some (float64_add
                  (float64_mul
                     (float64_of_int16
                        (rawSample (contents data ++ spare data) (NB a d) num i)) fa)
                  fb).
Proof.
  intros content cfg0 cfg data num E a d n Hdata Hcap Hnum.
  apply (readLines_full _ _ _ tt) in E.
  destruct E as (chA & chD & srs & l0 & lF & lT & lM & HA & HD & (Ha & Hd & Hr) & _ & _ &
                 HrA & _ & (HS & Hlen & _) & _).
  unfold a, d, n in *. rewrite HA, HD in *.
  cbn [ChannelA.GetChannelTotal ChannelD.GetChannelTotal] in *.
  destruct (HrA (num - 1) ltac:(lia)) as (l & Hl & _ & He).
  destruct He as (_ & _ & _ & _ & _ & (fa & Pa & Hfa) & (fb & Pb & Hfb) & _).
  assert (exists sr rest, SampleDetail cfg = sr :: rest) as (sr & rest & Hcons).
  { rewrite HS. destruct srs as [| sr srs]; [simpl in Hlen; lia |].
    destruct (SampleDetail cfg0); simpl; eauto. }
  unfold GetSamplingNumber in *. rewrite Hcons in *. unfold SampleRate.GetNumber in *.
  pose proof (GetAnalogChannelData_values (ReadDAT cfg data) chA chD sr rest num fa fb
                HA HD Hcons) as Hv.
  cbv zeta in Hv. change (DataFileContent (ReadDAT cfg data)) with data in Hv.
  destruct (Hv Hdata ltac:(lia) ltac:(lia) Hcap Hfa Hfb) as (vs & Ev & Hvs & Hval).
  exists l, fa, fb, vs.
  replace (2 + (num - 1)) with (1 + num) in Hl by lia.
  split; [exact Hl |]. split; [exact Pa |]. split; [exact Pb |]. split; [exact Ev |].
  split; [exact Hvs | exact Hval].
Qed.

End Extractor.

(** ** Channel names *)

Lemma stripPrefix_elem (p s s' : bytes) (c : ascii) :
  GoBytes.stripPrefix p s = Some s' -> c ∈ s' -> c ∈ s.
Proof.
  revert s. induction p as [| a p IH]; intros s E Hc; cbn [GoBytes.stripPrefix] in E.
  - destruct s; injection E as <-; exact Hc.
  - destruct s as [| b s]; [discriminate |].
    destruct (decide (a = b)); [| discriminate].
    apply elem_of_cons. right. eapply IH; eassumption.
Qed.

Lemma dropRune_elem (runes : list bytes) (s s' : bytes) (c : ascii) :
  GoBytes.dropRune runes s = Some s' -> c ∈ s' -> c ∈ s.
Proof.
  induction runes as [| r rs IH]; cbn [GoBytes.dropRune]; [discriminate |].
  destruct (GoBytes.stripPrefix r s) as [s1 |] eqn:E.
  - intros [= <-]. eapply stripPrefix_elem; eassumption.
  - exact IH.
Qed.

Lemma trimLeft_elem (fuel : nat) (runes : list bytes) (c : ascii) :
  forall s, c ∈ GoBytes.trimLeft fuel runes s -> c ∈ s.
Proof.
  induction fuel as [| fuel IH]; intros s; cbn [GoBytes.trimLeft]; [auto |].
  destruct (GoBytes.dropRune runes s) as [s1 |] eqn:E; [| auto].
  intros Hc. eapply dropRune_elem; [exact E | apply IH; exact Hc].
Qed.

(** [TrimSpace] only removes bytes. *)
Lemma TrimSpace_elem (s : bytes) (c : ascii) : c ∈ GoBytes.TrimSpace s -> c ∈ s.
Proof.
  unfold GoBytes.TrimSpace. cbv zeta. intros Hc.
  apply elem_of_reverse, trimLeft_elem, elem_of_reverse, trimLeft_elem in Hc. exact Hc.
Qed.

Lemma Join_cons_head (c : ascii) (g : bytes) (gs : list bytes) (sep : bytes) :
  GoBytes.Join ((c :: g) :: gs) sep = c :: GoBytes.Join (g :: gs) sep.
Proof. destruct gs; reflexivity. Qed.

Lemma Join_Split_no_sep (f : bytes) (sep u : ascii) :
  u <> sep -> sep ∉ GoBytes.Join (GoBytes.Split f sep) [u].
Proof.
  intros Hu. induction f as [| c f IH]; cbn [GoBytes.Split].
  - cbn. apply not_elem_of_nil.
  - destruct (decide (c = sep)) as [-> | Hc].
    + rewrite (Split_cons f sep) in *. cbn [GoBytes.Join app] in *.
      apply not_elem_of_cons. split; [congruence | exact IH].
    + rewrite (Split_cons f sep) in *. rewrite Join_cons_head.
      apply not_elem_of_cons. split; [congruence | exact IH].
Qed.

(** The name of a channel holds no space, whatever the field. *)
Lemma channelName_no_space (f : bytes) : " "%char ∉ channelName f.
Proof.
  unfold channelName, ByteToString. intros Hc. apply TrimSpace_elem in Hc.
  revert Hc. apply Join_Split_no_sep. discriminate.
Qed.

Section Names.
Context `{Float64}.

(** X14.  After a successful [ReadCFG] no stored channel name, analog or
    digit, holds a space: every one of them is a name field whose spaces
    were replaced with underscores before white space was trimmed. *)
Theorem stored_names_without_space :
  forall (content : bytes) (cfg0 cfg : CFG),
    ReadCFG content cfg0 = (cfg, Ok tt) ->
    Forall (fun name => " "%char ∉ name) (GetAnalogChannelNames (Some cfg)) /\
    Forall (fun name => " "%char ∉ name)
           (default [] (ChannelD.ChannelNames <$> DigitDetail cfg)).
Proof.
  intros content cfg0 cfg E. apply (readLines_full _ _ _ tt) in E.
  destruct E as (chA & chD & srs & l0 & lF & lT & lM & HA & HD & _ & HLA & HLD &
                 HrA & HrD & _).
  cbn [GetAnalogChannelNames]. rewrite HA, HD. cbn [fmap option_fmap option_map default].
  cbn [from_option id].
  split; apply Forall_forall; intros name Hin;
    apply list_elem_of_lookup in Hin as [i Hi]; pose proof (lookup_lt_Some _ _ _ Hi) as Hlt.
  - destruct HLA as (_ & Hlen & _). rewrite Hlen in Hlt.
    destruct (HrA (Z.of_nat i) ltac:(lia)) as (l & _ & _ & _ & Hname & _).
    rewrite Nat2Z.id, Hi in Hname. injection Hname as ->. apply channelName_no_space.
  - destruct HLD as (_ & Hlen & _). rewrite Hlen in Hlt.
    destruct (HrD (Z.of_nat i) ltac:(lia)) as (l & _ & _ & _ & Hname & _).
    rewrite Nat2Z.id, Hi in Hname. injection Hname as ->. apply channelName_no_space.
Qed.

End Names.

(** ** The time code *)

Lemma isSign_cases (c : ascii) :
  TimeCode.isSign c = true -> c = "+"%char \/ c = "-"%char.
Proof.
  unfold TimeCode.isSign. intros E. apply orb_true_iff in E as [E | E];
    apply bool_decide_eq_true in E; auto.
Qed.

Lemma isSign_not_digit (c : ascii) :
  TimeCode.isSign c = true -> Strconv.isDigit c = false.
Proof. intros E. destruct (isSign_cases c E) as [-> | ->]; reflexivity. Qed.

Lemma isDigit_not_sign (c : ascii) :
  Strconv.isDigit c = true -> TimeCode.isSign c = false.
Proof.
  intros E. destruct (TimeCode.isSign c) eqn:Es; [| reflexivity].
  apply isSign_not_digit in Es. congruence.
Qed.

Lemma isHT_cases (c : ascii) :
  TimeCode.isHT c = true -> c = "h"%char \/ c = "t"%char.
Proof.
  unfold TimeCode.isHT. intros E. apply orb_true_iff in E as [E | E];
    apply bool_decide_eq_true in E; auto.
Qed.

Lemma isHT_not_digit (c : ascii) :
  TimeCode.isHT c = true -> Strconv.isDigit c = false.
Proof. intros E. destruct (isHT_cases c E) as [-> | ->]; reflexivity. Qed.

Lemma isHT_not_sign (c : ascii) :
  TimeCode.isHT c = true -> TimeCode.isSign c = false.
Proof. intros E. destruct (isHT_cases c E) as [-> | ->]; reflexivity. Qed.

Lemma spanDigits_app (ds rest : bytes) :
  Forall (fun c => Strconv.isDigit c = true) ds ->
  (forall c, head rest = Some c -> Strconv.isDigit c = false) ->
  TimeCode.spanDigits (ds ++ rest) = (ds, rest).
Proof.
  intros Hds Hrest. induction Hds as [| c ds Hc _ IH]; cbn [app TimeCode.spanDigits].
  - destruct rest as [| c rest]; [reflexivity |].
    cbn [TimeCode.spanDigits]. now rewrite (Hrest c eq_refl).
  - now rewrite Hc, IH.
Qed.

Lemma spanDigits_inv (s ds rest : bytes) :
  TimeCode.spanDigits s = (ds, rest) ->
  s = ds ++ rest /\ Forall (fun c => Strconv.isDigit c = true) ds.
Proof.
  revert ds rest. induction s as [| c s IH]; intros ds rest E; cbn [TimeCode.spanDigits] in E.
  - injection E as <- <-. split; [reflexivity | constructor].
  - destruct (Strconv.isDigit c) eqn:Hc.
    + destruct (TimeCode.spanDigits s) as [ds' rest'].
      injection E as <- <-. destruct (IH ds' rest' eq_refl) as [-> Hd].
      split; [reflexivity | constructor; assumption].
    + injection E as <- <-. split; [reflexivity | constructor].
Qed.

Lemma findHours_signed (s : ascii) (ds rest : bytes) :
  TimeCode.isSign s = true -> ds <> [] ->
  Forall (fun c => Strconv.isDigit c = true) ds ->
  (forall c, head rest = Some c -> Strconv.isDigit c = false) ->
  TimeCode.findHours (s :: ds ++ rest) = Some (s :: ds).
Proof.
  intros Hs Hne Hds Hrest. cbn [TimeCode.findHours].
  rewrite Hs, spanDigits_app by assumption.
  destruct ds; [contradiction | reflexivity].
Qed.

Lemma findHours_none (t : bytes) :
  Forall (fun c => TimeCode.isSign c = false) t -> TimeCode.findHours t = None.
Proof.
  induction 1 as [| c t Hc _ IH]; cbn [TimeCode.findHours]; [reflexivity |].
  now rewrite Hc.
Qed.

Lemma findMinutes_none (t : bytes) :
  Forall (fun c => TimeCode.isSign c = false) t -> TimeCode.findMinutes t = None.
Proof.
  induction 1 as [| c t Hc _ IH]; cbn [TimeCode.findMinutes]; [reflexivity |].
  now rewrite Hc.
Qed.

Lemma findMinutes_signed (s u : ascii) (ds ms : bytes) :
  TimeCode.isSign s = true -> TimeCode.isHT u = true ->
  ds <> [] -> Forall (fun c => Strconv.isDigit c = true) ds ->
  ms <> [] -> Forall (fun c => Strconv.isDigit c = true) ms ->
  TimeCode.findMinutes (s :: ds ++ u :: ms) = Some ms.
Proof.
  intros Hs Hu Hne Hds Hme Hms. cbn [TimeCode.findMinutes].
  rewrite Hs, spanDigits_app; [| assumption |].
  2: { intros c [= <-]. apply isHT_not_digit. exact Hu. }
  destruct ds as [| d ds]; [contradiction |]. rewrite Hu.
  rewrite <- (app_nil_r ms) at 1.
  rewrite spanDigits_app; [| assumption | intros c [=]].
  destruct ms; [contradiction | reflexivity].
Qed.

(** A sign within [s], then digits: what [findHours] finds. *)
Lemma findHours_inv (s g : bytes) :
  TimeCode.findHours s = Some g ->
  exists c ds, g = c :: ds /\ TimeCode.isSign c = true /\ ds <> [] /\
    Forall (fun c => Strconv.isDigit c = true) ds /\ (length g <= length s)%nat.
Proof.
  induction s as [| c s IH]; cbn [TimeCode.findHours]; [discriminate |].
  assert (TimeCode.findHours s = Some g ->
          exists c0 ds, g = c0 :: ds /\ TimeCode.isSign c0 = true /\ ds <> [] /\
            Forall (fun c => Strconv.isDigit c = true) ds /\
            (length g <= length (c :: s))%nat) as IH'.
  { intros E. destruct (IH E) as (c0 & ds & -> & Hc0 & Hne & Hds & Hlen).
    exists c0, ds. cbn [length] in *. repeat split; try assumption. lia. }
  destruct (TimeCode.isSign c) eqn:Hc; [| exact IH'].
  destruct (TimeCode.spanDigits s) as [[| d ds] rest] eqn:Esp; [exact IH' |].
  intros [= <-]. apply spanDigits_inv in Esp as [-> Hds].
  exists c, (d :: ds). split; [reflexivity |]. split; [exact Hc |].
  split; [discriminate |]. split; [exact Hds |].
  cbn [length]. rewrite length_app. cbn [length]. lia.
Qed.

Lemma findMinutes_inv (s ms : bytes) :
  TimeCode.findMinutes s = Some ms ->
  ms <> [] /\ Forall (fun c => Strconv.isDigit c = true) ms /\
  (length ms < length s)%nat.
Proof.
  induction s as [| c s IH]; cbn [TimeCode.findMinutes]; [discriminate |].
  assert (TimeCode.findMinutes s = Some ms ->
          ms <> [] /\ Forall (fun c => Strconv.isDigit c = true) ms /\
          (length ms < length (c :: s))%nat) as IH'.
  { intros E. destruct (IH E) as (Hne & Hms & Hlen). cbn [length]. repeat split; try assumption.
    lia. }
  destruct (TimeCode.isSign c) eqn:Hc; [| exact IH'].
  destruct (TimeCode.spanDigits s) as [[| d ds] [| u rest]] eqn:Esp; try exact IH'.
  destruct (TimeCode.isHT u); [| exact IH'].
  destruct (TimeCode.spanDigits rest) as [[| m ms'] rest'] eqn:Esp'; [exact IH' |].
  intros [= <-]. apply spanDigits_inv in Esp as [-> _], Esp' as [-> Hms].
  split; [discriminate |]. split; [exact Hms |].
  cbn [length]. rewrite !length_app. cbn [length]. rewrite length_app. cbn [length]. lia.
Qed.

(** *** [Atoi] on what the two patterns capture *)

Lemma atoiFast_digits (ds : bytes) :
  Forall (fun c => Strconv.isDigit c = true) ds ->
  forall acc, 0 <= acc -> exists n, Strconv.atoiFast ds acc = Some n /\ 0 <= n.
Proof.
  induction 1 as [| c ds Hc _ IH]; intros acc Hacc; cbn [Strconv.atoiFast]; [eauto |].
  rewrite Hc. apply IH.
  unfold Strconv.isDigit in Hc. apply andb_true_iff in Hc as [Hc _]. lia.
Qed.

Lemma Atoi_signed (s : ascii) (ds : bytes) :
  TimeCode.isSign s = true -> ds <> [] -> (length ds < 18)%nat ->
  Forall (fun c => Strconv.isDigit c = true) ds ->
  exists n, Strconv.atoiFast ds 0 = Some n /\
    Strconv.Atoi (s :: ds) = Ok (if bool_decide (s = "-"%char) then - n else n).
Proof.
  intros Hs Hne Hlen Hds.
  destruct (atoiFast_digits ds Hds 0 ltac:(lia)) as (n & En & _).
  exists n. split; [exact En |]. unfold Strconv.Atoi. cbn [length].
  replace ((0 <? Z.of_nat (S (length ds))) && (Z.of_nat (S (length ds)) <? 19)) with true
    by (symmetry; apply andb_true_iff; split; apply Z.ltb_lt; lia).
  replace (bool_decide (s = "-"%char) || bool_decide (s = "+"%char)) with true.
  2: { symmetry. destruct (isSign_cases s Hs) as [-> | ->]; reflexivity. }
  rewrite bool_decide_eq_false_2 by exact Hne. cbn [andb]. now rewrite En.
Qed.

Lemma Atoi_digits (ds : bytes) :
  ds <> [] -> (length ds < 19)%nat ->
  Forall (fun c => Strconv.isDigit c = true) ds ->
  exists n, Strconv.atoiFast ds 0 = Some n /\ Strconv.Atoi ds = Ok n.
Proof.
  intros Hne Hlen Hds.
  destruct (atoiFast_digits ds Hds 0 ltac:(lia)) as (n & En & _).
  exists n. split; [exact En |]. unfold Strconv.Atoi.
  destruct ds as [| c ds']; [contradiction |].
  replace ((0 <? Z.of_nat (length (c :: ds'))) && (Z.of_nat (length (c :: ds')) <? 19))
    with true
    by (symmetry; apply andb_true_iff; cbn [length] in *; split; apply Z.ltb_lt; lia).
  apply Forall_cons in Hds as [Hc _]. apply isDigit_not_sign in Hc.
  unfold TimeCode.isSign in Hc. apply orb_false_iff in Hc as [Hp Hm].
  rewrite Hp, Hm. cbn [orb andb]. now rewrite En.
Qed.

Lemma signed64_small (x : Z) : - 2 ^ 63 <= x < 2 ^ 63 -> signed 64 x = x.
Proof.
  intros Hx. unfold signed, wrap. cbv zeta.
  change (2 ^ (64 - 1)) with 9223372036854775808.
  change (2 ^ 63) with 9223372036854775808 in Hx.
  change (2 ^ 64) with 18446744073709551616.
  destruct (Z_lt_dec x 0) as [Hneg | Hpos].
  - replace (x mod 18446744073709551616) with (x + 18446744073709551616)
      by (apply (Z.mod_unique _ _ (-1)); lia).
    replace (x + 18446744073709551616 <? 9223372036854775808) with false
      by (symmetry; apply Z.ltb_ge; lia).
    lia.
  - rewrite Z.mod_small by lia.
    replace (x <? 9223372036854775808) with true by (symmetry; apply Z.ltb_lt; lia).
    reflexivity.
Qed.

Lemma pow10_le (w : nat) : (w <= 6)%nat -> 10 ^ Z.of_nat w <= 1000000.
Proof.
  intros Hw. change 1000000 with (10 ^ 6). apply Z.pow_le_mono_r; lia.
Qed.

Lemma decimal_ne (w : nat) (n : Z) : (0 < w)%nat -> decimal w n <> [].
Proof.
  intros Hw E. apply (f_equal length) in E. rewrite decimal_length in E.
  cbn [length] in E. lia.
Qed.

Lemma findMinutes_hours_only (s u : ascii) (ds : bytes) :
  TimeCode.isSign s = true -> TimeCode.isHT u = true ->
  Forall (fun c => Strconv.isDigit c = true) ds ->
  TimeCode.findMinutes (s :: ds) = None /\ TimeCode.findMinutes (s :: ds ++ [u]) = None.
Proof.
  intros Hs Hu Hds.
  assert (Forall (fun c => TimeCode.isSign c = false) ds) as Hns
    by (eapply Forall_impl; [exact Hds | apply isDigit_not_sign]).
  assert (Forall (fun c => TimeCode.isSign c = false) (ds ++ [u])) as Hns'.
  { apply Forall_app. split; [exact Hns |].
    constructor; [apply isHT_not_sign; exact Hu | constructor]. }
  split; cbn [TimeCode.findMinutes]; rewrite Hs.
  - rewrite <- (app_nil_r ds) at 1.
    rewrite spanDigits_app; [| assumption | intros c [=]].
    rewrite (findMinutes_none ds Hns). destruct ds; reflexivity.
  - rewrite spanDigits_app; [| assumption |].
    2: { intros c [= <-]. apply isHT_not_digit. exact Hu. }
    rewrite Hu. cbn [TimeCode.spanDigits].
    rewrite (findMinutes_none _ Hns'). destruct ds; reflexivity.
Qed.

(** The loop of [ParseUint] on digits: the value, or a range error. *)
Lemma parseUintLoop_digits (maxVal : Z) (ds : bytes) :
  Forall (fun c => Strconv.isDigit c = true) ds ->
  forall acc, 0 <= acc ->
    match Strconv.parseUintLoop maxVal ds acc with
    | inl n => Strconv.atoiFast ds acc = Some n
    | inr k => k = ErrRange
    end.
Proof.
  induction 1 as [| c ds Hc _ IH]; intros acc Hacc;
    cbn [Strconv.parseUintLoop Strconv.atoiFast]; [reflexivity |].
  rewrite Hc. cbn [negb]. cbv zeta.
  destruct (_ <=? acc) eqn:Ecut; [reflexivity |].
  destruct (_ || _) eqn:Eov; [reflexivity |].
  apply Z.leb_gt in Ecut. apply orb_false_iff in Eov as [Eov _]. apply Z.ltb_ge in Eov.
  unfold Strconv.isDigit in Hc. apply andb_true_iff in Hc as [Hlo Hhi].
  apply Z.leb_le in Hlo, Hhi.
  unfold wrap64, wrap in *.
  change (2 ^ 64) with 18446744073709551616 in *.
  change ((18446744073709551616 - 1) / 10 + 1) with 1844674407370955162 in Ecut.
  assert ((acc * 10 + (byteZ c - 48)) mod 18446744073709551616 = acc * 10 + (byteZ c - 48)) as E.
  { destruct (Z_lt_dec (acc * 10 + (byteZ c - 48)) 18446744073709551616) as [Hlt | Hge].
    - apply Z.mod_small. lia.
    - exfalso.
      assert ((acc * 10 + (byteZ c - 48)) mod 18446744073709551616 =
              acc * 10 + (byteZ c - 48) - 18446744073709551616) as E'
        by (symmetry; apply (Z.mod_unique _ _ 1); lia).
      rewrite E' in Eov. lia. }
  rewrite E. apply IH. lia.
Qed.

Lemma Atoi_out_of_range (s : ascii) (w : nat) (h : Z) :
  TimeCode.isSign s = true -> (19 <= w)%nat -> 2 ^ 63 < h < 10 ^ Z.of_nat w ->
  Strconv.Atoi (s :: decimal w h) = Err (NumError "Atoi" (s :: decimal w h) ErrRange).
Proof.
  intros Hs Hw Hh. unfold Strconv.Atoi. cbn [length]. rewrite decimal_length.
  replace ((0 <? Z.of_nat (S w)) && (Z.of_nat (S w) <? 19)) with false
    by (symmetry; apply andb_false_iff; right; apply Z.ltb_ge; lia).
  unfold Strconv.parseInt10. cbv zeta.
  replace (bool_decide (s = "+"%char) || bool_decide (s = "-"%char)) with true
    by (symmetry; exact Hs).
  unfold Strconv.parseUint10.
  destruct (decimal w h) as [| d ds] eqn:Ed.
  { exfalso. apply (decimal_ne w h); [lia | exact Ed]. }
  rewrite <- Ed.
  pose proof (parseUintLoop_digits (2 ^ 64 - 1) (decimal w h) (decimal_isDigit w h) 0
                ltac:(lia)) as Hloop.
  rewrite atoiFast_decimal in Hloop.
  rewrite Z.mod_small in Hloop by (change (2 ^ 63) with 9223372036854775808 in Hh; lia).
  change (2 ^ 63) with 9223372036854775808 in *.
  destruct (Strconv.parseUintLoop (2 ^ 64 - 1) (decimal w h) 0) as [n | k].
  - injection Hloop as <-. replace (0 * 10 ^ Z.of_nat w + h) with h by lia.
    destruct (bool_decide (s = "-"%char)); cbn [negb andb].
    + replace (9223372036854775808 <? h) with true by (symmetry; apply Z.ltb_lt; lia).
      reflexivity.
    + replace (9223372036854775808 <=? h) with true by (symmetry; apply Z.leb_le; lia).
      reflexivity.
  - subst k. destruct (bool_decide (s = "-"%char)); reflexivity.
Qed.

Section TimeCodeOffset.
Context `{Float64}.

Lemma TimeCode_set (code : bytes) (cfg : CFG) : TimeCode (set_TimeCode code cfg) = code.
Proof. reflexivity. Qed.

(** X15.  A time code without a sign gives the offset 0: [GetTimeCodeOffset]
    only reads hours that follow [+] or [-], so that [10h30] is read as no
    offset at all. *)
Theorem unsigned_time_code_is_zero :
  forall (cfg : CFG) (code : bytes),
    "+"%char ∉ code -> "-"%char ∉ code ->
    GetTimeCodeOffset (Some (set_TimeCode code cfg)) = Returns 0.
Proof.
  intros cfg code Hp Hm. unfold GetTimeCodeOffset. rewrite TimeCode_set.
  destruct (bool_decide (code = [])); [reflexivity |].
  unfold timeCodeToNS. rewrite findHours_none; [reflexivity |].
  apply Forall_forall. intros c Hc. unfold TimeCode.isSign.
  apply orb_false_iff. split; apply bool_decide_eq_false; intros ->; contradiction.
Qed.

(** X16.  For a time code made of a sign, up to six digits of hours [h],
    and then nothing, or [h] or [t], or [h] or [t] and up to six digits of
    minutes [m], [GetTimeCodeOffset] returns the hours with their sign in
    nanoseconds, plus the minutes in nanoseconds: the minutes are added
    whatever the sign, so that [-7h15] is 6 hours 45 minutes behind. *)
Theorem time_code_offset :
  forall (cfg : CFG) (s u : ascii) (w w' : nat) (h m : Z),
    TimeCode.isSign s = true -> TimeCode.isHT u = true ->
    (0 < w <= 6)%nat -> (0 < w' <= 6)%nat ->
    0 <= h < 10 ^ Z.of_nat w -> 0 <= m < 10 ^ Z.of_nat w' ->
    let hours := if bool_decide (s = "-"%char) then - h else h in
    GetTimeCodeOffset (Some (set_TimeCode (s :: decimal w h) cfg)) =
      Returns (hours * 3600000000000) /\
    GetTimeCodeOffset (Some (set_TimeCode (s :: decimal w h ++ [u]) cfg)) =
      Returns (hours * 3600000000000) /\
    GetTimeCodeOffset (Some (set_TimeCode (s :: decimal w h ++ u :: decimal w' m) cfg)) =
      Returns (hours * 3600000000000 + m * 60000000000).
Proof.
  intros cfg s u w w' h m Hs Hu Hw Hw' Hh Hm hours.
  pose proof (decimal_isDigit w h) as Hds. pose proof (decimal_isDigit w' m) as Hms.
  pose proof (decimal_ne w h ltac:(lia)) as Hne.
  pose proof (decimal_ne w' m ltac:(lia)) as Hme.
  pose proof (pow10_le w ltac:(lia)) as Hpw. pose proof (pow10_le w' ltac:(lia)) as Hpw'.
  destruct (Atoi_signed s (decimal w h) Hs Hne ltac:(rewrite decimal_length; lia) Hds)
    as (n & En & EA).
  rewrite atoiFast_decimal, Z.mod_small in En by exact Hh.
  injection En as <-. replace (0 * 10 ^ Z.of_nat w + h) with h in EA by lia.
  fold hours in EA.
  destruct (Atoi_digits (decimal w' m) Hme ltac:(rewrite decimal_length; lia) Hms)
    as (n' & En' & EM).
  rewrite atoiFast_decimal, Z.mod_small in En' by exact Hm.
  injection En' as <-. replace (0 * 10 ^ Z.of_nat w' + m) with m in EM by lia.
  destruct (findMinutes_hours_only s u (decimal w h) Hs Hu Hds) as [M0 M1].
  assert (- 1000000 < hours < 1000000) as Hhours
    by (unfold hours; destruct (bool_decide _); lia).
  assert (TimeCode.mul64 (TimeCode.mul64 (TimeCode.mul64 hours 1000000000) 60) 60 =
          hours * 3600000000000) as Ehours.
  { unfold TimeCode.mul64.
    change (2 ^ 63) with 9223372036854775808 in *.
    rewrite (signed64_small (hours * 1000000000))
      by (change (2 ^ 63) with 9223372036854775808; lia).
    rewrite (signed64_small (hours * 1000000000 * 60))
      by (change (2 ^ 63) with 9223372036854775808; lia).
    rewrite signed64_small by (change (2 ^ 63) with 9223372036854775808; lia). lia. }
  assert (TimeCode.add64 (hours * 3600000000000)
            (TimeCode.mul64 (TimeCode.mul64 m 1000000000) 60) =
          hours * 3600000000000 + m * 60000000000) as Emin.
  { unfold TimeCode.add64, TimeCode.mul64.
    rewrite (signed64_small (m * 1000000000))
      by (change (2 ^ 63) with 9223372036854775808; lia).
    rewrite (signed64_small (m * 1000000000 * 60))
      by (change (2 ^ 63) with 9223372036854775808; lia).
    rewrite signed64_small by (change (2 ^ 63) with 9223372036854775808; lia). lia. }
  unfold GetTimeCodeOffset. rewrite !TimeCode_set.
  rewrite !bool_decide_eq_false_2 by discriminate.
  unfold timeCodeToNS.
  split; [| split].
  - rewrite <- (app_nil_r (decimal w h)) at 1.
    rewrite findHours_signed; [| assumption .. | intros c [=]].
    rewrite EA. cbv zeta. rewrite Ehours, M0. reflexivity.
  - rewrite findHours_signed; [| assumption ..|].
    2: { intros c [= <-]. apply isHT_not_digit. exact Hu. }
    rewrite EA. cbv zeta. rewrite Ehours, M1. reflexivity.
  - rewrite findHours_signed; [| assumption ..|].
    2: { intros c [= <-]. apply isHT_not_digit. exact Hu. }
    rewrite EA. cbv zeta. rewrite Ehours.
    rewrite findMinutes_signed by assumption.
    rewrite EM, Emin. reflexivity.
Qed.

(** X17.  [GetTimeCodeOffset] returns for every configuration, nil
    included, whose time code has fewer than 19 bytes: the hours and the
    minutes it finds are then short enough to be numbers, and the process
    is not ended. *)
Theorem short_time_code_returns :
  forall (cfg : option CFG),
    (length (default [] (TimeCode <$> cfg)) < 19)%nat ->
    exists ns, GetTimeCodeOffset cfg = Returns ns.
Proof.
  intros [c |] Hlen; cbn [GetTimeCodeOffset]; [| eauto].
  cbn [fmap option_fmap option_map default from_option id] in Hlen.
  destruct (bool_decide (TimeCode c = [])); [eauto |].
  unfold timeCodeToNS.
  destruct (TimeCode.findHours (TimeCode c)) as [g |] eqn:Eh; [| eauto].
  apply findHours_inv in Eh as (s & ds & -> & Hs & Hne & Hds & Hg).
  cbn [length] in Hg.
  destruct (Atoi_signed s ds Hs Hne ltac:(lia) Hds) as (n & _ & ->). cbv zeta.
  destruct (TimeCode.findMinutes (TimeCode c)) as [ms |] eqn:Em; [| eauto].
  apply findMinutes_inv in Em as (Hme & Hms & Hl).
  destruct (Atoi_digits ms Hme ltac:(lia) Hms) as (n' & _ & ->). eauto.
Qed.

(** X18.  A time code made of a sign and 19 or more digits of hours that
    are beyond the 64-bit integers makes [GetTimeCodeOffset] end the
    process: [Atoi] fails and the failure is passed to [log.Fatal]. *)
Theorem long_hours_exit :
  forall (cfg : CFG) (s : ascii) (w : nat) (h : Z),
    TimeCode.isSign s = true -> (19 <= w)%nat -> 2 ^ 63 < h < 10 ^ Z.of_nat w ->
    GetTimeCodeOffset (Some (set_TimeCode (s :: decimal w h) cfg)) =
      Exits "error parsing hour for time code".
Proof.
  intros cfg s w h Hs Hw Hh. unfold GetTimeCodeOffset. rewrite TimeCode_set.
  rewrite bool_decide_eq_false_2 by discriminate.
  unfold timeCodeToNS.
  rewrite <- (app_nil_r (decimal w h)) at 1.
  rewrite findHours_signed;
    [| exact Hs | apply decimal_ne; lia | apply decimal_isDigit | intros c [=]].
  rewrite (Atoi_out_of_range s w h Hs Hw Hh). reflexivity.
Qed.

End TimeCodeOffset.

(** ** The theorems at concrete documents *)

Module Witness.
Import Examples.

Abbreviation F := PrimFloat64.instance.

Ltac run := vm_compute; first [reflexivity | discriminate | lia].

(** C1 as first stated fails: for a decoded configuration that declares no
    sample, the empty data file has the length the claim asks for, and
    [GetAnalogChannelData] returns an error. *)
Lemma empty_data_file_refused :
  let cfg := (decode (oneChannel "0")).1 in
  let a := ChannelA.GetChannelTotal (AnalogDetail cfg) in
  let d := ChannelD.GetChannelTotal (DigitDetail cfg) in
  (decode (oneChannel "0")).2 = Ok tt /\
  GetSamplingNumber cfg = 0 /\
  GetSamplingNumber cfg * NB a d <= slen nilSlice /\
  1 <= 1 <= a /\
  extract cfg nilSlice 1 = Err (errorString "not data content, read .dat first").
Proof. repeat split; run. Qed.

(** A decoding that returns normally, as an equation on [ReadCFG]. *)
Lemma decode_Ok (content : bytes) :
  (decode content).2 = Ok tt ->
  ReadCFG (H := F) content NewCFG = ((decode content).1, Ok tt).
Proof. unfold decode. intros <-. apply surjective_pairing. Qed.

Lemma analog_channel_data_witness :
  let cfg := (decode (oneChannel "1")).1 in
  let data := sliceOf record10 in
  let a := ChannelA.GetChannelTotal (AnalogDetail cfg) in
  let d := ChannelD.GetChannelTotal (DigitDetail cfg) in
  let n := GetSamplingNumber cfg in
  (decode (oneChannel "1")).2 = Ok tt /\
  slen data <> 0 /\
  n * NB a d <= slen data /\
  1 <= 1 <= a /\
  exists (fa fb : @float64 F) (vs : list (@float64 F)),
    factorsA (default ChannelA.zero (AnalogDetail cfg)) !! Z.to_nat (1 - 1) = Some fa /\
    factorsB (default ChannelA.zero (AnalogDetail cfg)) !! Z.to_nat (1 - 1) = Some fb /\
    GetAnalogChannelData (H := F) (Some (ReadDAT cfg data)) 1 = Ok vs /\
    length vs = Z.to_nat n /\
    forall i, 0 <= i < n ->
      vs !! Z.to_nat i =
        Some (@float64_add F
                (@float64_mul F (@float64_of_int16 F (rawSample (contents data) (NB a d) 1 i))
                              fa)
                fb).
Proof.
  cbv zeta.
  assert ((decode (oneChannel "1")).2 = Ok tt) as E by run.
  assert (slen (sliceOf record10) <> 0) as Hdata by run.
  assert (GetSamplingNumber (decode (oneChannel "1")).1 *
            NB (ChannelA.GetChannelTotal (AnalogDetail (decode (oneChannel "1")).1))
               (ChannelD.GetChannelTotal (DigitDetail (decode (oneChannel "1")).1))
          <= slen (sliceOf record10)) as Hlen by run.
  assert (1 <= 1 <= ChannelA.GetChannelTotal (AnalogDetail (decode (oneChannel "1")).1))
    as Hnum by (split; run).
  split; [exact E |]. split; [exact Hdata |]. split; [exact Hlen |]. split; [exact Hnum |].
  exact (proj1 (analog_channel_data (H := F)) _ NewCFG _ (sliceOf record10) 1
           (decode_Ok _ E) Hdata Hlen Hnum).
Defined.

Lemma short_buffer_panics_witness :
  let cfg := (decode (oneChannel "2")).1 in
  let data := sliceOf record10 in
  let a := ChannelA.GetChannelTotal (AnalogDetail cfg) in
  let d := ChannelD.GetChannelTotal (DigitDetail cfg) in
  let n := GetSamplingNumber cfg in
  (decode (oneChannel "2")).2 = Ok tt /\
  slen data <> 0 /\
  scap data < n * NB a d /\
  1 <= 1 <= a /\
  exists k, 0 <= k < n /\
    GetAnalogChannelData (H := F) (Some (ReadDAT cfg data)) 1 =
      Panic (SliceBoundsOutOfRange (k * NB a d + NB a d) (scap data)).
Proof.
  cbv zeta.
  assert ((decode (oneChannel "2")).2 = Ok tt) as E by run.
  assert (slen (sliceOf record10) <> 0) as Hdata by run.
  assert (scap (sliceOf record10) <
          GetSamplingNumber (decode (oneChannel "2")).1 *
            NB (ChannelA.GetChannelTotal (AnalogDetail (decode (oneChannel "2")).1))
               (ChannelD.GetChannelTotal (DigitDetail (decode (oneChannel "2")).1)))
    as Hcap by run.
  assert (1 <= 1 <= ChannelA.GetChannelTotal (AnalogDetail (decode (oneChannel "2")).1))
    as Hnum by (split; run).
  split; [exact E |]. split; [exact Hdata |]. split; [exact Hcap |]. split; [exact Hnum |].
  exact (short_buffer_panics (H := F) _ NewCFG _ (sliceOf record10) 1
           (decode_Ok _ E) Hdata Hcap Hnum).
Defined.

Lemma truncated_document_panics_witness :
  let lines := GoBytes.Split firstLineOnly "010"%char in
  let s1 := (readFirstLine (H := F) lines NewCFG).1 in
  len lines = 1 /\
  (readFirstLine (H := F) lines NewCFG).2 = Ok tt /\
  readLines (H := F) lines NewCFG = (s1, Panic (IndexOutOfRange 1 1)).
Proof.
  cbv zeta.
  assert (len (GoBytes.Split firstLineOnly "010"%char) = 1) as Hlen by run.
  assert ((readFirstLine (H := F) (GoBytes.Split firstLineOnly "010"%char) NewCFG).2 = Ok tt)
    as E by run.
  split; [exact Hlen |]. split; [exact E |].
  refine (proj1 (proj2 (truncated_document_panics (H := F))) _ NewCFG _ Hlen _).
  rewrite <- E. apply surjective_pairing.
Defined.

(** C6 as first stated fails: a timestamp line of six comma fields, joined
    with [T], does not parse, and [ReadCFG] returns the error. *)
Lemma six_field_timestamp_refused :
  (decode sixFields).2 = Err (ParseError TimeFormat (B "01T02T2020T10T30T00.000000")).
Proof. run. Qed.

Lemma timestamps_decoded_witness :
  let lines := GoBytes.Split (oneChannel "1") "010"%char in
  let t := GoTime.mkTime 2020 2 1 10 30 0 0 in
  validTime t /\
  lines !! Z.to_nat (wrap16 (4 + 1 + 1 + 0)) = Some (timestampLine t) /\
  readStartTime (H := F) lines 1 1 0 NewCFG = (set_StartTime t NewCFG, Ok tt).
Proof.
  cbv zeta.
  assert (validTime (GoTime.mkTime 2020 2 1 10 30 0 0)) as Hv
    by (unfold validTime; repeat split; run).
  assert (GoBytes.Split (oneChannel "1") "010"%char !! Z.to_nat (wrap16 (4 + 1 + 1 + 0)) =
          Some (timestampLine (GoTime.mkTime 2020 2 1 10 30 0 0))) as Hl by run.
  split; [exact Hv |]. split; [exact Hl |].
  exact (proj1 (timestamps_decoded (H := F)) _ 1 1 0 NewCFG _ Hv Hl).
Defined.

(** C7 as first stated fails: [ReadCFG] succeeds on a document that
    declares 5 channels in total, 1 analog and 0 digit, and stores these
    numbers. *)
Lemma declared_total_unchecked :
  let cfg := (decode fiveDeclared).1 in
  (decode fiveDeclared).2 = Ok tt /\
  ChannelNumber cfg = 5 /\
  ChannelA.GetChannelTotal (AnalogDetail cfg) = 1 /\
  ChannelD.GetChannelTotal (DigitDetail cfg) = 0 /\
  ChannelNumber cfg <>
    ChannelA.GetChannelTotal (AnalogDetail cfg) + ChannelD.GetChannelTotal (DigitDetail cfg).
Proof. repeat split; run. Qed.

Lemma channel_totals_as_declared_witness :
  let cfg := (decode fiveDeclared).1 in
  (decode fiveDeclared).2 = Ok tt /\
  exists (l : bytes) (t a d : Z),
    GoBytes.Split fiveDeclared "010"%char !! 1%nat = Some l /\
    declared l = Some (t, a, d) /\
    ChannelNumber cfg = t /\
    ChannelA.GetChannelTotal (AnalogDetail cfg) = a /\
    ChannelD.GetChannelTotal (DigitDetail cfg) = d /\
    (ChannelNumber cfg =
       ChannelA.GetChannelTotal (AnalogDetail cfg) + ChannelD.GetChannelTotal (DigitDetail cfg)
     <-> t = a + d).
Proof.
  cbv zeta.
  assert ((decode fiveDeclared).2 = Ok tt) as E by run.
  split; [exact E |].
  exact (channel_totals_as_declared (H := F) _ NewCFG _ (decode_Ok _ E)).
Defined.

Lemma zero_rate_count_as_one_witness :
  let content0 := GoBytes.Join (beforeRateNum ++ B "0" :: afterRateNum) ["010"%char] in
  let content1 := GoBytes.Join (beforeRateNum ++ B "1" :: afterRateNum) ["010"%char] in
  GoBytes.Split content0 "010"%char = beforeRateNum ++ B "0" :: afterRateNum /\
  GoBytes.Split content1 "010"%char = beforeRateNum ++ B "1" :: afterRateNum /\
  beforeRateNum !! 1%nat = Some (B "1,1A,0D") /\
  declared (B "1,1A,0D") = Some (1, 1, 0) /\
  Z.of_nat (length beforeRateNum) = 3 + 1 + 0 /\
  reads (B "0") = Ok 0 /\
  reads (B "1") = Ok 1 /\
  ReadCFG (H := F) content0 NewCFG = ReadCFG (H := F) content1 NewCFG.
Proof.
  cbv zeta.
  set (content0 := GoBytes.Join (beforeRateNum ++ B "0" :: afterRateNum) ["010"%char]).
  set (content1 := GoBytes.Join (beforeRateNum ++ B "1" :: afterRateNum) ["010"%char]).
  assert (GoBytes.Split content0 "010"%char = beforeRateNum ++ B "0" :: afterRateNum) as E0
    by run.
  assert (GoBytes.Split content1 "010"%char = beforeRateNum ++ B "1" :: afterRateNum) as E1
    by run.
  assert (beforeRateNum !! 1%nat = Some (B "1,1A,0D")) as Hsec by run.
  assert (declared (B "1,1A,0D") = Some (1, 1, 0)) as Hdec by run.
  assert (Z.of_nat (length beforeRateNum) = 3 + 1 + 0) as Hk by run.
  assert (reads (B "0") = Ok 0) as Hr0 by run.
  assert (reads (B "1") = Ok 1) as Hr1 by run.
  repeat (split; [assumption |]).
  exact (proj1 (zero_rate_count_as_one (H := F) content0 content1 _ _ _ _ _ 1 1 0 NewCFG
                  E0 E1 Hsec Hdec Hk Hr0 Hr1)).
Defined.

Lemma time_code_line_witness :
  let lines := GoBytes.Split endsAtTimeFactor "010"%char in
  wrap16 (8 + 1 + 1 + 0) = len lines /\
  readTimeCode (H := F) lines 1 1 0 NewCFG =
    (NewCFG, Panic (IndexOutOfRange (len lines) (len lines))).
Proof.
  cbv zeta.
  assert (wrap16 (8 + 1 + 1 + 0) = len (GoBytes.Split endsAtTimeFactor "010"%char)) as E by run.
  split; [exact E |].
  exact (proj1 (time_code_line (H := F)) _ 1 1 0 NewCFG E).
Defined.

Lemma optional_fields_asymmetry_witness :
  let tempList :=
    GoBytes.Split (B "1, Line A ,A,,V,2.0,1.0,0,-32767,32767,x,1,P") ","%char in
  tempList !! 10%nat = Some (B "x") /\
  ParseFloat (H := F) (ByteToString (B "x")) = Err (NumError "ParseFloat" (B "x") ErrSyntax) /\
  readPrimary (H := F) tempList NewCFG = (NewCFG, Ok tt).
Proof.
  cbv zeta.
  assert (GoBytes.Split (B "1, Line A ,A,,V,2.0,1.0,0,-32767,32767,x,1,P") ","%char !! 10%nat
          = Some (B "x")) as Hf by run.
  assert (ParseFloat (H := F) (ByteToString (B "x")) =
          Err (NumError "ParseFloat" (B "x") ErrSyntax)) as He by run.
  split; [exact Hf |]. split; [exact He |].
  exact (proj1 (optional_fields_asymmetry (H := F)) _ NewCFG _ _ Hf He).
Defined.

End Witness.

(** ** The further theorems at concrete documents *)

Module ExtraWitness.
Import Examples MoreExamples.

Abbreviation F := PrimFloat64.instance.

Ltac run := vm_compute; first [reflexivity | discriminate | lia].

Lemma analog_table_lengths_witness :
  let cfg := (decode twoChannels).1 in
  (decode twoChannels).2 = Ok tt /\
  exists chA,
    AnalogDetail cfg = Some chA /\
    analogLengths chA (Z.to_nat (ChannelA.ChannelTotal chA)) /\
    length (GetAnalogChannelNames (Some cfg)) = Z.to_nat (ChannelA.ChannelTotal chA).
Proof.
  cbv zeta. assert ((decode twoChannels).2 = Ok tt) as E by run.
  split; [exact E |].
  exact (analog_table_lengths (H := F) _ NewCFG _ (Witness.decode_Ok _ E)).
Defined.

Lemma digit_table_lengths_witness :
  let cfg := (decode twoChannels).1 in
  (decode twoChannels).2 = Ok tt /\
  exists chD,
    DigitDetail cfg = Some chD /\
    digitLengths chD (Z.to_nat (ChannelD.ChannelTotal chD)).
Proof.
  cbv zeta. assert ((decode twoChannels).2 = Ok tt) as E by run.
  split; [exact E |].
  exact (digit_table_lengths (H := F) _ NewCFG _ (Witness.decode_Ok _ E)).
Defined.

Lemma decoded_document_lines_witness :
  let cfg := (decode twoChannels).1 in
  let lines := GoBytes.Split twoChannels "010"%char in
  let a := ChannelA.GetChannelTotal (AnalogDetail cfg) in
  let d := ChannelD.GetChannelTotal (DigitDetail cfg) in
  let r := SampleRateNum cfg in
  (decode twoChannels).2 = Ok tt /\
  (forall i, 0 <= i < a ->
     exists l, lines !! Z.to_nat (2 + i) = Some l /\ 10 <= len (GoBytes.Split l ","%char)) /\
  (forall i, 0 <= i < d ->
     exists l, lines !! Z.to_nat (2 + a + i) = Some l /\
               3 <= len (GoBytes.Split l ","%char)) /\
  (forall i, 0 <= i < r ->
     exists l, lines !! Z.to_nat (4 + i + a + d) = Some l /\
               2 <= len (GoBytes.Split l ","%char)) /\
  4 + r + a + d <= len lines.
Proof.
  cbv zeta. assert ((decode twoChannels).2 = Ok tt) as E by run.
  split; [exact E |].
  exact (decoded_document_lines (H := F) _ NewCFG _ (Witness.decode_Ok _ E)).
Defined.

Lemma analog_rows_decoded_witness :
  let cfg := (decode twoChannels).1 in
  (decode twoChannels).2 = Ok tt /\
  exists chA,
    AnalogDetail cfg = Some chA /\
    forall i, 0 <= i < ChannelA.ChannelTotal chA ->
      exists l, GoBytes.Split twoChannels "010"%char !! Z.to_nat (2 + i) = Some l /\
                analogEntry l chA (Z.to_nat i).
Proof.
  cbv zeta. assert ((decode twoChannels).2 = Ok tt) as E by run.
  split; [exact E |].
  exact (analog_rows_decoded (H := F) _ NewCFG _ (Witness.decode_Ok _ E)).
Defined.

Lemma digit_rows_decoded_witness :
  let cfg := (decode twoChannels).1 in
  (decode twoChannels).2 = Ok tt /\
  exists chD,
    DigitDetail cfg = Some chD /\
    forall i, 0 <= i < ChannelD.ChannelTotal chD ->
      exists l,
        GoBytes.Split twoChannels "010"%char
          !! Z.to_nat (2 + ChannelA.GetChannelTotal (AnalogDetail cfg) + i) = Some l /\
        digitEntry l chD (Z.to_nat i).
Proof.
  cbv zeta. assert ((decode twoChannels).2 = Ok tt) as E by run.
  split; [exact E |].
  exact (digit_rows_decoded (H := F) _ NewCFG _ (Witness.decode_Ok _ E)).
Defined.

Lemma sample_rates_decoded_witness :
  let cfg := (decode twoChannels).1 in
  (decode twoChannels).2 = Ok tt /\
  exists srs,
    SampleDetail cfg = SampleDetail (NewCFG (H := F)) ++ srs /\
    length srs = Z.to_nat (SampleRateNum cfg) /\
    forall i, 0 <= i < SampleRateNum cfg ->
      exists l sr,
        GoBytes.Split twoChannels "010"%char
          !! Z.to_nat (4 + i + ChannelA.GetChannelTotal (AnalogDetail cfg) +
                       ChannelD.GetChannelTotal (DigitDetail cfg)) = Some l /\
        srs !! Z.to_nat i = Some sr /\ rateEntry l sr.
Proof.
  cbv zeta. assert ((decode twoChannels).2 = Ok tt) as E by run.
  split; [exact E |].
  exact (sample_rates_decoded (H := F) _ NewCFG _ (Witness.decode_Ok _ E)).
Defined.

Lemma redecoding_keeps_first_rate_witness :
  let cfg1 := (decode (oneChannel "1")).1 in
  let cfg2 := (ReadCFG (H := F) (oneChannel "2") cfg1).1 in
  (decode (oneChannel "1")).2 = Ok tt /\
  (ReadCFG (H := F) (oneChannel "2") cfg1).2 = Ok tt /\
  GetSamplingNumber cfg2 = GetSamplingNumber cfg1 /\
  GetSamplingRate cfg2 = GetSamplingRate cfg1 /\
  len (SampleDetail cfg2) = len (SampleDetail cfg1) + SampleRateNum cfg2.
Proof.
  cbv zeta. assert ((decode (oneChannel "1")).2 = Ok tt) as E1 by run.
  assert ((ReadCFG (H := F) (oneChannel "2") (decode (oneChannel "1")).1).2 = Ok tt) as E2
    by run.
  split; [exact E1 |]. split; [exact E2 |].
  refine (redecoding_keeps_first_rate (H := F) _ (oneChannel "2") NewCFG _ _
            (Witness.decode_Ok _ E1) _).
  rewrite <- E2. apply surjective_pairing.
Defined.

Lemma first_line_decoded_witness :
  let cfg := (decode twoChannels).1 in
  (decode twoChannels).2 = Ok tt /\
  exists l,
    GoBytes.Split twoChannels "010"%char !! 0%nat = Some l /\
    2 <= len (GoBytes.Split l ","%char) /\
    StationName cfg = fieldOf l 0 /\ RecordDeviceId cfg = fieldOf l 1 /\
    (if 2 <? len (GoBytes.Split l ","%char)
     then Strconv.ParseUint (fieldOf l 2) 16 = Ok (RevisionYear cfg)
     else RevisionYear cfg = RevisionYear (NewCFG (H := F))).
Proof.
  cbv zeta. assert ((decode twoChannels).2 = Ok tt) as E by run.
  split; [exact E |].
  exact (first_line_decoded (H := F) _ NewCFG _ (Witness.decode_Ok _ E)).
Defined.

Lemma frequency_type_factor_decoded_witness :
  let cfg := (decode twoChannels).1 in
  let lines := GoBytes.Split twoChannels "010"%char in
  let a := ChannelA.GetChannelTotal (AnalogDetail cfg) in
  let d := ChannelD.GetChannelTotal (DigitDetail cfg) in
  let r := SampleRateNum cfg in
  (decode twoChannels).2 = Ok tt /\
  exists lF lT lM,
    (lines !! Z.to_nat (wrap16 (2 + a + d)) = Some lF /\
     exists x, ParseFloat (H := F) (fieldOf lF 0) = Ok x /\
               LineFrequency cfg = uint16_of_float64 x) /\
    (lines !! Z.to_nat (wrap16 (6 + r + a + d)) = Some lT /\
     DataFileType cfg = fieldOf lT 0) /\
    (lines !! Z.to_nat (wrap16 (7 + r + a + d)) = Some lM /\
     if bool_decide (hd [] (GoBytes.Split lM ","%char) = [])
     then TimeFactor cfg = float64_one
     else ParseFloat (fieldOf lM 0) = Ok (TimeFactor cfg)).
Proof.
  cbv zeta. assert ((decode twoChannels).2 = Ok tt) as E by run.
  split; [exact E |].
  exact (frequency_type_factor_decoded (H := F) _ NewCFG _ (Witness.decode_Ok _ E)).
Defined.

Lemma first_line_without_comma_witness :
  (","%char ∉ hd [] (GoBytes.Split (B "STATION") "010"%char)) /\
  ReadCFG (H := F) (B "STATION") NewCFG =
    (NewCFG,
     Err (errorf "cfg format error: Missing info in first line of cfg file. Line has %d parts" 1)).
Proof.
  assert (","%char ∉ hd [] (GoBytes.Split (B "STATION") "010"%char)) as Hc
    by (apply (bool_decide_unpack _); vm_compute; exact I).
  split; [exact Hc |].
  exact (first_line_without_comma (H := F) _ NewCFG Hc).
Defined.

Lemma missing_stream_tags_witness :
  let lines := GoBytes.Split missingTags "010"%char in
  let s1 := (readFirstLine (H := F) lines NewCFG).1 in
  (readFirstLine (H := F) lines NewCFG).2 = Ok tt /\
  lines !! 1%nat = Some (B "2,1X,1D") /\
  GoBytes.Split (B "2,1X,1D") ","%char = [B "2"; B "1X"; B "1D"] /\
  Strconv.ParseUint (ByteToString (B "2")) 16 = Ok 2 /\
  ("A"%char ∉ B "1X" \/ "D"%char ∉ B "1D") /\
  ReadCFG (H := F) missingTags NewCFG =
    (set_ChannelNumber 2 s1,
     Err (errorString
            "cfg format error: Missing either analog or digital stream numbers in cfg file")) /\
  AnalogDetail (set_ChannelNumber 2 s1) = AnalogDetail (NewCFG (H := F)) /\
  DigitDetail (set_ChannelNumber 2 s1) = DigitDetail (NewCFG (H := F)).
Proof.
  cbv zeta.
  assert ((readFirstLine (H := F) (GoBytes.Split missingTags "010"%char) NewCFG).2 = Ok tt)
    as E by run.
  assert (GoBytes.Split missingTags "010"%char !! 1%nat = Some (B "2,1X,1D")) as Hl by run.
  assert (GoBytes.Split (B "2,1X,1D") ","%char = [B "2"; B "1X"; B "1D"]) as Hs by run.
  assert (Strconv.ParseUint (ByteToString (B "2")) 16 = Ok 2) as Ht by run.
  assert ("A"%char ∉ B "1X" \/ "D"%char ∉ B "1D") as Htag
    by (left; apply (bool_decide_unpack _); vm_compute; exact I).
  split; [exact E |]. split; [exact Hl |]. split; [exact Hs |]. split; [exact Ht |].
  split; [exact Htag |].
  refine (missing_stream_tags (H := F) missingTags NewCFG _ _ _ _ _ _ 2 _ Hl Hs Ht Htag).
  rewrite <- E. apply surjective_pairing.
Defined.

Lemma analog_channel_data_within_capacity_witness :
  slen shortSlice <> 0 /\ slen shortSlice < 2 * NB 1 0 /\
  AnalogDetail handBuilt = Some handChA /\ DigitDetail handBuilt = Some handChD /\
  SampleDetail handBuilt = [SampleRate.mk (H := F) (f64 1000) 2] /\
  0 <= 0 /\ 1 <= 1 <= 1 /\ 2 * NB 1 0 <= scap shortSlice /\
  factorsA handChA !! Z.to_nat (1 - 1) = Some (f64 2) /\
  factorsB handChA !! Z.to_nat (1 - 1) = Some (f64 1) /\
  exists vs,
    GetAnalogChannelData (H := F) (Some handBuilt) 1 = Ok vs /\
    length vs = Z.to_nat 2 /\
    forall i, 0 <= i < 2 ->
      vs !! Z.to_nat i =
        Some (@float64_add F
                (@float64_mul F
                   (@float64_of_int16 F
                      (rawSample (contents shortSlice ++ spare shortSlice) (NB 1 0) 1 i))
                   (f64 2))
                (f64 1)).
Proof.
  assert (slen shortSlice <> 0) as Hdata by run.
  assert (slen shortSlice < 2 * NB 1 0) as Hshort by run.
  assert (0 <= 0) as Hd by lia.
  assert (1 <= 1 <= 1) as Hnum by lia.
  assert (2 * NB 1 0 <= scap shortSlice) as Hcap by run.
  split; [exact Hdata |]. split; [exact Hshort |].
  split; [reflexivity |]. split; [reflexivity |]. split; [reflexivity |].
  split; [exact Hd |]. split; [exact Hnum |]. split; [exact Hcap |].
  split; [reflexivity |]. split; [reflexivity |].
  exact (analog_channel_data_within_capacity (H := F) handBuilt handChA handChD
           (SampleRate.mk (H := F) (f64 1000) 2) [] 1 (f64 2) (f64 1)
           eq_refl eq_refl eq_refl Hdata Hd Hnum Hcap eq_refl eq_refl).
Defined.

Lemma analog_channel_data_guards_witness :
  let cfg := Some (ReadDAT (decode (oneChannel "1")).1 (sliceOf record10)) in
  GetAnalogChannelData (H := F) cfg 1 = Ok [21%float] /\
  exists c chA chD sr rest,
    cfg = Some c /\ slen (DataFileContent c) <> 0 /\
    AnalogDetail c = Some chA /\ DigitDetail c = Some chD /\
    1 <= 1 <= ChannelA.ChannelTotal chA /\
    SampleDetail c = sr :: rest /\
    length [21%float] = Z.to_nat (SampleRate.Number sr) /\
    (0 < SampleRate.Number sr ->
     SampleRate.Number sr * NB (ChannelA.ChannelTotal chA) (ChannelD.ChannelTotal chD)
       <= scap (DataFileContent c)).
Proof.
  cbv zeta.
  assert (GetAnalogChannelData (H := F)
            (Some (ReadDAT (decode (oneChannel "1")).1 (sliceOf record10))) 1 =
          Ok [21%float]) as E by run.
  split; [exact E |].
  exact (analog_channel_data_guards (H := F) _ 1 _ E).
Defined.

Lemma samples_calibrated_by_row_witness :
  let cfg := (decode (oneChannel "1")).1 in
  let data := sliceOf record10 in
  let a := ChannelA.GetChannelTotal (AnalogDetail cfg) in
  let d := ChannelD.GetChannelTotal (DigitDetail cfg) in
  let n := GetSamplingNumber cfg in
  (decode (oneChannel "1")).2 = Ok tt /\
  slen data <> 0 /\
  n * NB a d <= scap data /\
  1 <= 1 <= a /\
  exists (l : bytes) (fa fb : @float64 F) (vs : list (@float64 F)),
    GoBytes.Split (oneChannel "1") "010"%char !! Z.to_nat (1 + 1) = Some l /\
    ParseFloat (fieldOf l 5) = Ok fa /\ ParseFloat (fieldOf l 6) = Ok fb /\
    GetAnalogChannelData (H := F) (Some (ReadDAT cfg data)) 1 = Ok vs /\
    length vs = Z.to_nat n /\
    forall i, 0 <= i < n ->
      vs !! Z.to_nat i =
        Some (@float64_add F
                (@float64_mul F
                   (@float64_of_int16 F
                      (rawSample (contents data ++ spare data) (NB a d) 1 i)) fa)
                fb).
Proof.
  cbv zeta.
  assert ((decode (oneChannel "1")).2 = Ok tt) as E by run.
  assert (slen (sliceOf record10) <> 0) as Hdata by run.
  assert (GetSamplingNumber (decode (oneChannel "1")).1 *
            NB (ChannelA.GetChannelTotal (AnalogDetail (decode (oneChannel "1")).1))
               (ChannelD.GetChannelTotal (DigitDetail (decode (oneChannel "1")).1))
          <= scap (sliceOf record10)) as Hcap by run.
  assert (1 <= 1 <= ChannelA.GetChannelTotal (AnalogDetail (decode (oneChannel "1")).1))
    as Hnum by (split; run).
  split; [exact E |]. split; [exact Hdata |]. split; [exact Hcap |]. split; [exact Hnum |].
  exact (samples_calibrated_by_row (H := F) _ NewCFG _ (sliceOf record10) 1
           (Witness.decode_Ok _ E) Hdata Hcap Hnum).
Defined.

Lemma stored_names_without_space_witness :
  let cfg := (decode twoChannels).1 in
  (decode twoChannels).2 = Ok tt /\
  Forall (fun name => " "%char ∉ name) (GetAnalogChannelNames (Some cfg)) /\
  Forall (fun name => " "%char ∉ name)
         (default [] (ChannelD.ChannelNames <$> DigitDetail cfg)).
Proof.
  cbv zeta. assert ((decode twoChannels).2 = Ok tt) as E by run.
  split; [exact E |].
  exact (stored_names_without_space (H := F) _ NewCFG _ (Witness.decode_Ok _ E)).
Defined.

Lemma unsigned_time_code_is_zero_witness :
  ("+"%char ∉ B "10h30") /\ ("-"%char ∉ B "10h30") /\
  GetTimeCodeOffset (H := F) (Some (set_TimeCode (B "10h30") NewCFG)) = Returns 0.
Proof.
  assert ("+"%char ∉ B "10h30") as Hp by (apply (bool_decide_unpack _); vm_compute; exact I).
  assert ("-"%char ∉ B "10h30") as Hm by (apply (bool_decide_unpack _); vm_compute; exact I).
  split; [exact Hp |]. split; [exact Hm |].
  exact (unsigned_time_code_is_zero (H := F) NewCFG _ Hp Hm).
Defined.

Lemma time_code_offset_witness :
  TimeCode.isSign "-"%char = true /\ TimeCode.isHT "h"%char = true /\
  (0 < 1 <= 6)%nat /\ (0 < 2 <= 6)%nat /\
  0 <= 7 < 10 ^ Z.of_nat 1 /\ 0 <= 15 < 10 ^ Z.of_nat 2 /\
  GetTimeCodeOffset (H := F) (Some (set_TimeCode ("-"%char :: decimal 1 7) NewCFG)) =
    Returns ((if bool_decide ("-"%char = "-"%char) then - 7 else 7) * 3600000000000) /\
  GetTimeCodeOffset (H := F)
    (Some (set_TimeCode ("-"%char :: decimal 1 7 ++ ["h"%char]) NewCFG)) =
    Returns ((if bool_decide ("-"%char = "-"%char) then - 7 else 7) * 3600000000000) /\
  GetTimeCodeOffset (H := F)
    (Some (set_TimeCode ("-"%char :: decimal 1 7 ++ "h"%char :: decimal 2 15) NewCFG)) =
    Returns ((if bool_decide ("-"%char = "-"%char) then - 7 else 7) * 3600000000000 +
             15 * 60000000000).
Proof.
  assert ((0 < 1 <= 6)%nat) as Hw by lia.
  assert ((0 < 2 <= 6)%nat) as Hw' by lia.
  assert (0 <= 7 < 10 ^ Z.of_nat 1) as Hh by (simpl; lia).
  assert (0 <= 15 < 10 ^ Z.of_nat 2) as Hm by (simpl; lia).
  split; [reflexivity |]. split; [reflexivity |].
  split; [exact Hw |]. split; [exact Hw' |]. split; [exact Hh |]. split; [exact Hm |].
  exact (time_code_offset (H := F) NewCFG "-"%char "h"%char 1 2 7 15
           eq_refl eq_refl Hw Hw' Hh Hm).
Defined.

Lemma short_time_code_returns_witness :
  let cfg := Some (set_TimeCode (B "+10h30") (NewCFG (H := F))) in
  (length (default [] (TimeCode <$> cfg)) < 19)%nat /\
  exists ns, GetTimeCodeOffset cfg = Returns ns.
Proof.
  cbv zeta.
  assert ((length (default [] (TimeCode <$> Some (set_TimeCode (B "+10h30") (NewCFG (H := F)))))
           < 19)%nat) as Hlen by (cbn; lia).
  split; [exact Hlen |].
  exact (short_time_code_returns (H := F) _ Hlen).
Defined.

Lemma long_hours_exit_witness :
  TimeCode.isSign "+"%char = true /\ (19 <= 19)%nat /\
  2 ^ 63 < 9999999999999999999 < 10 ^ Z.of_nat 19 /\
  GetTimeCodeOffset (H := F)
    (Some (set_TimeCode ("+"%char :: decimal 19 9999999999999999999) NewCFG)) =
    Exits "error parsing hour for time code".
Proof.
  assert ((19 <= 19)%nat) as Hw by lia.
  assert (2 ^ 63 < 9999999999999999999 < 10 ^ Z.of_nat 19) as Hh by (split; reflexivity).
  split; [reflexivity |]. split; [exact Hw |]. split; [exact Hh |].
  exact (long_hours_exit (H := F) NewCFG "+"%char 19 9999999999999999999 eq_refl Hw Hh).
Defined.

End ExtraWitness.
